(** * Proxy-Cheap integration: API client, normaliser and coordinator

    A shallow embedding of [custom_components/proxy_cheap/api.py] and
    [custom_components/proxy_cheap/coordinator.py], and of the parts of
    [sensor.py], [binary_sensor.py], [config_flow.py] and [__init__.py]
    that read the snapshot or call the client.

    Conventions of the embedding.
    - A decoded JSON document is a [value].  JSON objects are Python
      [dict[str, Any]] (the annotation used throughout the source) and
      are kept as insertion-ordered association lists with string keys.
    - Python [str] is modelled by [string], which holds the UTF-8
      bytes of the text.  [upper] is [str.upper()] on all of Unicode;
      [lower] and [strip] are the ASCII parts of [str.lower()] and
      [str.strip()].
    - Numbers are Python [int]s ([Z]) and [float]s, the latter as
      IEEE 754 binary64 values ([spec_float], with the operations of
      the standard library's specification of floating point).
    - A Python call either returns or raises: [result A].
    - Logging through [_LOGGER] at WARNING and ERROR level is threaded
      as an explicit list of records ([io]).  DEBUG records of the
      coordinator print whole objects and are not kept; the one place
      where building such a record can itself raise ([proxy.keys()]) is
      modelled. *)

From Stdlib Require Import ZArith NArith List String Ascii Bool Lia.
From Stdlib Require Import DecimalString SpecFloat.
From Stdlib Require DecimalPos DecimalZ.
Import ListNotations.
Local Open Scope string_scope.
Local Open Scope Z_scope.

Set Warnings "-register-all".

(* ------------------------------------------------------------------ *)
(** ** Python values *)

Inductive value : Type :=
| VNone
| VBool (b : bool)
| VInt (z : Z)
| VFloat (f : spec_float)
| VStr (s : string)
| VList (l : list value)
| VDict (d : list (string * value)).

Definition dict := list (string * value).

(** Exceptions that the modelled code raises, catches or lets through. *)
Inductive exn : Type :=
| ProxyCheapApiError (msg : string)
| ProxyCheapAuthError (msg : string)   (* subclass of ProxyCheapApiError *)
| UpdateFailed (msg : string)
| TimeoutError (msg : string)          (* asyncio.TimeoutError *)
| ClientError (msg : string)           (* aiohttp.ClientError *)
| CancelledError   (* the cancellation delivered when [asyncio.timeout]
                      expires; a BaseException, not an Exception *)
| AttributeError (msg : string)
| TypeError (msg : string)
| KeyError (msg : string)
| OverflowError (msg : string)
| OtherException (msg : string).

Inductive result (A : Type) : Type :=
| Ok (a : A)
| Err (e : exn).
Arguments Ok {A} a.
Arguments Err {A} e.

Definition bind {A B} (r : result A) (k : A -> result B) : result B :=
  match r with
  | Ok a => k a
  | Err e => Err e
  end.

Notation "x <- r ;; k" := (bind r (fun x => k))
  (at level 61, r at next level, right associativity).

(** [str(err)] of an exception built from one message argument. *)
Definition exn_str (e : exn) : string :=
  match e with
  | ProxyCheapApiError m | ProxyCheapAuthError m | UpdateFailed m
  | TimeoutError m | ClientError m | AttributeError m | TypeError m
  | KeyError m | OverflowError m | OtherException m => m
  | CancelledError => ""
  end.

(** [isinstance(e, ProxyCheapApiError)]: the class and its subclass. *)
Definition is_ProxyCheapApiError (e : exn) : bool :=
  match e with
  | ProxyCheapApiError _ | ProxyCheapAuthError _ => true
  | _ => false
  end.

Definition is_ProxyCheapAuthError (e : exn) : bool :=
  match e with
  | ProxyCheapAuthError _ => true
  | _ => false
  end.

(** [isinstance(e, Exception)]. *)
Definition is_Exception (e : exn) : bool :=
  match e with
  | CancelledError => false
  | _ => true
  end.

(* ------------------------------------------------------------------ *)
(** ** Strings *)

Definition lower_ascii (c : ascii) : ascii :=
  let n := nat_of_ascii c in
  if ((65 <=? n) && (n <=? 90))%nat then ascii_of_nat (n + 32) else c.

Definition upper_ascii (c : ascii) : ascii :=
  let n := nat_of_ascii c in
  if ((97 <=? n) && (n <=? 122))%nat then ascii_of_nat (n - 32) else c.

Fixpoint str_map (f : ascii -> ascii) (s : string) : string :=
  match s with
  | EmptyString => EmptyString
  | String c t => String (f c) (str_map f t)
  end.

(** [s.lower()] for the ASCII letters; the characters beyond ASCII
    are left as they are, so this is [str.lower()] on ASCII text. *)
Definition lower (s : string) : string := str_map lower_ascii s.


(** A continuation byte of a UTF-8 sequence. *)
Definition is_continuation (c : ascii) : bool :=
  let n := nat_of_ascii c in ((128 <=? n) && (n <=? 191))%nat.

(** The characters of a text: each byte that is not a continuation
    byte, with the continuation bytes that follow it. *)
Fixpoint utf8_chars (s : string) : list string :=
  match s with
  | EmptyString => []
  | String c t =>
      let starts_with_continuation :=
        match t with
        | String c' _ => is_continuation c'
        | EmptyString => false
        end in
      match utf8_chars t with
      | g :: gs =>
          if starts_with_continuation then String c g :: gs
          else String c EmptyString :: g :: gs
      | [] => [String c EmptyString]
      end
  end.

Local Open Scope N_scope.

(** The UTF-8 sequence of a code point. *)
Definition utf8 (cp : N) : string :=
  let b n := ascii_of_N n in
  if cp <? 128 then String (b cp) ""
  else if cp <? 2048 then
    String (b (192 + cp / 64)) (String (b (128 + cp mod 64)) "")
  else if cp <? 65536 then
    String (b (224 + cp / 4096))
      (String (b (128 + (cp / 64) mod 64)) (String (b (128 + cp mod 64)) ""))
  else
    String (b (240 + cp / 262144))
      (String (b (128 + (cp / 4096) mod 64))
         (String (b (128 + (cp / 64) mod 64)) (String (b (128 + cp mod 64)) ""))).

(** The code point of a character, when its bytes are the UTF-8
    sequence of one. *)
Definition code_point (g : string) : option N :=
  let n c := N_of_ascii c in
  let cp :=
    match g with
    | String a "" => n a
    | String a (String b "") => (n a - 192) * 64 + (n b - 128)
    | String a (String b (String c "")) =>
        (n a - 224) * 4096 + (n b - 128) * 64 + (n c - 128)
    | String a (String b (String c (String d ""))) =>
        (n a - 240) * 262144 + (n b - 128) * 4096 + (n c - 128) * 64 + (n d - 128)
    | _ => 0
    end in
  if String.eqb (utf8 cp) g then Some cp else None.

(** The code points above U+007F that [str.upper()] changes, each with
    the code points it becomes (Unicode 14, full case mapping). *)
Definition upper_table : list (N * list N) :=
  [
    (181, [924]); (223, [83; 83]); (224, [192]); (225, [193]); (226, [194]);
    (227, [195]); (228, [196]); (229, [197]); (230, [198]); (231, [199]);
    (232, [200]); (233, [201]); (234, [202]); (235, [203]); (236, [204]);
    (237, [205]); (238, [206]); (239, [207]); (240, [208]); (241, [209]);
    (242, [210]); (243, [211]); (244, [212]); (245, [213]); (246, [214]);
    (248, [216]); (249, [217]); (250, [218]); (251, [219]); (252, [220]);
    (253, [221]); (254, [222]); (255, [376]); (257, [256]); (259, [258]);
    (261, [260]); (263, [262]); (265, [264]); (267, [266]); (269, [268]);
    (271, [270]); (273, [272]); (275, [274]); (277, [276]); (279, [278]);
    (281, [280]); (283, [282]); (285, [284]); (287, [286]); (289, [288]);
    (291, [290]); (293, [292]); (295, [294]); (297, [296]); (299, [298]);
    (301, [300]); (303, [302]); (305, [73]); (307, [306]); (309, [308]);
    (311, [310]); (314, [313]); (316, [315]); (318, [317]); (320, [319]);
    (322, [321]); (324, [323]); (326, [325]); (328, [327]); (329, [700; 78]);
    (331, [330]); (333, [332]); (335, [334]); (337, [336]); (339, [338]);
    (341, [340]); (343, [342]); (345, [344]); (347, [346]); (349, [348]);
    (351, [350]); (353, [352]); (355, [354]); (357, [356]); (359, [358]);
    (361, [360]); (363, [362]); (365, [364]); (367, [366]); (369, [368]);
    (371, [370]); (373, [372]); (375, [374]); (378, [377]); (380, [379]);
    (382, [381]); (383, [83]); (384, [579]); (387, [386]); (389, [388]);
    (392, [391]); (396, [395]); (402, [401]); (405, [502]); (409, [408]);
    (410, [573]); (414, [544]); (417, [416]); (419, [418]); (421, [420]);
    (424, [423]); (429, [428]); (432, [431]); (436, [435]); (438, [437]);
    (441, [440]); (445, [444]); (447, [503]); (453, [452]); (454, [452]);
    (456, [455]); (457, [455]); (459, [458]); (460, [458]); (462, [461]);
    (464, [463]); (466, [465]); (468, [467]); (470, [469]); (472, [471]);
    (474, [473]); (476, [475]); (477, [398]); (479, [478]); (481, [480]);
    (483, [482]); (485, [484]); (487, [486]); (489, [488]); (491, [490]);
    (493, [492]); (495, [494]); (496, [74; 780]); (498, [497]); (499, [497]);
    (501, [500]); (505, [504]); (507, [506]); (509, [508]); (511, [510]);
    (513, [512]); (515, [514]); (517, [516]); (519, [518]); (521, [520]);
    (523, [522]); (525, [524]); (527, [526]); (529, [528]); (531, [530]);
    (533, [532]); (535, [534]); (537, [536]); (539, [538]); (541, [540]);
    (543, [542]); (547, [546]); (549, [548]); (551, [550]); (553, [552]);
    (555, [554]); (557, [556]); (559, [558]); (561, [560]); (563, [562]);
    (572, [571]); (575, [11390]); (576, [11391]); (578, [577]); (583, [582]);
    (585, [584]); (587, [586]); (589, [588]); (591, [590]); (592, [11375]);
    (593, [11373]); (594, [11376]); (595, [385]); (596, [390]); (598, [393]);
    (599, [394]); (601, [399]); (603, [400]); (604, [42923]); (608, [403]);
    (609, [42924]); (611, [404]); (613, [42893]); (614, [42922]); (616, [407]);
    (617, [406]); (618, [42926]); (619, [11362]); (620, [42925]); (623, [412]);
    (625, [11374]); (626, [413]); (629, [415]); (637, [11364]); (640, [422]);
    (642, [42949]); (643, [425]); (647, [42929]); (648, [430]); (649, [580]);
    (650, [433]); (651, [434]); (652, [581]); (658, [439]); (669, [42930]);
    (670, [42928]); (837, [921]); (881, [880]); (883, [882]); (887, [886]);
    (891, [1021]); (892, [1022]); (893, [1023]); (912, [921; 776; 769]);
    (940, [902]); (941, [904]); (942, [905]); (943, [906]);
    (944, [933; 776; 769]); (945, [913]); (946, [914]); (947, [915]);
    (948, [916]); (949, [917]); (950, [918]); (951, [919]); (952, [920]);
    (953, [921]); (954, [922]); (955, [923]); (956, [924]); (957, [925]);
    (958, [926]); (959, [927]); (960, [928]); (961, [929]); (962, [931]);
    (963, [931]); (964, [932]); (965, [933]); (966, [934]); (967, [935]);
    (968, [936]); (969, [937]); (970, [938]); (971, [939]); (972, [908]);
    (973, [910]); (974, [911]); (976, [914]); (977, [920]); (981, [934]);
    (982, [928]); (983, [975]); (985, [984]); (987, [986]); (989, [988]);
    (991, [990]); (993, [992]); (995, [994]); (997, [996]); (999, [998]);
    (1001, [1000]); (1003, [1002]); (1005, [1004]); (1007, [1006]);
    (1008, [922]); (1009, [929]); (1010, [1017]); (1011, [895]); (1013, [917]);
    (1016, [1015]); (1019, [1018]); (1072, [1040]); (1073, [1041]);
    (1074, [1042]); (1075, [1043]); (1076, [1044]); (1077, [1045]);
    (1078, [1046]); (1079, [1047]); (1080, [1048]); (1081, [1049]);
    (1082, [1050]); (1083, [1051]); (1084, [1052]); (1085, [1053]);
    (1086, [1054]); (1087, [1055]); (1088, [1056]); (1089, [1057]);
    (1090, [1058]); (1091, [1059]); (1092, [1060]); (1093, [1061]);
    (1094, [1062]); (1095, [1063]); (1096, [1064]); (1097, [1065]);
    (1098, [1066]); (1099, [1067]); (1100, [1068]); (1101, [1069]);
    (1102, [1070]); (1103, [1071]); (1104, [1024]); (1105, [1025]);
    (1106, [1026]); (1107, [1027]); (1108, [1028]); (1109, [1029]);
    (1110, [1030]); (1111, [1031]); (1112, [1032]); (1113, [1033]);
    (1114, [1034]); (1115, [1035]); (1116, [1036]); (1117, [1037]);
    (1118, [1038]); (1119, [1039]); (1121, [1120]); (1123, [1122]);
    (1125, [1124]); (1127, [1126]); (1129, [1128]); (1131, [1130]);
    (1133, [1132]); (1135, [1134]); (1137, [1136]); (1139, [1138]);
    (1141, [1140]); (1143, [1142]); (1145, [1144]); (1147, [1146]);
    (1149, [1148]); (1151, [1150]); (1153, [1152]); (1163, [1162]);
    (1165, [1164]); (1167, [1166]); (1169, [1168]); (1171, [1170]);
    (1173, [1172]); (1175, [1174]); (1177, [1176]); (1179, [1178]);
    (1181, [1180]); (1183, [1182]); (1185, [1184]); (1187, [1186]);
    (1189, [1188]); (1191, [1190]); (1193, [1192]); (1195, [1194]);
    (1197, [1196]); (1199, [1198]); (1201, [1200]); (1203, [1202]);
    (1205, [1204]); (1207, [1206]); (1209, [1208]); (1211, [1210]);
    (1213, [1212]); (1215, [1214]); (1218, [1217]); (1220, [1219]);
    (1222, [1221]); (1224, [1223]); (1226, [1225]); (1228, [1227]);
    (1230, [1229]); (1231, [1216]); (1233, [1232]); (1235, [1234]);
    (1237, [1236]); (1239, [1238]); (1241, [1240]); (1243, [1242]);
    (1245, [1244]); (1247, [1246]); (1249, [1248]); (1251, [1250]);
    (1253, [1252]); (1255, [1254]); (1257, [1256]); (1259, [1258]);
    (1261, [1260]); (1263, [1262]); (1265, [1264]); (1267, [1266]);
    (1269, [1268]); (1271, [1270]); (1273, [1272]); (1275, [1274]);
    (1277, [1276]); (1279, [1278]); (1281, [1280]); (1283, [1282]);
    (1285, [1284]); (1287, [1286]); (1289, [1288]); (1291, [1290]);
    (1293, [1292]); (1295, [1294]); (1297, [1296]); (1299, [1298]);
    (1301, [1300]); (1303, [1302]); (1305, [1304]); (1307, [1306]);
    (1309, [1308]); (1311, [1310]); (1313, [1312]); (1315, [1314]);
    (1317, [1316]); (1319, [1318]); (1321, [1320]); (1323, [1322]);
    (1325, [1324]); (1327, [1326]); (1377, [1329]); (1378, [1330]);
    (1379, [1331]); (1380, [1332]); (1381, [1333]); (1382, [1334]);
    (1383, [1335]); (1384, [1336]); (1385, [1337]); (1386, [1338]);
    (1387, [1339]); (1388, [1340]); (1389, [1341]); (1390, [1342]);
    (1391, [1343]); (1392, [1344]); (1393, [1345]); (1394, [1346]);
    (1395, [1347]); (1396, [1348]); (1397, [1349]); (1398, [1350]);
    (1399, [1351]); (1400, [1352]); (1401, [1353]); (1402, [1354]);
    (1403, [1355]); (1404, [1356]); (1405, [1357]); (1406, [1358]);
    (1407, [1359]); (1408, [1360]); (1409, [1361]); (1410, [1362]);
    (1411, [1363]); (1412, [1364]); (1413, [1365]); (1414, [1366]);
    (1415, [1333; 1362]); (4304, [7312]); (4305, [7313]); (4306, [7314]);
    (4307, [7315]); (4308, [7316]); (4309, [7317]); (4310, [7318]);
    (4311, [7319]); (4312, [7320]); (4313, [7321]); (4314, [7322]);
    (4315, [7323]); (4316, [7324]); (4317, [7325]); (4318, [7326]);
    (4319, [7327]); (4320, [7328]); (4321, [7329]); (4322, [7330]);
    (4323, [7331]); (4324, [7332]); (4325, [7333]); (4326, [7334]);
    (4327, [7335]); (4328, [7336]); (4329, [7337]); (4330, [7338]);
    (4331, [7339]); (4332, [7340]); (4333, [7341]); (4334, [7342]);
    (4335, [7343]); (4336, [7344]); (4337, [7345]); (4338, [7346]);
    (4339, [7347]); (4340, [7348]); (4341, [7349]); (4342, [7350]);
    (4343, [7351]); (4344, [7352]); (4345, [7353]); (4346, [7354]);
    (4349, [7357]); (4350, [7358]); (4351, [7359]); (5112, [5104]);
    (5113, [5105]); (5114, [5106]); (5115, [5107]); (5116, [5108]);
    (5117, [5109]); (7296, [1042]); (7297, [1044]); (7298, [1054]);
    (7299, [1057]); (7300, [1058]); (7301, [1058]); (7302, [1066]);
    (7303, [1122]); (7304, [42570]); (7545, [42877]); (7549, [11363]);
    (7566, [42950]); (7681, [7680]); (7683, [7682]); (7685, [7684]);
    (7687, [7686]); (7689, [7688]); (7691, [7690]); (7693, [7692]);
    (7695, [7694]); (7697, [7696]); (7699, [7698]); (7701, [7700]);
    (7703, [7702]); (7705, [7704]); (7707, [7706]); (7709, [7708]);
    (7711, [7710]); (7713, [7712]); (7715, [7714]); (7717, [7716]);
    (7719, [7718]); (7721, [7720]); (7723, [7722]); (7725, [7724]);
    (7727, [7726]); (7729, [7728]); (7731, [7730]); (7733, [7732]);
    (7735, [7734]); (7737, [7736]); (7739, [7738]); (7741, [7740]);
    (7743, [7742]); (7745, [7744]); (7747, [7746]); (7749, [7748]);
    (7751, [7750]); (7753, [7752]); (7755, [7754]); (7757, [7756]);
    (7759, [7758]); (7761, [7760]); (7763, [7762]); (7765, [7764]);
    (7767, [7766]); (7769, [7768]); (7771, [7770]); (7773, [7772]);
    (7775, [7774]); (7777, [7776]); (7779, [7778]); (7781, [7780]);
    (7783, [7782]); (7785, [7784]); (7787, [7786]); (7789, [7788]);
    (7791, [7790]); (7793, [7792]); (7795, [7794]); (7797, [7796]);
    (7799, [7798]); (7801, [7800]); (7803, [7802]); (7805, [7804]);
    (7807, [7806]); (7809, [7808]); (7811, [7810]); (7813, [7812]);
    (7815, [7814]); (7817, [7816]); (7819, [7818]); (7821, [7820]);
    (7823, [7822]); (7825, [7824]); (7827, [7826]); (7829, [7828]);
    (7830, [72; 817]); (7831, [84; 776]); (7832, [87; 778]); (7833, [89; 778]);
    (7834, [65; 702]); (7835, [7776]); (7841, [7840]); (7843, [7842]);
    (7845, [7844]); (7847, [7846]); (7849, [7848]); (7851, [7850]);
    (7853, [7852]); (7855, [7854]); (7857, [7856]); (7859, [7858]);
    (7861, [7860]); (7863, [7862]); (7865, [7864]); (7867, [7866]);
    (7869, [7868]); (7871, [7870]); (7873, [7872]); (7875, [7874]);
    (7877, [7876]); (7879, [7878]); (7881, [7880]); (7883, [7882]);
    (7885, [7884]); (7887, [7886]); (7889, [7888]); (7891, [7890]);
    (7893, [7892]); (7895, [7894]); (7897, [7896]); (7899, [7898]);
    (7901, [7900]); (7903, [7902]); (7905, [7904]); (7907, [7906]);
    (7909, [7908]); (7911, [7910]); (7913, [7912]); (7915, [7914]);
    (7917, [7916]); (7919, [7918]); (7921, [7920]); (7923, [7922]);
    (7925, [7924]); (7927, [7926]); (7929, [7928]); (7931, [7930]);
    (7933, [7932]); (7935, [7934]); (7936, [7944]); (7937, [7945]);
    (7938, [7946]); (7939, [7947]); (7940, [7948]); (7941, [7949]);
    (7942, [7950]); (7943, [7951]); (7952, [7960]); (7953, [7961]);
    (7954, [7962]); (7955, [7963]); (7956, [7964]); (7957, [7965]);
    (7968, [7976]); (7969, [7977]); (7970, [7978]); (7971, [7979]);
    (7972, [7980]); (7973, [7981]); (7974, [7982]); (7975, [7983]);
    (7984, [7992]); (7985, [7993]); (7986, [7994]); (7987, [7995]);
    (7988, [7996]); (7989, [7997]); (7990, [7998]); (7991, [7999]);
    (8000, [8008]); (8001, [8009]); (8002, [8010]); (8003, [8011]);
    (8004, [8012]); (8005, [8013]); (8016, [933; 787]); (8017, [8025]);
    (8018, [933; 787; 768]); (8019, [8027]); (8020, [933; 787; 769]);
    (8021, [8029]); (8022, [933; 787; 834]); (8023, [8031]); (8032, [8040]);
    (8033, [8041]); (8034, [8042]); (8035, [8043]); (8036, [8044]);
    (8037, [8045]); (8038, [8046]); (8039, [8047]); (8048, [8122]);
    (8049, [8123]); (8050, [8136]); (8051, [8137]); (8052, [8138]);
    (8053, [8139]); (8054, [8154]); (8055, [8155]); (8056, [8184]);
    (8057, [8185]); (8058, [8170]); (8059, [8171]); (8060, [8186]);
    (8061, [8187]); (8064, [7944; 921]); (8065, [7945; 921]);
    (8066, [7946; 921]); (8067, [7947; 921]); (8068, [7948; 921]);
    (8069, [7949; 921]); (8070, [7950; 921]); (8071, [7951; 921]);
    (8072, [7944; 921]); (8073, [7945; 921]); (8074, [7946; 921]);
    (8075, [7947; 921]); (8076, [7948; 921]); (8077, [7949; 921]);
    (8078, [7950; 921]); (8079, [7951; 921]); (8080, [7976; 921]);
    (8081, [7977; 921]); (8082, [7978; 921]); (8083, [7979; 921]);
    (8084, [7980; 921]); (8085, [7981; 921]); (8086, [7982; 921]);
    (8087, [7983; 921]); (8088, [7976; 921]); (8089, [7977; 921]);
    (8090, [7978; 921]); (8091, [7979; 921]); (8092, [7980; 921]);
    (8093, [7981; 921]); (8094, [7982; 921]); (8095, [7983; 921]);
    (8096, [8040; 921]); (8097, [8041; 921]); (8098, [8042; 921]);
    (8099, [8043; 921]); (8100, [8044; 921]); (8101, [8045; 921]);
    (8102, [8046; 921]); (8103, [8047; 921]); (8104, [8040; 921]);
    (8105, [8041; 921]); (8106, [8042; 921]); (8107, [8043; 921]);
    (8108, [8044; 921]); (8109, [8045; 921]); (8110, [8046; 921]);
    (8111, [8047; 921]); (8112, [8120]); (8113, [8121]); (8114, [8122; 921]);
    (8115, [913; 921]); (8116, [902; 921]); (8118, [913; 834]);
    (8119, [913; 834; 921]); (8124, [913; 921]); (8126, [921]);
    (8130, [8138; 921]); (8131, [919; 921]); (8132, [905; 921]);
    (8134, [919; 834]); (8135, [919; 834; 921]); (8140, [919; 921]);
    (8144, [8152]); (8145, [8153]); (8146, [921; 776; 768]);
    (8147, [921; 776; 769]); (8150, [921; 834]); (8151, [921; 776; 834]);
    (8160, [8168]); (8161, [8169]); (8162, [933; 776; 768]);
    (8163, [933; 776; 769]); (8164, [929; 787]); (8165, [8172]);
    (8166, [933; 834]); (8167, [933; 776; 834]); (8178, [8186; 921]);
    (8179, [937; 921]); (8180, [911; 921]); (8182, [937; 834]);
    (8183, [937; 834; 921]); (8188, [937; 921]); (8526, [8498]);
    (8560, [8544]); (8561, [8545]); (8562, [8546]); (8563, [8547]);
    (8564, [8548]); (8565, [8549]); (8566, [8550]); (8567, [8551]);
    (8568, [8552]); (8569, [8553]); (8570, [8554]); (8571, [8555]);
    (8572, [8556]); (8573, [8557]); (8574, [8558]); (8575, [8559]);
    (8580, [8579]); (9424, [9398]); (9425, [9399]); (9426, [9400]);
    (9427, [9401]); (9428, [9402]); (9429, [9403]); (9430, [9404]);
    (9431, [9405]); (9432, [9406]); (9433, [9407]); (9434, [9408]);
    (9435, [9409]); (9436, [9410]); (9437, [9411]); (9438, [9412]);
    (9439, [9413]); (9440, [9414]); (9441, [9415]); (9442, [9416]);
    (9443, [9417]); (9444, [9418]); (9445, [9419]); (9446, [9420]);
    (9447, [9421]); (9448, [9422]); (9449, [9423]); (11312, [11264]);
    (11313, [11265]); (11314, [11266]); (11315, [11267]); (11316, [11268]);
    (11317, [11269]); (11318, [11270]); (11319, [11271]); (11320, [11272]);
    (11321, [11273]); (11322, [11274]); (11323, [11275]); (11324, [11276]);
    (11325, [11277]); (11326, [11278]); (11327, [11279]); (11328, [11280]);
    (11329, [11281]); (11330, [11282]); (11331, [11283]); (11332, [11284]);
    (11333, [11285]); (11334, [11286]); (11335, [11287]); (11336, [11288]);
    (11337, [11289]); (11338, [11290]); (11339, [11291]); (11340, [11292]);
    (11341, [11293]); (11342, [11294]); (11343, [11295]); (11344, [11296]);
    (11345, [11297]); (11346, [11298]); (11347, [11299]); (11348, [11300]);
    (11349, [11301]); (11350, [11302]); (11351, [11303]); (11352, [11304]);
    (11353, [11305]); (11354, [11306]); (11355, [11307]); (11356, [11308]);
    (11357, [11309]); (11358, [11310]); (11359, [11311]); (11361, [11360]);
    (11365, [570]); (11366, [574]); (11368, [11367]); (11370, [11369]);
    (11372, [11371]); (11379, [11378]); (11382, [11381]); (11393, [11392]);
    (11395, [11394]); (11397, [11396]); (11399, [11398]); (11401, [11400]);
    (11403, [11402]); (11405, [11404]); (11407, [11406]); (11409, [11408]);
    (11411, [11410]); (11413, [11412]); (11415, [11414]); (11417, [11416]);
    (11419, [11418]); (11421, [11420]); (11423, [11422]); (11425, [11424]);
    (11427, [11426]); (11429, [11428]); (11431, [11430]); (11433, [11432]);
    (11435, [11434]); (11437, [11436]); (11439, [11438]); (11441, [11440]);
    (11443, [11442]); (11445, [11444]); (11447, [11446]); (11449, [11448]);
    (11451, [11450]); (11453, [11452]); (11455, [11454]); (11457, [11456]);
    (11459, [11458]); (11461, [11460]); (11463, [11462]); (11465, [11464]);
    (11467, [11466]); (11469, [11468]); (11471, [11470]); (11473, [11472]);
    (11475, [11474]); (11477, [11476]); (11479, [11478]); (11481, [11480]);
    (11483, [11482]); (11485, [11484]); (11487, [11486]); (11489, [11488]);
    (11491, [11490]); (11500, [11499]); (11502, [11501]); (11507, [11506]);
    (11520, [4256]); (11521, [4257]); (11522, [4258]); (11523, [4259]);
    (11524, [4260]); (11525, [4261]); (11526, [4262]); (11527, [4263]);
    (11528, [4264]); (11529, [4265]); (11530, [4266]); (11531, [4267]);
    (11532, [4268]); (11533, [4269]); (11534, [4270]); (11535, [4271]);
    (11536, [4272]); (11537, [4273]); (11538, [4274]); (11539, [4275]);
    (11540, [4276]); (11541, [4277]); (11542, [4278]); (11543, [4279]);
    (11544, [4280]); (11545, [4281]); (11546, [4282]); (11547, [4283]);
    (11548, [4284]); (11549, [4285]); (11550, [4286]); (11551, [4287]);
    (11552, [4288]); (11553, [4289]); (11554, [4290]); (11555, [4291]);
    (11556, [4292]); (11557, [4293]); (11559, [4295]); (11565, [4301]);
    (42561, [42560]); (42563, [42562]); (42565, [42564]); (42567, [42566]);
    (42569, [42568]); (42571, [42570]); (42573, [42572]); (42575, [42574]);
    (42577, [42576]); (42579, [42578]); (42581, [42580]); (42583, [42582]);
    (42585, [42584]); (42587, [42586]); (42589, [42588]); (42591, [42590]);
    (42593, [42592]); (42595, [42594]); (42597, [42596]); (42599, [42598]);
    (42601, [42600]); (42603, [42602]); (42605, [42604]); (42625, [42624]);
    (42627, [42626]); (42629, [42628]); (42631, [42630]); (42633, [42632]);
    (42635, [42634]); (42637, [42636]); (42639, [42638]); (42641, [42640]);
    (42643, [42642]); (42645, [42644]); (42647, [42646]); (42649, [42648]);
    (42651, [42650]); (42787, [42786]); (42789, [42788]); (42791, [42790]);
    (42793, [42792]); (42795, [42794]); (42797, [42796]); (42799, [42798]);
    (42803, [42802]); (42805, [42804]); (42807, [42806]); (42809, [42808]);
    (42811, [42810]); (42813, [42812]); (42815, [42814]); (42817, [42816]);
    (42819, [42818]); (42821, [42820]); (42823, [42822]); (42825, [42824]);
    (42827, [42826]); (42829, [42828]); (42831, [42830]); (42833, [42832]);
    (42835, [42834]); (42837, [42836]); (42839, [42838]); (42841, [42840]);
    (42843, [42842]); (42845, [42844]); (42847, [42846]); (42849, [42848]);
    (42851, [42850]); (42853, [42852]); (42855, [42854]); (42857, [42856]);
    (42859, [42858]); (42861, [42860]); (42863, [42862]); (42874, [42873]);
    (42876, [42875]); (42879, [42878]); (42881, [42880]); (42883, [42882]);
    (42885, [42884]); (42887, [42886]); (42892, [42891]); (42897, [42896]);
    (42899, [42898]); (42900, [42948]); (42903, [42902]); (42905, [42904]);
    (42907, [42906]); (42909, [42908]); (42911, [42910]); (42913, [42912]);
    (42915, [42914]); (42917, [42916]); (42919, [42918]); (42921, [42920]);
    (42933, [42932]); (42935, [42934]); (42937, [42936]); (42939, [42938]);
    (42941, [42940]); (42943, [42942]); (42945, [42944]); (42947, [42946]);
    (42952, [42951]); (42954, [42953]); (42961, [42960]); (42967, [42966]);
    (42969, [42968]); (42998, [42997]); (43859, [42931]); (43888, [5024]);
    (43889, [5025]); (43890, [5026]); (43891, [5027]); (43892, [5028]);
    (43893, [5029]); (43894, [5030]); (43895, [5031]); (43896, [5032]);
    (43897, [5033]); (43898, [5034]); (43899, [5035]); (43900, [5036]);
    (43901, [5037]); (43902, [5038]); (43903, [5039]); (43904, [5040]);
    (43905, [5041]); (43906, [5042]); (43907, [5043]); (43908, [5044]);
    (43909, [5045]); (43910, [5046]); (43911, [5047]); (43912, [5048]);
    (43913, [5049]); (43914, [5050]); (43915, [5051]); (43916, [5052]);
    (43917, [5053]); (43918, [5054]); (43919, [5055]); (43920, [5056]);
    (43921, [5057]); (43922, [5058]); (43923, [5059]); (43924, [5060]);
    (43925, [5061]); (43926, [5062]); (43927, [5063]); (43928, [5064]);
    (43929, [5065]); (43930, [5066]); (43931, [5067]); (43932, [5068]);
    (43933, [5069]); (43934, [5070]); (43935, [5071]); (43936, [5072]);
    (43937, [5073]); (43938, [5074]); (43939, [5075]); (43940, [5076]);
    (43941, [5077]); (43942, [5078]); (43943, [5079]); (43944, [5080]);
    (43945, [5081]); (43946, [5082]); (43947, [5083]); (43948, [5084]);
    (43949, [5085]); (43950, [5086]); (43951, [5087]); (43952, [5088]);
    (43953, [5089]); (43954, [5090]); (43955, [5091]); (43956, [5092]);
    (43957, [5093]); (43958, [5094]); (43959, [5095]); (43960, [5096]);
    (43961, [5097]); (43962, [5098]); (43963, [5099]); (43964, [5100]);
    (43965, [5101]); (43966, [5102]); (43967, [5103]); (64256, [70; 70]);
    (64257, [70; 73]); (64258, [70; 76]); (64259, [70; 70; 73]);
    (64260, [70; 70; 76]); (64261, [83; 84]); (64262, [83; 84]);
    (64275, [1348; 1350]); (64276, [1348; 1333]); (64277, [1348; 1339]);
    (64278, [1358; 1350]); (64279, [1348; 1341]); (65345, [65313]);
    (65346, [65314]); (65347, [65315]); (65348, [65316]); (65349, [65317]);
    (65350, [65318]); (65351, [65319]); (65352, [65320]); (65353, [65321]);
    (65354, [65322]); (65355, [65323]); (65356, [65324]); (65357, [65325]);
    (65358, [65326]); (65359, [65327]); (65360, [65328]); (65361, [65329]);
    (65362, [65330]); (65363, [65331]); (65364, [65332]); (65365, [65333]);
    (65366, [65334]); (65367, [65335]); (65368, [65336]); (65369, [65337]);
    (65370, [65338]); (66600, [66560]); (66601, [66561]); (66602, [66562]);
    (66603, [66563]); (66604, [66564]); (66605, [66565]); (66606, [66566]);
    (66607, [66567]); (66608, [66568]); (66609, [66569]); (66610, [66570]);
    (66611, [66571]); (66612, [66572]); (66613, [66573]); (66614, [66574]);
    (66615, [66575]); (66616, [66576]); (66617, [66577]); (66618, [66578]);
    (66619, [66579]); (66620, [66580]); (66621, [66581]); (66622, [66582]);
    (66623, [66583]); (66624, [66584]); (66625, [66585]); (66626, [66586]);
    (66627, [66587]); (66628, [66588]); (66629, [66589]); (66630, [66590]);
    (66631, [66591]); (66632, [66592]); (66633, [66593]); (66634, [66594]);
    (66635, [66595]); (66636, [66596]); (66637, [66597]); (66638, [66598]);
    (66639, [66599]); (66776, [66736]); (66777, [66737]); (66778, [66738]);
    (66779, [66739]); (66780, [66740]); (66781, [66741]); (66782, [66742]);
    (66783, [66743]); (66784, [66744]); (66785, [66745]); (66786, [66746]);
    (66787, [66747]); (66788, [66748]); (66789, [66749]); (66790, [66750]);
    (66791, [66751]); (66792, [66752]); (66793, [66753]); (66794, [66754]);
    (66795, [66755]); (66796, [66756]); (66797, [66757]); (66798, [66758]);
    (66799, [66759]); (66800, [66760]); (66801, [66761]); (66802, [66762]);
    (66803, [66763]); (66804, [66764]); (66805, [66765]); (66806, [66766]);
    (66807, [66767]); (66808, [66768]); (66809, [66769]); (66810, [66770]);
    (66811, [66771]); (66967, [66928]); (66968, [66929]); (66969, [66930]);
    (66970, [66931]); (66971, [66932]); (66972, [66933]); (66973, [66934]);
    (66974, [66935]); (66975, [66936]); (66976, [66937]); (66977, [66938]);
    (66979, [66940]); (66980, [66941]); (66981, [66942]); (66982, [66943]);
    (66983, [66944]); (66984, [66945]); (66985, [66946]); (66986, [66947]);
    (66987, [66948]); (66988, [66949]); (66989, [66950]); (66990, [66951]);
    (66991, [66952]); (66992, [66953]); (66993, [66954]); (66995, [66956]);
    (66996, [66957]); (66997, [66958]); (66998, [66959]); (66999, [66960]);
    (67000, [66961]); (67001, [66962]); (67003, [66964]); (67004, [66965]);
    (68800, [68736]); (68801, [68737]); (68802, [68738]); (68803, [68739]);
    (68804, [68740]); (68805, [68741]); (68806, [68742]); (68807, [68743]);
    (68808, [68744]); (68809, [68745]); (68810, [68746]); (68811, [68747]);
    (68812, [68748]); (68813, [68749]); (68814, [68750]); (68815, [68751]);
    (68816, [68752]); (68817, [68753]); (68818, [68754]); (68819, [68755]);
    (68820, [68756]); (68821, [68757]); (68822, [68758]); (68823, [68759]);
    (68824, [68760]); (68825, [68761]); (68826, [68762]); (68827, [68763]);
    (68828, [68764]); (68829, [68765]); (68830, [68766]); (68831, [68767]);
    (68832, [68768]); (68833, [68769]); (68834, [68770]); (68835, [68771]);
    (68836, [68772]); (68837, [68773]); (68838, [68774]); (68839, [68775]);
    (68840, [68776]); (68841, [68777]); (68842, [68778]); (68843, [68779]);
    (68844, [68780]); (68845, [68781]); (68846, [68782]); (68847, [68783]);
    (68848, [68784]); (68849, [68785]); (68850, [68786]); (71872, [71840]);
    (71873, [71841]); (71874, [71842]); (71875, [71843]); (71876, [71844]);
    (71877, [71845]); (71878, [71846]); (71879, [71847]); (71880, [71848]);
    (71881, [71849]); (71882, [71850]); (71883, [71851]); (71884, [71852]);
    (71885, [71853]); (71886, [71854]); (71887, [71855]); (71888, [71856]);
    (71889, [71857]); (71890, [71858]); (71891, [71859]); (71892, [71860]);
    (71893, [71861]); (71894, [71862]); (71895, [71863]); (71896, [71864]);
    (71897, [71865]); (71898, [71866]); (71899, [71867]); (71900, [71868]);
    (71901, [71869]); (71902, [71870]); (71903, [71871]); (93792, [93760]);
    (93793, [93761]); (93794, [93762]); (93795, [93763]); (93796, [93764]);
    (93797, [93765]); (93798, [93766]); (93799, [93767]); (93800, [93768]);
    (93801, [93769]); (93802, [93770]); (93803, [93771]); (93804, [93772]);
    (93805, [93773]); (93806, [93774]); (93807, [93775]); (93808, [93776]);
    (93809, [93777]); (93810, [93778]); (93811, [93779]); (93812, [93780]);
    (93813, [93781]); (93814, [93782]); (93815, [93783]); (93816, [93784]);
    (93817, [93785]); (93818, [93786]); (93819, [93787]); (93820, [93788]);
    (93821, [93789]); (93822, [93790]); (93823, [93791]); (125218, [125184]);
    (125219, [125185]); (125220, [125186]); (125221, [125187]);
    (125222, [125188]); (125223, [125189]); (125224, [125190]);
    (125225, [125191]); (125226, [125192]); (125227, [125193]);
    (125228, [125194]); (125229, [125195]); (125230, [125196]);
    (125231, [125197]); (125232, [125198]); (125233, [125199]);
    (125234, [125200]); (125235, [125201]); (125236, [125202]);
    (125237, [125203]); (125238, [125204]); (125239, [125205]);
    (125240, [125206]); (125241, [125207]); (125242, [125208]);
    (125243, [125209]); (125244, [125210]); (125245, [125211]);
    (125246, [125212]); (125247, [125213]); (125248, [125214]);
    (125249, [125215]); (125250, [125216]); (125251, [125217])
  ].

Fixpoint table_get (t : list (N * list N)) (cp : N) : option (list N) :=
  match t with
  | [] => None
  | (k, v) :: rest => if k =? cp then Some v else table_get rest cp
  end.

Local Close Scope N_scope.

(** The upper case of one character: of an ASCII letter, and of a
    character of the table. *)
Definition upper_char (g : string) : string :=
  match g with
  | String c EmptyString => String (upper_ascii c) EmptyString
  | _ =>
      match code_point g with
      | Some cp =>
          match table_get upper_table cp with
          | Some ups => String.concat "" (map utf8 ups)
          | None => g
          end
      | None => g
      end
  end.

(** [s.upper()] *)
Definition upper (s : string) : string :=
  String.concat "" (map upper_char (utf8_chars s)).

(** [needle in hay] on strings. *)
Fixpoint str_in (needle hay : string) : bool :=
  String.prefix needle hay ||
  match hay with
  | EmptyString => false
  | String _ t => str_in needle t
  end.

(** [str(n)] for an int. *)
Definition str_of_Z (z : Z) : string := NilZero.string_of_int (Z.to_int z).

(* ------------------------------------------------------------------ *)
(** ** Floats *)

(** Python [float]: IEEE 754 binary64. *)
Definition float_sub : spec_float -> spec_float -> spec_float := SFsub 53 1024.

(** [float(z)]: the nearest float, ties to even; [None] where Python
    raises OverflowError. *)
Definition float_of_Z (z : Z) : option spec_float :=
  match binary_normalize 53 1024 z 0 false with
  | S754_infinity _ => None
  | f => Some f
  end.

(** [c * 10^p] compared with [x * 2^q]. *)
Definition cmp_dec_bin (c p x q : Z) : comparison :=
  Z.compare (c * 10 ^ Z.max p 0 * 2 ^ Z.max (- q) 0)
            (x * 2 ^ Z.max q 0 * 10 ^ Z.max (- p) 0).

(** [floor (x * 2^q / 10^p)] *)
Definition floor_dec (x q p : Z) : Z :=
  (x * 2 ^ Z.max q 0 * 10 ^ Z.max (- p) 0)
  / (2 ^ Z.max (- q) 0 * 10 ^ Z.max p 0).

(** The largest [d] with [10^d <= m * 2^e]. *)
Definition floor_log10 (m : positive) (e : Z) : Z :=
  let b := Z.pos (digits2_pos m) + e in
  let d := ((b - 1) * 1233) / 4096 in
  let up d :=
    match cmp_dec_bin 1 (d + 1) (Z.pos m) e with Gt => d | _ => d + 1 end in
  let down d :=
    match cmp_dec_bin 1 d (Z.pos m) e with Gt => d - 1 | _ => d end in
  down (down (up (up d))).

(** [c * 10^p] without the zeros at the end of [c]. *)
Fixpoint strip_zeros (fuel : nat) (c p : Z) : Z * Z :=
  match fuel with
  | O => (c, p)
  | S fuel' =>
      if (c mod 10 =? 0) && negb (c =? 0)
      then strip_zeros fuel' (c / 10) (p + 1)
      else (c, p)
  end.

(** The shortest decimal [c * 10^p] that rounds to the float
    [m * 2^e], and among the shortest the nearest one: with [k]
    digits, then [k + 1], ... (17 always suffice).  The decimals that
    round to the float lie between the midpoints to its two
    neighbours, which are [(4m - 2) * 2^(e-2)] (or [4m - 1], below a
    power of two) and [(4m + 2) * 2^(e-2)]; the midpoints themselves
    round to it when [m] is even. *)
Fixpoint shortest (fuel : nat) (k : Z) (m : positive) (e d10 : Z) : Z * Z :=
  let p := d10 - (k - 1) in
  let lo := floor_dec (Z.pos m) e p in
  let hi := lo + 1 in
  let even := Z.even (Z.pos m) in
  let narrow := Pos.eqb m 4503599627370496 && negb (e =? -1074) in
  let low := if narrow then 4 * Z.pos m - 1 else 4 * Z.pos m - 2 in
  let high := 4 * Z.pos m + 2 in
  let above_low c :=
    match cmp_dec_bin c p low (e - 2) with
    | Gt => true | Eq => even | Lt => false
    end in
  let below_high c :=
    match cmp_dec_bin c p high (e - 2) with
    | Lt => true | Eq => even | Gt => false
    end in
  let ok c := above_low c && below_high c in
  let pick :=
    match ok lo, ok hi with
    | true, false => Some lo
    | false, true => Some hi
    | true, true =>
        match cmp_dec_bin (2 * lo + 1) p (2 * Z.pos m) e with
        | Gt => Some lo
        | Lt => Some hi
        | Eq => Some (if Z.even lo then lo else hi)
        end
    | false, false => None
    end in
  match pick with
  | Some c => (c, p)
  | None =>
      match fuel with
      | O => (lo, p)
      | S fuel' => shortest fuel' (k + 1) m e d10
      end
  end.

Fixpoint zeros (n : nat) : string :=
  match n with O => "" | S n' => String "0" (zeros n') end.

Definition take (n : nat) (s : string) : string := String.substring 0 n s.
Definition drop_str (n : nat) (s : string) : string :=
  String.substring n (String.length s - n) s.

(** [repr] of a positive finite float: the shortest digits, in
    exponent notation from 1e16 on and below 1e-4. *)
Definition repr_digits (m : positive) (e : Z) : string :=
  let (c0, p0) := shortest 17 1 m e (floor_log10 m e) in
  let (c, p) := strip_zeros 400 c0 p0 in
  let digits := str_of_Z c in
  let nd := Z.of_nat (String.length digits) in
  let decpt := p + nd in
  if (decpt <=? -4) || (16 <? decpt) then
    let x := decpt - 1 in
    let mant := match digits with
                | String d "" => String d ""
                | String d rest => String d ("." ++ rest)
                | "" => ""
                end in
    let ex := str_of_Z (Z.abs x) in
    mant ++ "e" ++ (if x <? 0 then "-" else "+") ++
      (if Z.abs x <? 10 then "0" ++ ex else ex)
  else if decpt <=? 0 then "0." ++ zeros (Z.to_nat (- decpt)) ++ digits
  else if decpt <? nd then
    take (Z.to_nat decpt) digits ++ "." ++ drop_str (Z.to_nat decpt) digits
  else digits ++ zeros (Z.to_nat (decpt - nd)) ++ ".0".

(** [repr(f)], which is also [str(f)]. *)
Definition float_repr (f : spec_float) : string :=
  match f with
  | S754_nan => "nan"
  | S754_infinity s => if s then "-inf" else "inf"
  | S754_zero s => if s then "-0.0" else "0.0"
  | S754_finite s m e => (if s then "-" else "") ++ repr_digits m e
  end.

(** [x * 2^q] rounded to the nearest integer, ties to even. *)
Definition round_half_even (x q : Z) : Z :=
  if 0 <=? q then x * 2 ^ q
  else
    let d := 2 ^ (- q) in
    let n := x / d in
    match Z.compare (2 * (x mod d)) d with
    | Lt => n
    | Gt => n + 1
    | Eq => if Z.even n then n else n + 1
    end.

(** [f"{f:.2f}"] *)
Definition float_format_2f (f : spec_float) : string :=
  match f with
  | S754_nan => "nan"
  | S754_infinity s => if s then "-inf" else "inf"
  | S754_zero s => if s then "-0.00" else "0.00"
  | S754_finite s m e =>
      let n := round_half_even (100 * Z.pos m) e in
      let frac := n mod 100 in
      (if s then "-" else "") ++ str_of_Z (n / 100) ++ "." ++
        (if frac <? 10 then "0" ++ str_of_Z frac else str_of_Z frac)
  end.

(* ------------------------------------------------------------------ *)
(** ** Dictionaries *)

Fixpoint lookup (d : dict) (k : string) : option value :=
  match d with
  | [] => None
  | (k', v) :: t => if String.eqb k' k then Some v else lookup t k
  end.

(** [k in d] *)
Definition dict_mem (d : dict) (k : string) : bool :=
  match lookup d k with Some _ => true | None => false end.

(** [d.get(k, dflt)] and [d.get(k)] *)
Definition dict_get_or (d : dict) (k : string) (dflt : value) : value :=
  match lookup d k with Some v => v | None => dflt end.

Definition dict_get (d : dict) (k : string) : value := dict_get_or d k VNone.

(** [d[k] = v]: overwrite in place, or append as the newest key. *)
Fixpoint dict_set (d : dict) (k : string) (v : value) : dict :=
  match d with
  | [] => [(k, v)]
  | (k', v') :: t =>
      if String.eqb k' k then (k', v) :: t else (k', v') :: dict_set t k v
  end.

Definition keys (d : dict) : list string := map fst d.

(** Truth value of an object, as tested by [if], [or] and [x if c else y]. *)
Definition truthy (v : value) : bool :=
  match v with
  | VNone => false
  | VBool b => b
  | VInt z => negb (z =? 0)
  | VFloat f => match f with S754_zero _ => false | _ => true end
  | VStr s => negb (String.eqb s "")
  | VList l => match l with [] => false | _ => true end
  | VDict d => match d with [] => false | _ => true end
  end.

(** [a or b] on already evaluated operands. *)
Definition py_or (a b : value) : value := if truthy a then a else b.

(** [o.get(k)] on an arbitrary object: only dicts have [get]. *)
Definition obj_get (o : value) (k : string) : result value :=
  match o with
  | VDict d => Ok (dict_get d k)
  | _ => Err (AttributeError "object has no attribute 'get'")
  end.

Definition obj_get_or (o : value) (k : string) (dflt : value) : result value :=
  match o with
  | VDict d => Ok (dict_get_or d k dflt)
  | _ => Err (AttributeError "object has no attribute 'get'")
  end.

(** Integer reading of the numeric objects ([bool] is a subclass of
    [int]). *)
Definition as_int (v : value) : option Z :=
  match v with
  | VInt z => Some z
  | VBool b => Some (if b then 1 else 0)
  | _ => None
  end.

(** The numeric objects: [int] (with [bool]) and [float]. *)
Inductive number : Type :=
| NInt (z : Z)
| NFloat (f : spec_float).

Definition as_number (v : value) : option number :=
  match v with
  | VFloat f => Some (NFloat f)
  | _ => match as_int v with Some z => Some (NInt z) | None => None end
  end.

(** The float operand of a mixed operation. *)
Definition to_float (n : number) : result spec_float :=
  match n with
  | NFloat f => Ok f
  | NInt z =>
      match float_of_Z z with
      | Some f => Ok f
      | None => Err (OverflowError "int too large to convert to float")
      end
  end.

(** [a - b] *)
Definition py_sub (a b : value) : result value :=
  match as_number a, as_number b with
  | Some (NInt x), Some (NInt y) => Ok (VInt (x - y))
  | Some x, Some y =>
      fx <- to_float x ;; fy <- to_float y ;; Ok (VFloat (float_sub fx fy))
  | _, _ => Err (TypeError "unsupported operand type(s) for -")
  end.

(* ------------------------------------------------------------------ *)
(** ** coordinator.py: [_filter_sensitive_data] *)

(** The test guarding both the comprehension and the [elif]. *)
Definition not_sensitive (k : string) : bool :=
  negb (str_in "password" (lower k)) && negb (str_in "secret" (lower k)).

(** [{k: v for k, v in value.items() if ...}] *)
Definition filter_nested (d : dict) : dict :=
  fold_left
    (fun acc kv => if not_sensitive (fst kv) then dict_set acc (fst kv) (snd kv) else acc)
    d [].

Definition filter_step (filtered : dict) (kv : string * value) : dict :=
  let (key, v) := kv in
  match v with
  | VDict d => dict_set filtered key (VDict (filter_nested d))
  | _ => if not_sensitive key then dict_set filtered key v else filtered
  end.

Definition _filter_sensitive_data (data : dict) : dict :=
  fold_left filter_step data [].

(* ------------------------------------------------------------------ *)
(** ** coordinator.py: [_normalize_proxy_data] *)

(** [self.proxy_names]: the locally configured display names, keyed by
    the proxy id as an int, or by the text of the id where it was not
    an int. *)
Definition name_map := list (value * value).

(** The value of a number, for comparison: zero, plus or minus
    [m * 2^e] with [m] odd, an infinity, or the NaN object. *)
Inductive magnitude : Type :=
| MZero
| MDyadic (negative : bool) (m : positive) (e : Z)
| MInfinity (negative : bool)
| MNaN.

Fixpoint odd_part (m : positive) : positive * Z :=
  match m with
  | xO p => let (q, k) := odd_part p in (q, k + 1)
  | _ => (m, 0)
  end.

Definition magnitude_of (n : number) : magnitude :=
  match n with
  | NInt 0 => MZero
  | NInt (Zpos p) => let (q, k) := odd_part p in MDyadic false q k
  | NInt (Zneg p) => let (q, k) := odd_part p in MDyadic true q k
  | NFloat (S754_zero _) => MZero
  | NFloat (S754_infinity s) => MInfinity s
  | NFloat S754_nan => MNaN
  | NFloat (S754_finite s m e) => let (q, k) := odd_part m in MDyadic s q (k + e)
  end.

Definition magnitude_eqb (a b : magnitude) : bool :=
  match a, b with
  | MZero, MZero => true
  | MDyadic s m e, MDyadic s' m' e' => Bool.eqb s s' && Pos.eqb m m' && (e =? e')
  | MInfinity s, MInfinity s' => Bool.eqb s s'
  | MNaN, MNaN => true
  | _, _ => false
  end.

(** Equality of dictionary keys: [None], text, and numbers by value
    ([True == 1 == 1.0]).  The one NaN a decoded document holds is the
    object [json.decoder.NaN], found again by identity. *)
Definition key_eqb (a b : value) : bool :=
  match a, b with
  | VNone, VNone => true
  | VStr s, VStr t => String.eqb s t
  | _, _ =>
      match as_number a, as_number b with
      | Some x, Some y => magnitude_eqb (magnitude_of x) (magnitude_of y)
      | _, _ => false
      end
  end.

Definition hashable (v : value) : bool :=
  match v with
  | VList _ | VDict _ => false
  | _ => true
  end.

Fixpoint name_lookup (m : name_map) (k : value) : option value :=
  match m with
  | [] => None
  | (k', v) :: t => if key_eqb k' k then Some v else name_lookup t k
  end.

(** [self.proxy_names.get(k)]; hashing a list or a dict raises. *)
Definition names_get (m : name_map) (k : value) : result value :=
  if hashable k
  then Ok (match name_lookup m k with Some v => v | None => VNone end)
  else Err (TypeError "unhashable type").

(** [str(v)] for the scalars.  Containers never reach it: the lookup
    by the id itself, evaluated first, has raised for them. *)
Definition py_str (v : value) : string :=
  match v with
  | VNone => "None"
  | VBool true => "True"
  | VBool false => "False"
  | VInt z => str_of_Z z
  | VFloat f => float_repr f
  | VStr s => s
  | VList _ | VDict _ => "<container>"
  end.

(** [v.upper()]: a method of [str] only. *)
Definition obj_upper (v : value) : result string :=
  match v with
  | VStr s => Ok (upper s)
  | _ => Err (AttributeError "object has no attribute 'upper'")
  end.

(** [a or b], where [b] is evaluated only when [a] is falsy. *)
Definition lazy_or (a b : result value) : result value :=
  x <- a ;; if truthy x then Ok x else b.

(** [proxy.get(k, {}) or {}] *)
Definition sub_object (proxy : dict) (k : string) : value :=
  py_or (dict_get_or proxy k (VDict [])) (VDict []).

Definition select_port (proxy_type : string) (connection : value) : result value :=
  if String.eqb proxy_type "HTTP" then obj_get connection "httpPort"
  else if String.eqb proxy_type "HTTPS" then obj_get connection "httpsPort"
  else if String.eqb proxy_type "SOCKS5" then obj_get connection "socks5Port"
  else
    lazy_or (obj_get connection "httpPort")
      (lazy_or (obj_get connection "httpsPort")
         (obj_get connection "socks5Port")).

Definition remaining_bandwidth (bandwidth_total bandwidth_used : value) : result value :=
  match bandwidth_total with
  | VNone => Ok VNone
  | _ =>
      let used_for_calc :=
        match bandwidth_used with VNone => VInt 0 | _ => bandwidth_used end in
      py_sub bandwidth_total used_for_calc
  end.

Definition is_none (v : value) : bool :=
  match v with VNone => true | _ => false end.

Definition normalize_status (raw_status : value) : string :=
  match raw_status with
  | VStr s => lower s
  | _ => "unknown"
  end.

Definition resolve_name (names : name_map) (proxy : dict) (metadata : value)
  : result value :=
  let proxy_id := dict_get proxy "id" in
  lazy_or (names_get names proxy_id)
    (lazy_or (names_get names (VStr (py_str proxy_id)))
       (lazy_or (Ok (dict_get proxy "name"))
          (lazy_or (Ok (dict_get proxy "label"))
             (lazy_or (Ok (dict_get proxy "alias"))
                (lazy_or (Ok (dict_get proxy "displayName"))
                   (lazy_or (obj_get metadata "name")
                      (obj_get metadata "label"))))))).

Definition authentication_type_of (whitelisted username : value) : value :=
  if truthy whitelisted then VStr "IP_WHITELIST"
  else if truthy username then VStr "USERNAME_PASSWORD"
  else VNone.

Definition _normalize_proxy_data (names : name_map) (proxy : dict) : result dict :=
  let connection := sub_object proxy "connection" in
  let authentication := sub_object proxy "authentication" in
  let bandwidth := sub_object proxy "bandwidth" in
  let metadata := sub_object proxy "metadata" in
  proxy_type <- obj_upper (dict_get_or proxy "proxyType" (VStr "")) ;;
  port <- select_port proxy_type connection ;;
  bandwidth_total <- obj_get bandwidth "total" ;;
  bandwidth_used <- obj_get bandwidth "used" ;;
  bandwidth_remaining <- remaining_bandwidth bandwidth_total bandwidth_used ;;
  let bandwidth_unlimited := is_none bandwidth_total in
  let status := normalize_status (dict_get_or proxy "status" (VStr "unknown")) in
  custom_name <- resolve_name names proxy metadata ;;
  ip_address <- lazy_or (obj_get connection "publicIp")
                        (obj_get connection "connectIp") ;;
  username <- obj_get authentication "username" ;;
  wl_test <- obj_get authentication "whitelistedIps" ;;
  whitelisted_ips <- obj_get_or authentication "whitelistedIps" (VList []) ;;
  ip_version <- obj_get connection "ipVersion" ;;
  connect_ip <- obj_get connection "connectIp" ;;
  http_port <- obj_get connection "httpPort" ;;
  https_port <- obj_get connection "httpsPort" ;;
  socks5_port <- obj_get connection "socks5Port" ;;
  isp_name <- obj_get metadata "ispName" ;;
  order_id <- obj_get metadata "orderId" ;;
  Ok [ ("id", dict_get proxy "id");
       ("name", custom_name);
       ("ip_address", ip_address);
       ("port", port);
       ("username", username);
       ("protocol", dict_get proxy "proxyType");
       ("network_type", dict_get proxy "networkType");
       ("country", dict_get proxy "countryCode");
       ("region", dict_get proxy "region");
       ("city", dict_get proxy "city");
       ("bandwidth_total", bandwidth_total);
       ("bandwidth_used", bandwidth_used);
       ("bandwidth_remaining", bandwidth_remaining);
       ("bandwidth_unlimited", VBool bandwidth_unlimited);
       ("expiry_date", dict_get proxy "expiresAt");
       ("auto_extend_enabled", dict_get proxy "autoExtendEnabled");
       ("authentication_type", authentication_type_of wl_test username);
       ("whitelisted_ips", whitelisted_ips);
       ("status", VStr status);
       ("created_at", dict_get proxy "createdAt");
       ("ip_version", ip_version);
       ("connect_ip", connect_ip);
       ("http_port", http_port);
       ("https_port", https_port);
       ("socks5_port", socks5_port);
       ("isp_name", isp_name);
       ("order_id", order_id);
       ("routes", dict_get_or proxy "routes" (VList []));
       ("_raw", VDict (_filter_sensitive_data proxy)) ].

(* ------------------------------------------------------------------ *)
(** ** Logging and the [io] monad of the client *)

Inductive level : Type := WARNING | ERROR.

Definition log := list (level * string).

(** A call that may append to the log and then returns or raises. *)
Definition io (A : Type) : Type := log -> result A * log.

Definition ret {A} (a : A) : io A := fun l => (Ok a, l).
Definition raise {A} (e : exn) : io A := fun l => (Err e, l).
Definition lift {A} (r : result A) : io A := fun l => (r, l).
Definition emit (lv : level) (msg : string) : io unit :=
  fun l => (Ok tt, (l ++ [(lv, msg)])%list).

Definition io_bind {A B} (m : io A) (k : A -> io B) : io B :=
  fun l =>
    match m l with
    | (Ok a, l') => k a l'
    | (Err e, l') => (Err e, l')
    end.

(** [try: m  except ...: h err]; [h] decides per exception. *)
Definition try_except {A} (m : io A) (h : exn -> io A) : io A :=
  fun l =>
    match m l with
    | (Ok a, l') => (Ok a, l')
    | (Err e, l') => h e l'
    end.

Declare Scope io_scope.
Delimit Scope io_scope with io.
Notation "x <~ m ;; k" := (io_bind m (fun x => k))
  (at level 61, m at next level, right associativity) : io_scope.
Notation "m ;;; k" := (io_bind m (fun _ => k))
  (at level 61, right associativity) : io_scope.

(* ------------------------------------------------------------------ *)
(** ** api.py *)

Definition API_BASE_URL := "https://api.proxy-cheap.com".
Definition ENDPOINT_BALANCE := "account/balance".
Definition ENDPOINT_PROXIES := "proxies".

(** What the code observes of an [aiohttp.ClientResponse]. *)
Record ClientResponse : Type := {
  status : Z;
  text : result string;     (* await response.text() *)
  json : result value       (* await response.json() *)
}.

(** One round trip: the context manager either raises on entry or
    yields a response. *)
Inductive exchange : Type :=
| Fails (e : exn)
| Responds (response : ClientResponse).

Definition headers := list (string * string).

(** [session.get(url, headers=, params=)] and
    [session.post(url, headers=, json=)]. *)
Record ClientSession : Type := {
  get : string -> headers -> option dict -> exchange;
  post : string -> headers -> option dict -> exchange
}.

Record ProxyCheapApi : Type := {
  _api_key : string;
  _api_secret : string;
  _session : ClientSession
}.

Definition _get_headers (self : ProxyCheapApi) : headers :=
  [ ("X-Api-Key", _api_key self);
    ("X-Api-Secret", _api_secret self);
    ("Content-Type", "application/json");
    ("Accept", "application/json") ].

Local Open Scope io_scope.

Definition _handle_response (response : ClientResponse) : io value :=
  if status response =? 401 then
    raise (ProxyCheapAuthError "Invalid API credentials")
  else if status response =? 403 then
    raise (ProxyCheapAuthError "Access forbidden - check API permissions")
  else if status response >=? 400 then
    t <~ lift (text response) ;;
    raise (ProxyCheapApiError
             ("API error " ++ str_of_Z (status response) ++ ": " ++ t))
  else
    try_except (lift (json response))
      (fun err =>
         if is_Exception err then
           t <~ lift (text response) ;;
           emit ERROR ("Failed to parse response: " ++ t) ;;;
           raise (ProxyCheapApiError
                    ("Failed to parse response: " ++ exn_str err))
         else raise err).

(** [async with asyncio.timeout(API_TIMEOUT)]: on expiry the body is
    cancelled and the block raises [TimeoutError] in its place. *)
Definition asyncio_timeout {A} (body : io A) : io A :=
  try_except body
    (fun e =>
       match e with
       | CancelledError => raise (TimeoutError "")
       | _ => raise e
       end).

(** The [session.get] or [session.post] call issued by [_request]. *)
Definition round_trip (self : ProxyCheapApi) (method endpoint : string)
           (data : option dict) : exchange :=
  let session := _session self in
  let url := API_BASE_URL ++ "/" ++ endpoint in
  if String.eqb (upper method) "GET"
  then get session url (_get_headers self) data
  else post session url (_get_headers self) data.

Definition _request (self : ProxyCheapApi) (method endpoint : string)
           (data : option dict) : io value :=
  try_except
    (asyncio_timeout
       (match round_trip self method endpoint data with
        | Fails e => raise e
        | Responds response => _handle_response response
        end))
    (fun err =>
       match err with
       | TimeoutError _ =>
           raise (ProxyCheapApiError ("Timeout connecting to API: " ++ exn_str err))
       | ClientError _ =>
           raise (ProxyCheapApiError ("Error connecting to API: " ++ exn_str err))
       | _ => raise err
       end).

Definition get_balance (self : ProxyCheapApi) : io value :=
  _request self "GET" ENDPOINT_BALANCE None.

(** [d[k]] *)
Definition subscript (d : dict) (k : string) : result value :=
  match lookup d k with
  | Some v => Ok v
  | None => Err (KeyError k)
  end.

(** The part of [get_proxies] after the request. *)
Definition proxies_of_result (res : value) : result value :=
  match res with
  | VList _ => Ok res
  | VDict d =>
      if dict_mem d "proxies" then subscript d "proxies"
      else if dict_mem d "data" then subscript d "data"
      else Ok (if truthy res then VList [res] else VList [])
  | _ => Ok (if truthy res then VList [res] else VList [])
  end.

Definition get_proxies (self : ProxyCheapApi) : io value :=
  res <~ _request self "GET" ENDPOINT_PROXIES None ;;
  lift (proxies_of_result res).

Definition validate_credentials (self : ProxyCheapApi) : io bool :=
  try_except
    (_ <~ get_balance self ;; ret true)
    (fun err =>
       if is_ProxyCheapAuthError err then ret false
       else if is_ProxyCheapApiError err then
         emit WARNING ("API error during validation: " ++ exn_str err) ;;;
         ret false
       else raise err).

(* ------------------------------------------------------------------ *)
(** ** coordinator.py: [_async_update_data] *)

(** The local [proxies] dict: proxy identifier to normalised record. *)
Definition proxy_map := list (value * dict).

Fixpoint proxies_lookup (m : proxy_map) (k : value) : option dict :=
  match m with
  | [] => None
  | (k', v) :: t => if key_eqb k' k then Some v else proxies_lookup t k
  end.

Fixpoint proxies_put (m : proxy_map) (k : value) (v : dict) : proxy_map :=
  match m with
  | [] => [(k, v)]
  | (k', v') :: t =>
      if key_eqb k' k then (k', v) :: t else (k', v') :: proxies_put t k v
  end.

(** [proxies[k] = v] *)
Definition proxies_setitem (m : proxy_map) (k : value) (v : dict)
  : result proxy_map :=
  if hashable k then Ok (proxies_put m k v)
  else Err (TypeError "unhashable type").

Fixpoint chars (s : string) : list value :=
  match s with
  | EmptyString => []
  | String c t => VStr (String c EmptyString) :: chars t
  end.

(** The items a [for] loop draws from an object. *)
Definition py_iter (v : value) : result (list value) :=
  match v with
  | VList l => Ok l
  | VDict d => Ok (map (fun kv => VStr (fst kv)) d)
  | VStr s => Ok (chars s)
  | _ => Err (TypeError "object is not iterable")
  end.

(** [proxy.get("id") or proxy.get("proxy_id")] *)
Definition identifier (proxy : dict) : value :=
  py_or (dict_get proxy "id") (dict_get proxy "proxy_id").

(** One turn of the loop body. *)
Definition collect_step (names : name_map) (proxies : proxy_map) (proxy : value)
  : result proxy_map :=
  match proxy with
  | VDict p =>
      let proxy_id := identifier p in
      if truthy proxy_id then
        n <- _normalize_proxy_data names p ;;
        proxies_setitem proxies proxy_id n
      else Ok proxies
  | _ => Err (AttributeError "object has no attribute 'keys'")
  end.

Fixpoint collect_loop (names : name_map) (proxies : proxy_map)
         (items : list value) : result proxy_map :=
  match items with
  | [] => Ok proxies
  | proxy :: rest =>
      proxies' <- collect_step names proxies proxy ;;
      collect_loop names proxies' rest
  end.

Definition collect_proxies (names : name_map) (proxies_data : value)
  : result proxy_map :=
  items <- py_iter proxies_data ;;
  collect_loop names [] items.

(** The returned snapshot is a dict whose values are JSON values, the
    [proxies] dict and an int. *)
Inductive field : Type :=
| FValue (v : value)
| FProxies (m : proxy_map).

Definition snapshot := list (string * field).

Definition build_snapshot (names : name_map) (balance_data proxies_data : value)
  : result snapshot :=
  proxies <- collect_proxies names proxies_data ;;
  balance <- obj_get_or balance_data "balance" (VInt 0) ;;
  currency <- obj_get_or balance_data "currency" (VStr "USD") ;;
  Ok [ ("balance", FValue balance);
       ("currency", FValue currency);
       ("proxies", FProxies proxies);
       ("proxy_count", FValue (VInt (Z.of_nat (List.length proxies)))) ].

Record ProxyCheapCoordinator : Type := {
  api : ProxyCheapApi;
  proxy_names : name_map
}.

Definition _async_update_data (self : ProxyCheapCoordinator) : io snapshot :=
  try_except
    (balance_data <~ get_balance (api self) ;;
     proxies_data <~ get_proxies (api self) ;;
     lift (build_snapshot (proxy_names self) balance_data proxies_data))
    (fun err =>
       if is_ProxyCheapApiError err then
         raise (UpdateFailed ("Error communicating with API: " ++ exn_str err))
       else raise err).

Fixpoint field_lookup (s : snapshot) (k : string) : option field :=
  match s with
  | [] => None
  | (k', f) :: t => if String.eqb k' k then Some f else field_lookup t k
  end.

(* ------------------------------------------------------------------ *)
(** ** Notions and sample inputs used in the statements *)

Local Close Scope io_scope.

Definition clean_entry (kv : string * value) : Prop :=
  match snd kv with
  | VDict d => forall k, In k (keys d) -> not_sensitive k = true
  | _ => not_sensitive (fst kv) = true
  end.

Ltac bind_inv H :=
  repeat match type of H with
  | bind ?r _ = Ok _ =>
      let x := fresh "x" in
      let E := fresh "E" in
      destruct r as [x|] eqn:E;
      [cbn beta iota delta [bind] in H | discriminate H]
  end.

(** The key set of a normalised record, in the order of the literal. *)
Definition normalized_keys : list string :=
  [ "id"; "name"; "ip_address"; "port"; "username"; "protocol";
    "network_type"; "country"; "region"; "city"; "bandwidth_total";
    "bandwidth_used"; "bandwidth_remaining"; "bandwidth_unlimited";
    "expiry_date"; "auto_extend_enabled"; "authentication_type";
    "whitelisted_ips"; "status"; "created_at"; "ip_version"; "connect_ip";
    "http_port"; "https_port"; "socks5_port"; "isp_name"; "order_id";
    "routes"; "_raw" ].

(** A number that has a float: every float, and the ints that
    [float()] converts without OverflowError. *)
Definition fits_float (n : number) : Prop :=
  match n with
  | NInt z => float_of_Z z <> None
  | NFloat _ => True
  end.

(** The operands on which [a - b] is defined: two numbers, and where
    one of them is a float, an int beside it fits a float. *)
Definition subtractable (a b : value) : Prop :=
  exists x y,
    as_number a = Some x /\ as_number b = Some y /\
    match x, y with
    | NInt _, NInt _ => True
    | _, _ => fits_float x /\ fits_float y
    end.

(** Records on which every step of the normaliser is defined: the four
    sub-objects are objects (or empty or null or absent), the protocol
    is text (or absent), the bandwidth total is null or can have the
    used figure (0 for null) subtracted from it, and the id can be
    hashed. *)
Definition well_shaped (proxy : dict) : Prop :=
  (forall k, In k ["connection"; "authentication"; "bandwidth"; "metadata"] ->
             exists d, sub_object proxy k = VDict d) /\
  (exists s, dict_get_or proxy "proxyType" (VStr "") = VStr s) /\
  (forall d, sub_object proxy "bandwidth" = VDict d ->
             dict_get d "total" <> VNone ->
             subtractable (dict_get d "total")
               (match dict_get d "used" with
                | VNone => VInt 0
                | _ => dict_get d "used"
                end)) /\
  hashable (dict_get proxy "id") = true.

(** The record of the scenario: a metered SOCKS5 proxy. *)
Definition scenario_record : dict :=
  [ ("id", VInt 7);
    ("proxyType", VStr "SOCKS5");
    ("connection", VDict [("socks5Port", VInt 1080)]);
    ("bandwidth", VDict [("total", VInt 100); ("used", VInt 30)]) ].

Definition scenario_normalized : dict :=
  Eval vm_compute in
    match _normalize_proxy_data [] scenario_record with
    | Ok n => n
    | Err _ => []
    end.




(** The float [m * 2^e], for sample figures: 100.5 is 201 * 2^-1. *)
Definition dyadic (m e : Z) : spec_float := binary_normalize 53 1024 m e false.

(** A metered proxy whose figures have a fractional part: 100.5 GB in
    total, 30.25 GB used. *)
Definition fractional_record : dict :=
  [ ("id", VInt 8);
    ("bandwidth",
     VDict [("total", VFloat (dyadic 201 (-1))); ("used", VFloat (dyadic 121 (-2)))]) ].

Definition fractional_normalized : dict :=
  Eval vm_compute in
    match _normalize_proxy_data [] fractional_record with
    | Ok n => n
    | Err _ => []
    end.

(** A record whose total is an int beyond the range of float, beside
    a fractional used figure. *)
Definition oversized_record : dict :=
  [ ("id", VInt 8);
    ("bandwidth", VDict [("total", VInt (10 ^ 400)); ("used", VFloat (dyadic 1 (-1)))]) ].

(** A record whose credential sits in a sub-object under a sensitive
    key. *)
Definition leaky_record : dict :=
  [ ("id", VInt 7);
    ("secretToken", VDict [("value", VStr "s3cr3t")]) ].

(** A record with both a username and a whitelisted address, and a
    vendor field that names another authentication type. *)
Definition whitelisted_record : dict :=
  [ ("id", VInt 9);
    ("authenticationType", VStr "USERNAME_PASSWORD");
    ("authentication",
     VDict [("username", VStr "u"); ("whitelistedIps", VList [VStr "203.0.113.5"])]) ].

Definition whitelisted_normalized : dict :=
  Eval vm_compute in
    match _normalize_proxy_data [] whitelisted_record with
    | Ok n => n
    | Err _ => []
    end.

(** A client whose session answers every request in the same way. *)
Definition session_of (ex : exchange) : ClientSession :=
  {| get := fun _ _ _ => ex; post := fun _ _ _ => ex |}.

Definition api_of (ex : exchange) : ProxyCheapApi :=
  {| _api_key := "key"; _api_secret := "secret"; _session := session_of ex |}.

Definition answering (code : Z) (body : string) (doc : result value) : exchange :=
  Responds {| status := code; text := Ok body; json := doc |}.

(** The request runs out of time before any response arrives. *)
Definition timing_out : exchange := Fails CancelledError.

Definition server_error : exchange :=
  answering 500 "Internal Server Error" (Err (OtherException "not JSON")).

(** The class of an exception object. *)
Definition class_name (e : exn) : string :=
  match e with
  | ProxyCheapApiError _ => "ProxyCheapApiError"
  | ProxyCheapAuthError _ => "ProxyCheapAuthError"
  | UpdateFailed _ => "UpdateFailed"
  | TimeoutError _ => "TimeoutError"
  | ClientError _ => "ClientError"
  | CancelledError => "CancelledError"
  | AttributeError _ => "AttributeError"
  | TypeError _ => "TypeError"
  | KeyError _ => "KeyError"
  | OverflowError _ => "OverflowError"
  | OtherException _ => "Exception"
  end.

(** The three kinds of failure that the specification names. *)
Inductive error_kind : Type := AuthError | ConnectionError | ApiError.

Definition unauthorized : exchange :=
  answering 401 "Unauthorized" (Err (OtherException "not JSON")).

Definition data_wrapper : value :=
  VDict [("data", VList [VDict [("id", VInt 1)]; VDict [("id", VInt 2)]])].

Definition both_keys : value :=
  VDict [("proxies", VNone); ("data", VList [VDict [("id", VInt 1)]])].

Definition single_object : value :=
  VDict [("id", VInt 5); ("status", VStr "ACTIVE")].

(** No two entries of the mapping have equal keys. *)
Fixpoint distinct_keys (m : proxy_map) : Prop :=
  match m with
  | [] => True
  | (k, _) :: t => proxies_lookup t k = None /\ distinct_keys t
  end.

(** The record that a poll over [items] leaves under key [k]: the last
    one whose identifier is truthy and equal to [k]. *)
Fixpoint last_with_id (items : list value) (k : value) : option dict :=
  match items with
  | [] => None
  | item :: rest =>
      match last_with_id rest k with
      | Some p => Some p
      | None =>
          match item with
          | VDict p =>
              if truthy (identifier p) && key_eqb (identifier p) k
              then Some p else None
          | _ => None
          end
      end
  end.

Definition poll_items : list value :=
  [ VDict [("id", VInt 0); ("status", VStr "ACTIVE")];
    VDict [("proxy_id", VStr "a")];
    VDict [("id", VInt 3); ("status", VStr "ACTIVE")];
    VDict [("id", VInt 3); ("status", VStr "EXPIRED")] ].

Definition poll_snapshot : snapshot :=
  Eval vm_compute in
    match build_snapshot [] (VDict []) (VList poll_items) with
    | Ok s => s
    | Err _ => []
    end.

(** A vendor that answers the balance request without a currency and
    the list-proxies request with [poll_items]. *)
Definition vendor : ClientSession :=
  {| get := fun url _ _ =>
              if String.eqb url (API_BASE_URL ++ "/" ++ ENDPOINT_PROXIES)
              then answering 200 "" (Ok (VList poll_items))
              else answering 200 "" (Ok (VDict [("balance", VInt 12)]));
     post := fun _ _ _ => Fails (ClientError "unexpected") |}.

Definition polling : ProxyCheapCoordinator :=
  {| api := {| _api_key := "key"; _api_secret := "secret"; _session := vendor |};
     proxy_names := [] |}.

Definition polled_snapshot : snapshot :=
  Eval vm_compute in
    match fst (_async_update_data polling []) with
    | Ok s => s
    | Err _ => []
    end.

(** The keys of every object nested directly in [data] are pairwise
    distinct, as they are in a decoded JSON document. *)
Definition distinct_inner_keys (data : dict) : Prop :=
  forall k d, In (k, VDict d) data -> NoDup (keys d).

(** The filter as one pass over the entries, for comparison with the
    loop that builds [filtered] key by key. *)
Fixpoint redact (data : dict) : dict :=
  match data with
  | [] => []
  | (k, v) :: t =>
      match v with
      | VDict d => (k, VDict (filter_nested d)) :: redact t
      | _ => if not_sensitive k then (k, v) :: redact t else redact t
      end
  end.

(** [v1 or v2 or ... or vn] on evaluated operands: the first truthy
    one, else the last. *)
Fixpoint first_truthy (vs : list value) : value :=
  match vs with
  | [] => VNone
  | [v] => v
  | v :: rest => if truthy v then v else first_truthy rest
  end.

(** [names.get(k)] for a key that can be hashed. *)
Definition name_of (names : name_map) (k : value) : value :=
  match name_lookup names k with Some v => v | None => VNone end.

(** The builtin exception classes raised by attribute access, by
    operators on objects of the wrong type and by the conversion of a
    large int to float. *)
Definition is_builtin_error (e : exn) : bool :=
  match e with
  | AttributeError _ | TypeError _ | OverflowError _ => true
  | _ => false
  end.



(** A record with vendor names, for a coordinator with a local name. *)
Definition named_record : dict :=
  [ ("id", VInt 7); ("name", VStr "vendor name"); ("label", VStr "vendor label") ].

Definition named_normalized : dict :=
  Eval vm_compute in
    match _normalize_proxy_data [(VInt 7, VStr "Office")] named_record with
    | Ok n => n
    | Err _ => []
    end.

(** The exceptions of the transport layer, which [_request] handles. *)
Definition is_transport_error (e : exn) : bool :=
  match e with
  | TimeoutError _ | ClientError _ | CancelledError => true
  | _ => false
  end.

(** A session that refuses every connection. *)
Definition unreachable : exchange := Fails (ClientError "Cannot connect to host").

(** An item of the list-proxies result that a poll can digest: an
    object that either has no truthy identifier (and is skipped) or
    is well shaped with an identifier that can be hashed. *)
Definition digestible (item : value) : Prop :=
  exists p, item = VDict p /\
            (truthy (identifier p) = true ->
             well_shaped p /\ hashable (identifier p) = true).

(** The balance request answers 401, the list-proxies request is fine. *)
Definition revoked : ClientSession :=
  {| get := fun url _ _ =>
              if String.eqb url (API_BASE_URL ++ "/" ++ ENDPOINT_BALANCE)
              then answering 401 "Unauthorized" (Err (OtherException "not JSON"))
              else answering 200 "" (Ok (VList []));
     post := fun _ _ _ => Fails (ClientError "unexpected") |}.

Definition polling_revoked : ProxyCheapCoordinator :=
  {| api := {| _api_key := "key"; _api_secret := "secret"; _session := revoked |};
     proxy_names := [] |}.

(* ------------------------------------------------------------------ *)
(** ** sensor.py and binary_sensor.py: reading the snapshot *)

(** [coordinator.data.get("proxies", {}).get(self._proxy_id)], where a
    missing proxy reads as [None]. *)
Definition lookup_proxy (data : snapshot) (proxy_id : value) : result value :=
  match field_lookup data "proxies" with
  | Some (FProxies m) =>
      if hashable proxy_id
      then Ok (match proxies_lookup m proxy_id with
               | Some n => VDict n
               | None => VNone
               end)
      else Err (TypeError "unhashable type")
  | Some (FValue (VDict d)) =>
      if hashable proxy_id
      then Ok (match proxy_id with VStr k => dict_get d k | _ => VNone end)
      else Err (TypeError "unhashable type")
  | Some (FValue _) => Err (AttributeError "object has no attribute 'get'")
  | None =>
      if hashable proxy_id then Ok VNone else Err (TypeError "unhashable type")
  end.

(** [f"{x:.2f}"]: a number is printed as the float it converts to;
    text and the other objects are refused. *)
Definition format_2f (x : value) : result string :=
  match as_number x with
  | Some n => f <- to_float n ;; Ok (float_format_2f f)
  | None =>
      match x with
      | VStr _ => Err (OtherException "Unknown format code 'f' for object of type 'str'")
      | _ => Err (TypeError "unsupported format string")
      end
  end.

Module sensor.

(** The [value_fn] lambdas of the three bandwidth descriptions and of
    the status and auto_extend descriptions in [PROXY_SENSORS]. *)
Definition value_fn_status (proxy : value) : result value :=
  obj_get_or proxy "status" (VStr "unknown").

Definition value_fn_bandwidth_total (proxy : value) : result value :=
  unlimited <- obj_get proxy "bandwidth_unlimited" ;;
  if truthy unlimited then Ok (VStr "Unlimited")
  else
    total <- obj_get proxy "bandwidth_total" ;;
    match total with
    | VNone => Ok VNone
    | _ => s <- format_2f total ;; Ok (VStr (s ++ " GB"))
    end.

Definition value_fn_bandwidth_used (proxy : value) : result value :=
  used <- obj_get proxy "bandwidth_used" ;;
  match used with
  | VNone => Ok (VStr "0 GB")
  | _ => s <- format_2f used ;; Ok (VStr (s ++ " GB"))
  end.

Definition value_fn_bandwidth_remaining (proxy : value) : result value :=
  unlimited <- obj_get proxy "bandwidth_unlimited" ;;
  if truthy unlimited then Ok (VStr "Unlimited")
  else
    remaining <- obj_get proxy "bandwidth_remaining" ;;
    match remaining with
    | VNone => Ok VNone
    | _ => s <- format_2f remaining ;; Ok (VStr (s ++ " GB"))
    end.

Definition value_fn_auto_extend (proxy : value) : result value :=
  enabled <- obj_get proxy "auto_extend_enabled" ;;
  Ok (VStr (if truthy enabled then "Enabled" else "Disabled")).

(** [ProxyCheapProxySensor.native_value] for a description whose
    lambda is [value_fn]. *)
Definition native_value (value_fn : value -> result value)
           (data : option snapshot) (proxy_id : value) : result value :=
  match data with
  | None => Ok VNone
  | Some s =>
      proxy <- lookup_proxy s proxy_id ;;
      match proxy with
      | VNone => Ok VNone
      | _ => value_fn proxy
      end
  end.

(** [if proxy.get(k): attrs[k] = proxy[k]] *)
Definition copy_if_truthy (proxy : dict) (k : string) (attrs : dict) : result dict :=
  if truthy (dict_get proxy k)
  then v <- subscript proxy k ;; Ok (dict_set attrs k v)
  else Ok attrs.

(** One turn of the loop over [raw_data.items()]. *)
Definition raw_attr_step (attrs : dict) (kv : string * value) : dict :=
  let (key, v) := kv in
  if not_sensitive key then
    match v with
    | VDict d => dict_set attrs ("raw_" ++ key) (VDict (filter_nested d))
    | _ => dict_set attrs ("raw_" ++ key) v
    end
  else attrs.

Definition add_raw_attrs (proxy : dict) (attrs : dict) : result dict :=
  let raw_data := dict_get_or proxy "_raw" (VDict []) in
  if truthy raw_data then
    match raw_data with
    | VDict raw =>
        let attrs := dict_set attrs "raw_api_fields" (VList (map VStr (keys raw))) in
        Ok (fold_left raw_attr_step raw attrs)
    | _ => Err (AttributeError "object has no attribute 'keys'")
    end
  else Ok attrs.

(** [ProxyCheapProxySensor.extra_state_attributes]; [key] is
    [self.entity_description.key]. *)
Definition extra_state_attributes (data : option snapshot) (proxy_id : value)
           (key : string) : result dict :=
  match data with
  | None => Ok []
  | Some s =>
      proxy <- lookup_proxy s proxy_id ;;
      match proxy with
      | VNone => Ok []
      | _ =>
          let base_attrs := [("proxy_id", proxy_id)] in
          if negb (String.eqb key "status") then Ok base_attrs
          else
            match proxy with
            | VDict p =>
                let attrs := [("proxy_id", proxy_id)] in
                attrs <- copy_if_truthy p "whitelisted_ips" attrs ;;
                attrs <- copy_if_truthy p "region" attrs ;;
                attrs <- copy_if_truthy p "city" attrs ;;
                attrs <- copy_if_truthy p "ip_version" attrs ;;
                attrs <- copy_if_truthy p "authentication_type" attrs ;;
                attrs <- copy_if_truthy p "created_at" attrs ;;
                add_raw_attrs p attrs
            | _ => Err (AttributeError "object has no attribute 'get'")
            end
      end
  end.

End sensor.

Module binary_sensor.

Definition STATUS_ACTIVE := "active".

(** The [is_on_fn] lambdas of the two descriptions in
    [PROXY_BINARY_SENSORS].  For a list or a dict [py_str] is a
    stand-in that, like the text Python prints for them, is not
    "active" in any case. *)
Definition is_on_fn_active (proxy : value) : result bool :=
  s <- obj_get_or proxy "status" (VStr "") ;;
  Ok (String.eqb (lower (py_str s)) STATUS_ACTIVE).

Definition is_on_fn_auto_extend_enabled (proxy : value) : result bool :=
  v <- obj_get proxy "auto_extend_enabled" ;;
  Ok (truthy v).

(** [ProxyCheapProxyBinarySensor.is_on] for a description whose lambda
    is [is_on_fn]; [None] stands for the Python [None]. *)
Definition is_on (is_on_fn : value -> result bool)
           (data : option snapshot) (proxy_id : value) : result (option bool) :=
  match data with
  | None => Ok None
  | Some s =>
      proxy <- lookup_proxy s proxy_id ;;
      match proxy with
      | VNone => Ok None
      | _ => b <- is_on_fn proxy ;; Ok (Some b)
      end
  end.

End binary_sensor.

(** A poll over one record with a credential under a sensitive key
    and one inside the authentication object. *)
Definition secret_items : list value :=
  [ VDict [ ("id", VInt 7);
            ("status", VStr "ACTIVE");
            ("apiSecret", VStr "s3cr3t");
            ("authentication",
             VDict [("username", VStr "u"); ("password", VStr "p")]) ] ].

Definition secret_snapshot : snapshot :=
  Eval vm_compute in
    match build_snapshot [] (VDict []) (VList secret_items) with
    | Ok s => s
    | Err _ => []
    end.

Definition secret_attributes : dict :=
  Eval vm_compute in
    match sensor.extra_state_attributes (Some secret_snapshot) (VInt 7) "status" with
    | Ok a => a
    | Err _ => []
    end.

(** What the attributes of a sensor may hold: no sensitive key, and
    under a key that starts with "raw_" no object with a sensitive key
    inside. *)
Definition presentable (attrs : dict) : Prop :=
  forall k v, In (k, v) attrs ->
    not_sensitive k = true /\
    (String.prefix "raw_" k = true ->
     forall d, v = VDict d -> forall k', In k' (keys d) -> not_sensitive k' = true).

(* ------------------------------------------------------------------ *)
(** ** config_flow.py: [ProxyCheapConfigFlow.async_step_user] *)

Module config_flow.

(** The form data, as [STEP_USER_DATA_SCHEMA] admits it. *)
Record UserInput : Type := {
  api_key : string;
  api_secret : string;
  scan_interval : Z
}.

(** The outcomes of a step.  [Abort] is what the flow manager makes
    of the AbortFlow raised by [_abort_if_unique_id_configured]. *)
Inductive ConfigFlowResult : Type :=
| CreateEntry (title : string) (data : UserInput)
| ShowForm (step_id : string) (errors : list (string * string))
| Abort (reason : string).

Local Open Scope io_scope.

(** The [try] statement around [validate_credentials]: the [errors]
    dict it leaves behind. *)
Definition credential_errors (api : ProxyCheapApi) : io (list (string * string)) :=
  try_except
    (valid <~ validate_credentials api ;;
     if negb valid then ret [("base", "invalid_auth")] else ret [])
    (fun err =>
       if is_ProxyCheapAuthError err then ret [("base", "invalid_auth")]
       else if is_ProxyCheapApiError err then ret [("base", "cannot_connect")]
       else if is_Exception err then
         emit ERROR "Unexpected exception" ;;;
         ret [("base", "unknown")]
       else raise err).

(** [session] is the shared client session of the host and
    [configured] tells whether an entry with this unique id exists. *)
Definition async_step_user (session : ClientSession) (configured : string -> bool)
           (user_input : option UserInput) : io ConfigFlowResult :=
  match user_input with
  | None => ret (ShowForm "user" [])
  | Some ui =>
      if configured (api_key ui) then ret (Abort "already_configured")
      else
        let api := {| _api_key := api_key ui;
                      _api_secret := api_secret ui;
                      _session := session |} in
        errors <~ credential_errors api ;;
        match errors with
        | [] => ret (CreateEntry "Proxy-Cheap" ui)
        | _ => ret (ShowForm "user" errors)
        end
  end.

Local Close Scope io_scope.

End config_flow.

(** Form data for a first set-up. *)
Definition first_input : config_flow.UserInput :=
  {| config_flow.api_key := "key";
     config_flow.api_secret := "secret";
     config_flow.scan_interval := 300 |}.

(* ------------------------------------------------------------------ *)
(** ** __init__.py: the whitelist handed to [update_whitelist] *)

(** The ASCII characters that [str.strip()] removes; [strip] below is
    [str.strip()] on ASCII text. *)
Definition is_space (c : ascii) : bool :=
  let n := nat_of_ascii c in
  (((9 <=? n) && (n <=? 13)) || ((28 <=? n) && (n <=? 32)))%nat.

Fixpoint lstrip (s : string) : string :=
  match s with
  | EmptyString => EmptyString
  | String c t => if is_space c then lstrip t else s
  end.

Fixpoint rstrip (s : string) : string :=
  match s with
  | EmptyString => EmptyString
  | String c t =>
      match rstrip t with
      | EmptyString => if is_space c then EmptyString else String c EmptyString
      | t' => String c t'
      end
  end.

(** [s.strip()] *)
Definition strip (s : string) : string := rstrip (lstrip s).

Definition is_comma (c : ascii) : bool := Ascii.eqb c ","%char.

(** [s.split(",")] *)
Fixpoint split_comma (s : string) : list string :=
  match s with
  | EmptyString => [EmptyString]
  | String c t =>
      if is_comma c then EmptyString :: split_comma t
      else
        match split_comma t with
        | h :: r => String c h :: r
        | [] => [String c EmptyString]
        end
  end.

(** [",".join(l)] *)
Fixpoint join_comma (l : list string) : string :=
  match l with
  | [] => EmptyString
  | [a] => a
  | a :: rest => a ++ "," ++ join_comma rest
  end.

Definition nonempty (s : string) : bool := negb (String.eqb s "").

(** [[ip.strip() for ip in ips_input.split(",") if ip.strip()]] *)
Definition parse_ips (ips_input : string) : list string :=
  map strip (filter (fun ip => nonempty (strip ip)) (split_comma ips_input)).

(** [api.update_whitelist]: the endpoint is
    [ENDPOINT_WHITELIST.format(proxy_id=proxy_id)] and the parameters
    are sent only for a non-empty list. *)
(** The endpoint templates of const.py, filled in by
    [.format(proxy_id=proxy_id)] for an int. *)
Definition ENDPOINT_PROXY (proxy_id : Z) : string :=
  "proxies/" ++ str_of_Z proxy_id.
Definition ENDPOINT_WHITELIST (proxy_id : Z) : string :=
  "proxies/" ++ str_of_Z proxy_id ++ "/whitelist-ip".
Definition ENDPOINT_EXTEND (proxy_id : Z) : string :=
  "proxies/" ++ str_of_Z proxy_id ++ "/extend-period".
Definition ENDPOINT_AUTO_EXTEND_ENABLE (proxy_id : Z) : string :=
  "proxies/" ++ str_of_Z proxy_id ++ "/auto-extend/enable".
Definition ENDPOINT_AUTO_EXTEND_DISABLE (proxy_id : Z) : string :=
  "proxies/" ++ str_of_Z proxy_id ++ "/auto-extend/disable".

Definition get_proxy (self : ProxyCheapApi) (proxy_id : Z) : io value :=
  _request self "GET" (ENDPOINT_PROXY proxy_id) None.

Definition extend_proxy (self : ProxyCheapApi) (proxy_id months : Z) : io value :=
  _request self "GET" (ENDPOINT_EXTEND proxy_id) (Some [("months", VInt months)]).

Definition set_auto_extend (self : ProxyCheapApi) (proxy_id : Z)
           (enabled : bool) : io value :=
  let endpoint :=
    if enabled then ENDPOINT_AUTO_EXTEND_ENABLE proxy_id
    else ENDPOINT_AUTO_EXTEND_DISABLE proxy_id in
  _request self "POST" endpoint None.

Definition update_whitelist (self : ProxyCheapApi) (proxy_id : Z)
           (ips : option (list string)) : io value :=
  let endpoint := ENDPOINT_WHITELIST proxy_id in
  let params :=
    match ips with
    | Some (_ :: _ as l) => Some [("ips", VStr (join_comma l))]
    | _ => None
    end in
  _request self "GET" endpoint params.




(* ------------------------------------------------------------------ *)
(** ** api.py: the life cycle of the client session *)

Module lifecycle.

(** The two attributes that [_get_session] and [close] use; a session
    object is named by a number. *)
Record t : Type := {
  _session : option nat;
  _close_session : bool
}.

(** [__init__] with the [session] argument of the caller. *)
Definition init (session : option nat) : t :=
  {| _session := session; _close_session := false |}.

(** [_get_session]; [fresh] is the object that [aiohttp.ClientSession()]
    would create. *)
Definition _get_session (fresh : nat) (self : t) : t * nat :=
  match _session self with
  | None => ({| _session := Some fresh; _close_session := true |}, fresh)
  | Some s => (self, s)
  end.

(** [close]; the list holds the session that was closed, if any. *)
Definition close (self : t) : t * list nat :=
  match _close_session self, _session self with
  | true, Some s =>
      ({| _session := None; _close_session := _close_session self |}, [s])
  | _, _ => (self, [])
  end.

(** What a user of the client does with it over time: requests, each
    of which first calls [_get_session], and calls of [close]. *)
Inductive call : Type :=
| Request (fresh : nat)
| Close.

(** The state after a sequence of calls, the sessions used by the
    requests and the sessions closed, each in order. *)
Fixpoint run (calls : list call) (self : t) : t * list nat * list nat :=
  match calls with
  | [] => (self, [], [])
  | Request fresh :: rest =>
      let (self', s) := _get_session fresh self in
      let '(final, used, closed) := run rest self' in
      (final, s :: used, closed)
  | Close :: rest =>
      let (self', c) := close self in
      let '(final, used, closed) := run rest self' in
      (final, used, (c ++ closed)%list)
  end.

End lifecycle.

(** The state of a client that created its own session, or that has
    none at the moment. *)
Definition owns_its_session (self : lifecycle.t) : Prop :=
  lifecycle._session self = None \/ lifecycle._close_session self = true.

(* ------------------------------------------------------------------ *)
(** ** The unique ids of the entities and the options listener *)

(** [str(proxy_id)] inside the f-strings of the two entity classes. *)
Definition proxy_sensor_unique_id (entry_id : string) (proxy_id : value)
           (key : string) : string :=
  entry_id ++ "_proxy_" ++ py_str proxy_id ++ "_" ++ key.

Definition proxy_binary_sensor_unique_id (entry_id : string) (proxy_id : value)
           (key : string) : string :=
  entry_id ++ "_proxy_" ++ py_str proxy_id ++ "_" ++ key ++ "_binary".

Fixpoint drop (n : nat) (s : string) : string :=
  match n, s with
  | O, _ => s
  | S n', String _ t => drop n' t
  | S _, EmptyString => EmptyString
  end.

(** [s.split(sep, 1)[1]], when [sep] occurs in [s]. *)
Fixpoint after_first (sep s : string) : option string :=
  if String.prefix sep s then Some (drop (String.length sep) s)
  else
    match s with
    | EmptyString => None
    | String _ t => after_first sep t
    end.

(** [s.split(c)] for a separator of one character. *)
Fixpoint split_on (sep : ascii) (s : string) : list string :=
  match s with
  | EmptyString => [EmptyString]
  | String c t =>
      if Ascii.eqb c sep then EmptyString :: split_on sep t
      else
        match split_on sep t with
        | h :: r => String c h :: r
        | [] => [String c EmptyString]
        end
  end.

(** [sep.join(l)] *)
Fixpoint join_with (sep : string) (l : list string) : string :=
  match l with
  | [] => EmptyString
  | [a] => a
  | a :: rest => a ++ sep ++ join_with sep rest
  end.

(** The sensor key that [_async_update_listener] reads off a unique
    id; [None] when the entity is skipped by [continue]. *)
Definition listener_sensor_key (unique_id : string) : option string :=
  if negb (str_in "_proxy_" unique_id) then None
  else
    match after_first "_proxy_" unique_id with
    | None => None
    | Some after_proxy =>
        let parts := split_on "_" after_proxy in
        if String.eqb (List.last parts "") "binary"
        then Some (join_with "_" (List.removelast (List.tl parts)))
        else Some (join_with "_" (List.tl parts))
    end.

Fixpoint has_char (sep : ascii) (s : string) : bool :=
  match s with
  | EmptyString => false
  | String c t => Ascii.eqb c sep || has_char sep t
  end.

(* ------------------------------------------------------------------ *)
(** ** __init__.py: the service handlers, once the proxy id is known *)

Module services.

(** What a handler raises: the HomeAssistantError it builds, or an
    exception that it lets through. *)
Inductive service_error : Type :=
| HomeAssistantError (msg : string)
| Raised (e : exn).

(** How a handler ends, and whether it has awaited
    [coordinator.async_request_refresh()]. *)
Record service_outcome : Type := {
  error : option service_error;
  refreshed : bool
}.

Definition handle_extend_proxy (api : ProxyCheapApi) (proxy_id months : Z)
  : log -> service_outcome * log :=
  fun l =>
    match extend_proxy api proxy_id months l with
    | (Ok _, l') => ({| error := None; refreshed := true |}, l')
    | (Err err, l') =>
        if is_ProxyCheapApiError err then
          ({| error := Some (HomeAssistantError
                               ("Failed to extend proxy: " ++ exn_str err));
              refreshed := false |},
           (l' ++ [(ERROR, ("Failed to extend proxy " ++ str_of_Z proxy_id
                            ++ ": " ++ exn_str err)%string)])%list)
        else ({| error := Some (Raised err); refreshed := false |}, l')
    end.

(** [ips] is the list computed from the call data: [parse_ips] of the
    text for a text input. *)
Definition handle_update_whitelist (api : ProxyCheapApi) (proxy_id : Z)
           (ips_input : string) : log -> service_outcome * log :=
  fun l =>
    let ips := parse_ips ips_input in
    match update_whitelist api proxy_id (Some ips) l with
    | (Ok _, l') => ({| error := None; refreshed := true |}, l')
    | (Err err, l') =>
        if is_ProxyCheapApiError err then
          ({| error := Some (HomeAssistantError
                               ("Failed to update whitelist: " ++ exn_str err));
              refreshed := false |},
           (l' ++ [(ERROR, ("Failed to update whitelist for proxy "
                            ++ str_of_Z proxy_id ++ ": " ++ exn_str err)%string)])%list)
        else ({| error := Some (Raised err); refreshed := false |}, l')
    end.

Definition handle_set_auto_extend (api : ProxyCheapApi) (proxy_id : Z)
           (enabled : bool) : log -> service_outcome * log :=
  fun l =>
    match set_auto_extend api proxy_id enabled l with
    | (Ok _, l') => ({| error := None; refreshed := true |}, l')
    | (Err err, l') =>
        if is_ProxyCheapApiError err then
          ({| error := Some (HomeAssistantError
                               ("Failed to set auto extend: " ++ exn_str err));
              refreshed := false |},
           (l' ++ [(ERROR, ("Failed to set auto extend for proxy "
                            ++ str_of_Z proxy_id ++ ": " ++ exn_str err)%string)])%list)
        else ({| error := Some (Raised err); refreshed := false |}, l')
    end.

End services.

(** The case analysis that the three write handlers share. *)
Ltac handler_spec c :=
  let v0 := fresh "v" in
  let e0 := fresh "e" in
  let l0 := fresh "l" in
  destruct c as [[v0|e0] l0];
  (split; [|split; [|split; [|split]]]);
  [ intros ? ? H; inversion H; subst; reflexivity
  | intros ? ? H ?; discriminate H
  | intros ? ? H ?; discriminate H
  | intros _; eauto
  | intros _; reflexivity
  | intros ? ? H; discriminate H
  | intros ? ? H He; inversion H; subst; rewrite He; reflexivity
  | intros ? ? H He; inversion H; subst; rewrite He; reflexivity
  | destruct (is_ProxyCheapApiError e0); simpl; intros H; discriminate H
  | intros (? & ? & H); discriminate H ].

(* ================================================================== *)
(** * Properties *)

(** ** Dictionaries and keys *)

Lemma keys_dict_set (d : dict) (k : string) (v : value) (k' : string) :
  In k' (keys (dict_set d k v)) -> k' = k \/ In k' (keys d).
Proof.
  induction d as [|[k0 v0] t IH]; simpl.
  - intros [H|[]]; auto.
  - destruct (String.eqb k0 k) eqn:E; simpl.
    + intros [H|H]; auto.
    + intros [H|H]; auto.
      destruct (IH H); auto.
Qed.

Lemma in_dict_set (d : dict) (k : string) (v : value) (k' : string) (v' : value) :
  In (k', v') (dict_set d k v) -> (k' = k /\ v' = v) \/ In (k', v') d.
Proof.
  induction d as [|[k0 v0] t IH]; simpl.
  - intros [H|[]]. inversion H; auto.
  - destruct (String.eqb k0 k) eqn:E; simpl.
    + apply String.eqb_eq in E. subst k0.
      intros [H|H]; [inversion H; auto | auto].
    + intros [H|H]; auto.
      destruct (IH H); auto.
Qed.

Lemma obj_get_inv (o : value) (k : string) (v : value) :
  obj_get o k = Ok v -> exists d, o = VDict d /\ v = dict_get d k.
Proof.
  destruct o; simpl; try discriminate.
  intros H. inversion H. eauto.
Qed.

(** ** The redaction filter *)

Lemma filter_nested_acc (d acc : dict) (k : string) :
  In k (keys (fold_left
    (fun acc kv => if not_sensitive (fst kv) then dict_set acc (fst kv) (snd kv) else acc)
    d acc)) ->
  In k (keys acc) \/ not_sensitive k = true.
Proof.
  revert acc. induction d as [|[k0 v0] t IH]; simpl; intros acc H; auto.
  apply IH in H. destruct H as [H|H]; auto.
  destruct (not_sensitive k0) eqn:E; auto.
  apply keys_dict_set in H. destruct H as [->|H]; auto.
Qed.

(** Inside a sub-object no sensitive key survives. *)
Lemma filter_nested_clean (d : dict) (k : string) :
  In k (keys (filter_nested d)) -> not_sensitive k = true.
Proof.
  intros H. apply filter_nested_acc in H. destruct H as [[]|H]; auto.
Qed.

Lemma filter_step_clean (acc : dict) (kv : string * value) :
  Forall clean_entry acc -> Forall clean_entry (filter_step acc kv).
Proof.
  intros Hacc. rewrite Forall_forall in *.
  intros [k v] Hin. destruct kv as [k0 v0]. unfold filter_step in Hin.
  assert (Hset : forall w, clean_entry (k0, w) ->
                 In (k, v) (dict_set acc k0 w) -> clean_entry (k, v)).
  { intros w Hw Hi. apply in_dict_set in Hi.
    destruct Hi as [[-> ->]|Hi]; auto. }
  destruct v0 as [ | b | z | f | s | l | d];
    try (destruct (not_sensitive k0) eqn:E;
         [eapply Hset; [|exact Hin]; exact E | auto]).
  apply (Hset (VDict (filter_nested d))); auto.
  unfold clean_entry; simpl. apply filter_nested_clean.
Qed.

(** What the filter does guarantee: a retained entry whose value is
    not a dict has a harmless key, and a retained dict has only
    harmless keys inside.  Nothing is said of the key that holds a
    dict. *)
Lemma filter_sensitive_data_clean (data : dict) :
  Forall clean_entry (_filter_sensitive_data data).
Proof.
  unfold _filter_sensitive_data.
  assert (G : forall acc, Forall clean_entry acc ->
                          Forall clean_entry (fold_left filter_step data acc)).
  { induction data as [|kv t IH]; simpl; intros acc H; auto.
    apply IH. now apply filter_step_clean. }
  apply G. constructor.
Qed.

(** ** The normaliser *)

(** How the fields of a returned record were computed. *)
Lemma normalize_fields (names : name_map) (proxy n : dict) :
  _normalize_proxy_data names proxy = Ok n ->
  keys n = normalized_keys /\
  (exists proxy_type,
      obj_upper (dict_get_or proxy "proxyType" (VStr "")) = Ok proxy_type /\
      select_port proxy_type (sub_object proxy "connection")
      = Ok (dict_get n "port")) /\
  obj_get (sub_object proxy "bandwidth") "total"
  = Ok (dict_get n "bandwidth_total") /\
  obj_get (sub_object proxy "bandwidth") "used"
  = Ok (dict_get n "bandwidth_used") /\
  remaining_bandwidth (dict_get n "bandwidth_total") (dict_get n "bandwidth_used")
  = Ok (dict_get n "bandwidth_remaining") /\
  dict_get n "bandwidth_unlimited"
  = VBool (is_none (dict_get n "bandwidth_total")) /\
  obj_get (sub_object proxy "authentication") "username"
  = Ok (dict_get n "username") /\
  (exists wl,
      obj_get (sub_object proxy "authentication") "whitelistedIps" = Ok wl /\
      dict_get n "authentication_type"
      = authentication_type_of wl (dict_get n "username")) /\
  dict_get n "_raw" = VDict (_filter_sensitive_data proxy).
Proof.
  intros H. cbv beta zeta delta [_normalize_proxy_data] in H.
  bind_inv H. injection H as <-.
  cbn. repeat split; eauto.
Qed.

Lemma lazy_or_ok (a b : result value) :
  (exists x, a = Ok x) -> (exists y, b = Ok y) -> exists v, lazy_or a b = Ok v.
Proof.
  intros [x ->] [y ->]. unfold lazy_or; simpl.
  destruct (truthy x); eauto.
Qed.

Lemma select_port_ok (proxy_type : string) (d : dict) :
  exists v, select_port proxy_type (VDict d) = Ok v.
Proof.
  unfold select_port.
  destruct (String.eqb proxy_type "HTTP"); [simpl; eauto|].
  destruct (String.eqb proxy_type "HTTPS"); [simpl; eauto|].
  destruct (String.eqb proxy_type "SOCKS5"); [simpl; eauto|].
  repeat apply lazy_or_ok; simpl; eauto.
Qed.

Lemma to_float_ok (x : number) : fits_float x -> exists f, to_float x = Ok f.
Proof.
  destruct x as [z|f]; simpl; eauto.
  destruct (float_of_Z z); [eauto | congruence].
Qed.

Lemma to_float_fits (x : number) (f : spec_float) : to_float x = Ok f -> fits_float x.
Proof.
  destruct x as [z|g]; simpl; auto.
  destruct (float_of_Z z); [discriminate | discriminate].
Qed.

(** What [a - b] returns: the exact difference of two ints, and the
    float difference when one operand is a float. *)
Lemma py_sub_inv (a b r : value) :
  py_sub a b = Ok r ->
  exists x y,
    as_number a = Some x /\ as_number b = Some y /\
    match x, y with
    | NInt t, NInt u => r = VInt (t - u)
    | _, _ =>
        exists fx fy,
          to_float x = Ok fx /\ to_float y = Ok fy /\ r = VFloat (float_sub fx fy)
    end.
Proof.
  unfold py_sub.
  destruct (as_number a) as [x|]; [|discriminate].
  destruct (as_number b) as [y|]; [|destruct x; discriminate].
  intros H. exists x, y. split; [reflexivity|]. split; [reflexivity|].
  destruct x as [t|fx], y as [u|fy]; simpl in H |- *;
    try (injection H as <-; reflexivity);
    repeat match type of H with
           | context [float_of_Z ?z] => destruct (float_of_Z z); simpl in H
           end;
    try discriminate H; injection H as <-; eauto.
Qed.

Lemma py_sub_ok (a b : value) :
  subtractable a b <-> exists r, py_sub a b = Ok r.
Proof.
  split.
  - intros (x & y & Ha & Hb & H). unfold py_sub. rewrite Ha, Hb.
    destruct x as [t|fx], y as [u|fy]; eauto;
      destruct H as [Hx Hy];
      destruct (to_float_ok _ Hx) as [f1 ->], (to_float_ok _ Hy) as [f2 ->];
      simpl; eauto.
  - intros [r H]. apply py_sub_inv in H.
    destruct H as (x & y & Ha & Hb & H). exists x, y.
    split; [exact Ha|]. split; [exact Hb|].
    destruct x as [t|fx], y as [u|fy]; auto;
      destruct H as (f1 & f2 & H1 & H2 & _);
      split; eapply to_float_fits; eassumption.
Qed.

(** The normaliser returns on every well-shaped record. *)
Lemma normalize_succeeds (names : name_map) (proxy : dict) :
  well_shaped proxy -> exists n, _normalize_proxy_data names proxy = Ok n.
Proof.
  intros (Hsub & [s Hs] & Hbw & Hid).
  destruct (Hsub "connection") as [c Hc]; [simpl; auto|].
  destruct (Hsub "authentication") as [a Ha]; [simpl; auto|].
  destruct (Hsub "bandwidth") as [b Hb]; [simpl; auto 6|].
  destruct (Hsub "metadata") as [m Hm]; [simpl; auto 6|].
  specialize (Hbw b Hb).
  cbv beta zeta delta [_normalize_proxy_data].
  rewrite Hs, Hc, Ha, Hb, Hm. cbn [obj_upper bind obj_get obj_get_or].
  destruct (select_port_ok (upper s) c) as [port ->]. cbn [bind].
  assert (Hrem : exists r, remaining_bandwidth (dict_get b "total")
                                               (dict_get b "used") = Ok r).
  { unfold remaining_bandwidth.
    destruct (dict_get b "total") as [ | tb | tz | tf | ts | tl | td] eqn:T;
      [eauto | ..];
      apply py_sub_ok, Hbw; discriminate. }
  destruct Hrem as [r ->]. cbn [bind].
  assert (Hname : exists v, resolve_name names proxy (VDict m) = Ok v).
  { unfold resolve_name, names_get. rewrite Hid.
    repeat apply lazy_or_ok; simpl; eauto. }
  destruct Hname as [v ->]. cbn [bind].
  destruct (lazy_or_ok (Ok (dict_get c "publicIp")) (Ok (dict_get c "connectIp")))
    as [ip ->]; eauto.
  cbn [bind]. eauto.
Qed.

(** C1 (evaluation of the code where it departs from the claim).
    The claim: the retained raw copy holds no key containing
    "password" or "secret" at depth <= 1, whatever the type of the
    value.  On a record whose top-level key "secretToken" holds an
    object, the normaliser returns and the raw copy it retains still
    has the key "secretToken", although that key is a sensitive one
    for the filter's own test: the branch for dict values never tests
    the key. *)
Theorem raw_copy_keeps_sensitive_key_of_object :
  not_sensitive "secretToken" = false /\
  exists n raw,
    _normalize_proxy_data [] leaky_record = Ok n /\
    dict_get n "_raw" = VDict raw /\
    In "secretToken" (keys raw) /\
    lookup raw "secretToken" = Some (VDict [("value", VStr "s3cr3t")]).
Proof.
  split; [reflexivity|].
  eexists. eexists.
  split; [vm_compute; reflexivity|].
  split; [vm_compute; reflexivity|].
  split; [simpl; auto | reflexivity].
Qed.

Lemma float_sub_zero (f : spec_float) : float_sub f (S754_zero false) = f.
Proof. destruct f as [[]|[]| |s m e]; reflexivity. Qed.

Lemma remaining_bandwidth_inv (total used r : value) :
  remaining_bandwidth total used = Ok r ->
  (total = VNone /\ r = VNone) \/
  (total <> VNone /\
   py_sub total (match used with VNone => VInt 0 | _ => used end) = Ok r).
Proof.
  unfold remaining_bandwidth.
  destruct total; intros H;
    [left; split; congruence | right; split; [discriminate | exact H] ..].
Qed.

Lemma py_sub_not_none (a b : value) : py_sub a b <> Ok VNone.
Proof.
  intros H. apply py_sub_inv in H. destruct H as (x & y & _ & _ & H).
  destruct x, y; try discriminate H;
    destruct H as (fx & fy & _ & _ & H); discriminate H.
Qed.

(** C2.  Whenever the normaliser returns a record: its
    bandwidth_total and bandwidth_used are the raw ones;
    bandwidth_remaining is null exactly when bandwidth_total is null;
    bandwidth_unlimited is true exactly when bandwidth_total is null;
    for a non-null total T the remaining value is T - used, where a
    null used counts as 0: the exact difference of two ints, the float
    difference as soon as one figure is a float; hence T itself when
    used is null (the int 1 or 0 for a total of true or false). *)
Theorem bandwidth_remaining_spec (names : name_map) (proxy n : dict) :
  _normalize_proxy_data names proxy = Ok n ->
  let total := dict_get n "bandwidth_total" in
  let used := dict_get n "bandwidth_used" in
  let remaining := dict_get n "bandwidth_remaining" in
  let subtrahend := match used with VNone => VInt 0 | _ => used end in
  (exists bw, sub_object proxy "bandwidth" = VDict bw /\
              total = dict_get bw "total" /\ used = dict_get bw "used") /\
  (remaining = VNone <-> total = VNone) /\
  (dict_get n "bandwidth_unlimited" = VBool true <-> total = VNone) /\
  (dict_get n "bandwidth_unlimited" = VBool false <-> total <> VNone) /\
  (total <> VNone ->
   py_sub total subtrahend = Ok remaining /\
   exists x y,
     as_number total = Some x /\ as_number subtrahend = Some y /\
     match x, y with
     | NInt t, NInt u => remaining = VInt (t - u)
     | _, _ =>
         exists fx fy,
           to_float x = Ok fx /\ to_float y = Ok fy /\
           remaining = VFloat (float_sub fx fy)
     end) /\
  (total <> VNone -> used = VNone ->
   match total with
   | VBool b => remaining = VInt (if b then 1 else 0)
   | _ => remaining = total
   end).
Proof.
  intros H. apply normalize_fields in H.
  destruct H as (_ & _ & Ht & Hu & Hr & Hunl & _).
  cbv zeta.
  destruct (obj_get_inv _ _ _ Ht) as (bw & Hbw & Etot).
  destruct (obj_get_inv _ _ _ Hu) as (bw' & Hbw' & Eused).
  rewrite Hbw in Hbw'. injection Hbw' as <-.
  rewrite Hunl.
  set (total := dict_get n "bandwidth_total") in *.
  set (used := dict_get n "bandwidth_used") in *.
  set (remaining := dict_get n "bandwidth_remaining") in *.
  apply remaining_bandwidth_inv in Hr.
  split; [eauto|].
  split.
  { split.
    - intros Hrem. destruct Hr as [[E _]|[_ Hs]]; [exact E|].
      rewrite Hrem in Hs. now apply py_sub_not_none in Hs.
    - intros E. destruct Hr as [[_ Er]|[Hnz _]]; [exact Er | contradiction]. }
  split; [destruct total; simpl; split; congruence|].
  split; [destruct total; simpl; split; congruence|].
  split.
  { intros Hnz. destruct Hr as [[E _]|[_ Hs]]; [contradiction|].
    split; [exact Hs | now apply py_sub_inv]. }
  intros Hnz Hnone. destruct Hr as [[E _]|[_ Hs]]; [contradiction|].
  rewrite Hnone in Hs. unfold py_sub in Hs.
  destruct total as [ | b | z | f | s | l | d]; simpl in Hs;
    try discriminate Hs; try contradiction.
  - injection Hs as <-. f_equal. destruct b; reflexivity.
  - injection Hs as <-. f_equal. lia.
  - injection Hs as <-. f_equal. apply float_sub_zero.
Qed.

Lemma bandwidth_remaining_spec_witness :
  _normalize_proxy_data [] fractional_record = Ok fractional_normalized /\
  dict_get fractional_normalized "bandwidth_total" = VFloat (dyadic 201 (-1)) /\
  dict_get fractional_normalized "bandwidth_used" = VFloat (dyadic 121 (-2)) /\
  dict_get fractional_normalized "bandwidth_remaining" = VFloat (dyadic 281 (-2)) /\
  (dict_get fractional_normalized "bandwidth_remaining" = VNone <->
   dict_get fractional_normalized "bandwidth_total" = VNone) /\
  py_str (dict_get fractional_normalized "bandwidth_remaining") = "70.25" /\
  _normalize_proxy_data [] scenario_record = Ok scenario_normalized /\
  dict_get scenario_normalized "bandwidth_remaining" = VInt 70.
Proof.
  split; [reflexivity|].
  pose proof (bandwidth_remaining_spec [] fractional_record fractional_normalized
                eq_refl) as (_ & Hnull & _ & _ & Hsub & _).
  split; [reflexivity|]. split; [reflexivity|].
  split.
  { destruct Hsub as [Hs _]; [discriminate|].
    exact (f_equal (fun r => match r with Ok v => v | Err _ => VNone end)
                   (eq_sym Hs)). }
  split; [exact Hnull|]. split; [reflexivity|]. split; [reflexivity|].
  pose proof (bandwidth_remaining_spec [] scenario_record scenario_normalized
                eq_refl) as (_ & _ & _ & _ & Hint & _).
  destruct Hint as [Hs _]; [discriminate|].
  exact (f_equal (fun r => match r with Ok v => v | Err _ => VNone end)
                 (eq_sym Hs)).
Defined.

(** C5.  Whenever the normaliser returns a record, its
    authentication_type is "IP_WHITELIST" when the whitelistedIps of
    the authentication sub-object is truthy (a non-empty list of
    addresses), else "USERNAME_PASSWORD" when its username is truthy,
    else null.  It is therefore one of these three values and a
    function of the two tests alone. *)
Theorem authentication_type_derived (names : name_map) (proxy n : dict) :
  _normalize_proxy_data names proxy = Ok n ->
  exists auth,
    sub_object proxy "authentication" = VDict auth /\
    let wl := truthy (dict_get auth "whitelistedIps") in
    let un := truthy (dict_get auth "username") in
    let a := dict_get n "authentication_type" in
    (wl = true -> a = VStr "IP_WHITELIST") /\
    (wl = false -> un = true -> a = VStr "USERNAME_PASSWORD") /\
    (wl = false -> un = false -> a = VNone) /\
    (a = VStr "IP_WHITELIST" \/ a = VStr "USERNAME_PASSWORD" \/ a = VNone).
Proof.
  intros H. apply normalize_fields in H.
  destruct H as (_ & _ & _ & _ & _ & _ & Hun & (wl & Hwl & Ha) & _).
  destruct (obj_get_inv _ _ _ Hun) as (auth & Hauth & Eun).
  destruct (obj_get_inv _ _ _ Hwl) as (auth' & Hauth' & Ewl).
  rewrite Hauth in Hauth'. injection Hauth' as <-.
  exists auth. split; [exact Hauth|].
  cbv zeta. rewrite Ha, Eun, Ewl. unfold authentication_type_of.
  destruct (truthy (dict_get auth "whitelistedIps")),
           (truthy (dict_get auth "username"));
    repeat split; intros; auto; discriminate.
Qed.

Lemma authentication_type_derived_witness :
  _normalize_proxy_data [] whitelisted_record = Ok whitelisted_normalized /\
  dict_get whitelisted_normalized "authentication_type" = VStr "IP_WHITELIST".
Proof.
  split; [reflexivity|].
  destruct (authentication_type_derived [] whitelisted_record
              whitelisted_normalized eq_refl) as (auth & Hauth & Hwl & _).
  injection Hauth as <-. apply Hwl. reflexivity.
Defined.

Lemma obj_upper_inv (v : value) (s : string) :
  obj_upper v = Ok s -> exists t, v = VStr t /\ s = upper t.
Proof.
  destruct v; simpl; try discriminate.
  intros H. inversion H. eauto.
Qed.



(** ** The API client *)

Lemma request_unfold (self : ProxyCheapApi) (method endpoint : string)
      (data : option dict) (l : log) :
  _request self method endpoint data l =
  match round_trip self method endpoint data with
  | Fails e =>
      match e with
      | CancelledError =>
          (Err (ProxyCheapApiError "Timeout connecting to API: "), l)
      | TimeoutError m =>
          (Err (ProxyCheapApiError ("Timeout connecting to API: " ++ m)), l)
      | ClientError m =>
          (Err (ProxyCheapApiError ("Error connecting to API: " ++ m)), l)
      | _ => (Err e, l)
      end
  | Responds response =>
      match _handle_response response l with
      | (Ok v, l') => (Ok v, l')
      | (Err e, l') =>
          match e with
          | CancelledError =>
              (Err (ProxyCheapApiError "Timeout connecting to API: "), l')
          | TimeoutError m =>
              (Err (ProxyCheapApiError ("Timeout connecting to API: " ++ m)), l')
          | ClientError m =>
              (Err (ProxyCheapApiError ("Error connecting to API: " ++ m)), l')
          | _ => (Err e, l')
          end
      end
  end.
Proof.
  unfold _request, try_except, asyncio_timeout, try_except, raise.
  destruct (round_trip self method endpoint data) as [e|response].
  - destruct e; reflexivity.
  - destruct (_handle_response response l) as [[v|e] l']; [reflexivity|].
    destruct e; reflexivity.
Qed.

(** C4 (as amended).  For every operation, which is a call of
    [_request]: a timeout, before or while the response is read,
    fails with the generic ProxyCheapApiError ("Timeout connecting to
    API"); status 401 or 403 fails with ProxyCheapAuthError, a
    subclass of ProxyCheapApiError that [isinstance] tells apart; any
    other status >= 400 whose body can be read fails with
    ProxyCheapApiError whose message holds the status code and the
    body; a status below 400 whose body does not parse fails with
    ProxyCheapApiError, after an ERROR record; and an aiohttp client
    error on connecting fails with the generic ProxyCheapApiError
    ("Error connecting to API"). *)
Theorem request_error_mapping (self : ProxyCheapApi) (method endpoint : string)
        (data : option dict) (l : log) :
  let ex := round_trip self method endpoint data in
  let outcome := _request self method endpoint data l in
  (ex = Fails CancelledError ->
   outcome = (Err (ProxyCheapApiError "Timeout connecting to API: "), l)) /\
  (forall m, ex = Fails (TimeoutError m) ->
   outcome = (Err (ProxyCheapApiError ("Timeout connecting to API: " ++ m)), l)) /\
  (forall r, ex = Responds r -> status r < 400 -> json r = Err CancelledError ->
   outcome = (Err (ProxyCheapApiError "Timeout connecting to API: "), l)) /\
  (forall r, ex = Responds r -> status r = 401 \/ status r = 403 ->
   exists m, outcome = (Err (ProxyCheapAuthError m), l) /\
             is_ProxyCheapAuthError (ProxyCheapAuthError m) = true /\
             is_ProxyCheapApiError (ProxyCheapAuthError m) = true) /\
  (forall r t, ex = Responds r ->
   status r >= 400 -> status r <> 401 -> status r <> 403 -> text r = Ok t ->
   outcome = (Err (ProxyCheapApiError
                     ("API error " ++ str_of_Z (status r) ++ ": " ++ t)), l)) /\
  (forall r e t, ex = Responds r ->
   status r < 400 -> json r = Err e -> is_Exception e = true -> text r = Ok t ->
   outcome = (Err (ProxyCheapApiError
                     ("Failed to parse response: " ++ exn_str e)),
              (l ++ [(ERROR, ("Failed to parse response: " ++ t)%string)])%list)) /\
  (forall m, ex = Fails (ClientError m) ->
   outcome = (Err (ProxyCheapApiError ("Error connecting to API: " ++ m)), l)).
Proof.
  cbv zeta. rewrite request_unfold.
  repeat split; [ | | | | | | intros m ->; reflexivity ].
  - intros ->. reflexivity.
  - intros m ->. reflexivity.
  - intros r -> Hlt Hj. unfold _handle_response.
    assert (E1 : (status r =? 401) = false) by (apply Z.eqb_neq; lia).
    assert (E2 : (status r =? 403) = false) by (apply Z.eqb_neq; lia).
    assert (E3 : (status r >=? 400) = false) by (rewrite Z.geb_leb; apply Z.leb_gt; lia).
    rewrite E1, E2, E3. unfold try_except, lift. rewrite Hj. reflexivity.
  - intros r -> [H|H]; unfold _handle_response; rewrite H; simpl;
      eexists; repeat split.
  - intros r t -> Hge H1 H3 Ht. unfold _handle_response.
    assert (E1 : (status r =? 401) = false) by (apply Z.eqb_neq; lia).
    assert (E2 : (status r =? 403) = false) by (apply Z.eqb_neq; lia).
    assert (E3 : (status r >=? 400) = true) by (rewrite Z.geb_leb; apply Z.leb_le; lia).
    rewrite E1, E2, E3. unfold io_bind, lift, raise. rewrite Ht. reflexivity.
  - intros r e t -> Hlt Hj He Ht. unfold _handle_response.
    assert (E1 : (status r =? 401) = false) by (apply Z.eqb_neq; lia).
    assert (E2 : (status r =? 403) = false) by (apply Z.eqb_neq; lia).
    assert (E3 : (status r >=? 400) = false) by (rewrite Z.geb_leb; apply Z.leb_gt; lia).
    rewrite E1, E2, E3. unfold try_except, io_bind, lift, raise, emit.
    rewrite Hj, He, Ht. reflexivity.
Qed.

Lemma request_error_mapping_witness :
  round_trip (api_of timing_out) "GET" ENDPOINT_BALANCE None = Fails CancelledError /\
  get_balance (api_of timing_out) []
  = (Err (ProxyCheapApiError "Timeout connecting to API: "), []).
Proof.
  split; [reflexivity|].
  apply (proj1 (request_error_mapping (api_of timing_out) "GET"
                  ENDPOINT_BALANCE None [])).
  reflexivity.
Defined.

(** C4 (the claim as stated fails).  No assignment of the three kinds
    to exception classes gives the failure of a timed-out request the
    kind ConnectionError and the failure of an HTTP 500 answer the
    kind ApiError: both raise the same class, ProxyCheapApiError. *)
Lemma timeout_is_not_a_kind_of_its_own :
  ~ exists kind_of : exn -> error_kind,
      (forall e1 e2, class_name e1 = class_name e2 -> kind_of e1 = kind_of e2) /\
      (forall e l, get_balance (api_of timing_out) [] = (Err e, l) ->
                   kind_of e = ConnectionError) /\
      (forall e l, get_balance (api_of server_error) [] = (Err e, l) ->
                   kind_of e = ApiError).
Proof.
  intros (kind_of & Hclass & Htime & Hserver).
  pose proof (Htime (ProxyCheapApiError "Timeout connecting to API: ") []
                    eq_refl) as Ht.
  pose proof (Hserver (ProxyCheapApiError "API error 500: Internal Server Error") []
                      eq_refl) as Hs.
  pose proof (Hclass (ProxyCheapApiError "Timeout connecting to API: ")
                     (ProxyCheapApiError "API error 500: Internal Server Error")
                     eq_refl) as Hc.
  congruence.
Qed.

(** C7.  [validate_credentials] runs get-balance once: when that call
    returns, the answer is true; when it raises ProxyCheapAuthError,
    the answer is false and nothing is logged; when it raises any
    other ProxyCheapApiError, the answer is false after one WARNING
    record; and whatever [validate_credentials] may raise is not a
    ProxyCheapApiError (nor, hence, a ProxyCheapAuthError). *)
Theorem validate_credentials_spec (self : ProxyCheapApi) (l : log) :
  (forall v l1, get_balance self l = (Ok v, l1) ->
                validate_credentials self l = (Ok true, l1)) /\
  (forall m l1, get_balance self l = (Err (ProxyCheapAuthError m), l1) ->
                validate_credentials self l = (Ok false, l1)) /\
  (forall m l1, get_balance self l = (Err (ProxyCheapApiError m), l1) ->
                validate_credentials self l
                = (Ok false,
                   (l1 ++ [(WARNING,
                            ("API error during validation: " ++ m)%string)])%list)) /\
  (forall e l1, validate_credentials self l = (Err e, l1) ->
                is_ProxyCheapApiError e = false /\
                get_balance self l = (Err e, l1)).
Proof.
  unfold validate_credentials, try_except, io_bind, ret, raise, emit.
  split; [intros v l1 ->; reflexivity|].
  split; [intros m l1 ->; reflexivity|].
  split; [intros m l1 ->; reflexivity|].
  intros e l1 H.
  destruct (get_balance self l) as [[v|e0] l0]; [discriminate|].
  destruct e0; simpl in H; inversion H; split; reflexivity.
Qed.

Lemma validate_credentials_spec_witness :
  get_balance (api_of unauthorized) []
  = (Err (ProxyCheapAuthError "Invalid API credentials"), []) /\
  validate_credentials (api_of unauthorized) [] = (Ok false, []).
Proof.
  split; [reflexivity|].
  apply (proj1 (proj2 (validate_credentials_spec (api_of unauthorized) []))
           "Invalid API credentials" []).
  reflexivity.
Defined.

(** ** The shapes of the list-proxies response *)

Lemma get_proxies_unfold (self : ProxyCheapApi) (l l1 : log) (res : value) :
  _request self "GET" ENDPOINT_PROXIES None l = (Ok res, l1) ->
  get_proxies self l = (proxies_of_result res, l1).
Proof.
  intros H. unfold get_proxies, io_bind, lift. rewrite H. reflexivity.
Qed.

(** C8 (as amended).  When the request returns: a bare list is
    returned as it is; an object with a `proxies` key yields the value
    under `proxies`; an object with a `data` key and no `proxies` key
    yields the value under `data`.  The result is the inner value, not
    the wrapper, and is a list whenever the vendor put a list there. *)
Theorem get_proxies_shapes (self : ProxyCheapApi) (l l1 : log) (res : value) :
  _request self "GET" ENDPOINT_PROXIES None l = (Ok res, l1) ->
  (forall items, res = VList items ->
                 get_proxies self l = (Ok (VList items), l1)) /\
  (forall d v, res = VDict d -> lookup d "proxies" = Some v ->
               get_proxies self l = (Ok v, l1)) /\
  (forall d v, res = VDict d -> lookup d "proxies" = None ->
               lookup d "data" = Some v ->
               get_proxies self l = (Ok v, l1)).
Proof.
  intros H. rewrite (get_proxies_unfold _ _ _ _ H).
  repeat split.
  - intros items ->. reflexivity.
  - intros d v -> Hp. unfold proxies_of_result, dict_mem, subscript.
    rewrite Hp. reflexivity.
  - intros d v -> Hp Hd. unfold proxies_of_result, dict_mem, subscript.
    rewrite Hp, Hd. reflexivity.
Qed.

Lemma get_proxies_shapes_witness :
  _request (api_of (answering 200 "" (Ok data_wrapper))) "GET" ENDPOINT_PROXIES None []
  = (Ok data_wrapper, []) /\
  get_proxies (api_of (answering 200 "" (Ok data_wrapper))) []
  = (Ok (VList [VDict [("id", VInt 1)]; VDict [("id", VInt 2)]]), []).
Proof.
  split; [reflexivity|].
  eapply (proj2 (proj2 (get_proxies_shapes
                          (api_of (answering 200 "" (Ok data_wrapper)))
                          [] [] data_wrapper eq_refl))); reflexivity.
Defined.

(** C8 (the claim as stated fails).  It is not so that every object
    with a `data` key yields the value under `data`, nor that the
    result is always a list: for an object that also has a `proxies`
    key, here holding null, the operation returns that null. *)
Lemma data_key_is_not_always_served :
  ~ (forall (self : ProxyCheapApi) (l l1 : log) (d : dict) (v : value),
        _request self "GET" ENDPOINT_PROXIES None l = (Ok (VDict d), l1) ->
        lookup d "data" = Some v ->
        exists items, v = VList items /\
                      get_proxies self l = (Ok (VList items), l1)).
Proof.
  intros H.
  destruct (H (api_of (answering 200 "" (Ok both_keys))) [] []
              [("proxies", VNone); ("data", VList [VDict [("id", VInt 1)]])]
              (VList [VDict [("id", VInt 1)]]) eq_refl eq_refl)
    as (items & _ & Hget).
  discriminate Hget.
Qed.

(** C10.  When the request returns something that is neither a list
    nor an object with a `proxies` or a `data` key, the operation
    returns a list all the same: the one-element list holding the
    result when the result is truthy, the empty list when it is falsy
    (null, an empty object, 0, the empty text, false). *)
Theorem get_proxies_fallback (self : ProxyCheapApi) (l l1 : log) (res : value) :
  _request self "GET" ENDPOINT_PROXIES None l = (Ok res, l1) ->
  (forall items, res <> VList items) ->
  (forall d, res = VDict d ->
             lookup d "proxies" = None /\ lookup d "data" = None) ->
  (truthy res = true -> get_proxies self l = (Ok (VList [res]), l1)) /\
  (truthy res = false -> get_proxies self l = (Ok (VList []), l1)).
Proof.
  intros H Hlist Hdict. rewrite (get_proxies_unfold _ _ _ _ H).
  assert (E : proxies_of_result res
              = Ok (if truthy res then VList [res] else VList [])).
  { destruct res as [ | b | z | f | s | items | d]; try reflexivity.
    - now elim (Hlist items).
    - destruct (Hdict d eq_refl) as [Hp Hd].
      unfold proxies_of_result, dict_mem. rewrite Hp, Hd. reflexivity. }
  rewrite E. split; intros ->; reflexivity.
Qed.

Lemma get_proxies_fallback_witness :
  get_proxies (api_of (answering 200 "" (Ok single_object))) []
  = (Ok (VList [single_object]), []) /\
  get_proxies (api_of (answering 200 "" (Ok VNone))) [] = (Ok (VList []), []).
Proof.
  split.
  - apply (get_proxies_fallback (api_of (answering 200 "" (Ok single_object)))
             [] [] single_object eq_refl).
    + intros items; discriminate.
    + intros d Hd. injection Hd as <-. split; reflexivity.
    + reflexivity.
  - apply (get_proxies_fallback (api_of (answering 200 "" (Ok VNone)))
             [] [] VNone eq_refl).
    + intros items; discriminate.
    + intros d; discriminate.
    + reflexivity.
Defined.

(** ** The coordinator *)

Lemma magnitude_eqb_eq (a b : magnitude) : magnitude_eqb a b = true <-> a = b.
Proof.
  destruct a as [|s m e|s|], b as [|s' m' e'|s'|]; simpl;
    try (split; [discriminate | discriminate]); try tauto.
  - rewrite !andb_true_iff, Bool.eqb_true_iff, Pos.eqb_eq, Z.eqb_eq.
    split; [intros [[-> ->] ->]; reflexivity | intros H; inversion H; auto].
  - rewrite Bool.eqb_true_iff. split; [intros ->; reflexivity | congruence].
Qed.

Lemma magnitude_eqb_refl (a : magnitude) : magnitude_eqb a a = true.
Proof. now apply magnitude_eqb_eq. Qed.

Lemma magnitude_eqb_sym (a b : magnitude) : magnitude_eqb a b = magnitude_eqb b a.
Proof.
  destruct (magnitude_eqb a b) eqn:E, (magnitude_eqb b a) eqn:E'; auto.
  - apply magnitude_eqb_eq in E. subst. now rewrite magnitude_eqb_refl in E'.
  - apply magnitude_eqb_eq in E'. subst. now rewrite magnitude_eqb_refl in E.
Qed.

Lemma magnitude_eqb_trans (a b c : magnitude) :
  magnitude_eqb a b = true -> magnitude_eqb b c = true -> magnitude_eqb a c = true.
Proof. rewrite !magnitude_eqb_eq. congruence. Qed.

Lemma key_eqb_sym (a b : value) : key_eqb a b = key_eqb b a.
Proof.
  destruct a, b; simpl; auto using String.eqb_sym, magnitude_eqb_sym.
Qed.

Lemma key_eqb_trans (a b c : value) :
  key_eqb a b = true -> key_eqb b c = true -> key_eqb a c = true.
Proof.
  destruct a, b, c; simpl; try discriminate; auto;
    try apply magnitude_eqb_trans;
    rewrite ?String.eqb_eq; congruence.
Qed.

Lemma key_eqb_refl (k : value) : hashable k = true -> key_eqb k k = true.
Proof.
  destruct k; simpl; try discriminate;
    auto using magnitude_eqb_refl, String.eqb_refl.
Qed.

Lemma key_eqb_congr (a b c : value) :
  key_eqb a b = true -> key_eqb a c = key_eqb b c.
Proof.
  intros H. destruct (key_eqb b c) eqn:E.
  - eapply key_eqb_trans; eauto.
  - destruct (key_eqb a c) eqn:E'; auto.
    rewrite key_eqb_sym in H.
    rewrite (key_eqb_trans _ _ _ H E') in E. discriminate.
Qed.

Lemma proxies_lookup_put (m : proxy_map) (k : value) (v : dict) (k' : value) :
  proxies_lookup (proxies_put m k v) k'
  = if key_eqb k k' then Some v else proxies_lookup m k'.
Proof.
  induction m as [|[k0 v0] t IH]; simpl; auto.
  destruct (key_eqb k0 k) eqn:E; simpl.
  - rewrite (key_eqb_congr _ _ k' E). destruct (key_eqb k k'); auto.
  - rewrite IH. destruct (key_eqb k0 k') eqn:E0; auto.
    destruct (key_eqb k k') eqn:E1; auto.
    rewrite key_eqb_sym in E1.
    rewrite (key_eqb_trans _ _ _ E0 E1) in E. discriminate.
Qed.

Lemma proxies_put_distinct (m : proxy_map) (k : value) (v : dict) :
  distinct_keys m -> distinct_keys (proxies_put m k v).
Proof.
  induction m as [|[k0 v0] t IH]; simpl; auto.
  intros [H0 Ht]. destruct (key_eqb k0 k) eqn:E; simpl; auto.
  split; auto. rewrite proxies_lookup_put, key_eqb_sym, E. exact H0.
Qed.

Lemma last_with_id_in (items : list value) (k : value) (p : dict) :
  last_with_id items k = Some p ->
  In (VDict p) items /\ truthy (identifier p) = true /\
  key_eqb (identifier p) k = true.
Proof.
  induction items as [|item rest IH]; simpl; [discriminate|].
  destruct (last_with_id rest k) as [q|].
  - intros H. injection H as ->. destruct (IH eq_refl) as (? & ? & ?). auto.
  - destruct item as [ | | | | | | d]; try discriminate.
    destruct (truthy (identifier d) && key_eqb (identifier d) k) eqn:E;
      [|discriminate].
    intros H. injection H as <-. apply andb_true_iff in E. tauto.
Qed.

Lemma last_with_id_some (items : list value) (k : value) (p : dict) :
  In (VDict p) items -> truthy (identifier p) = true ->
  key_eqb (identifier p) k = true ->
  exists q, last_with_id items k = Some q.
Proof.
  induction items as [|item rest IH]; simpl; [tauto|].
  intros [->|Hin] Ht Hk.
  - destruct (last_with_id rest k); eauto. rewrite Ht, Hk. simpl. eauto.
  - destruct (IH Hin Ht Hk) as [q ->]. eauto.
Qed.

Lemma collect_step_inv (names : name_map) (acc acc' : proxy_map) (item : value) :
  collect_step names acc item = Ok acc' ->
  exists p, item = VDict p /\
    ((truthy (identifier p) = false /\ acc' = acc) \/
     (truthy (identifier p) = true /\ hashable (identifier p) = true /\
      exists n, _normalize_proxy_data names p = Ok n /\
                acc' = proxies_put acc (identifier p) n)).
Proof.
  destruct item as [ | | | | | | p]; simpl; try discriminate.
  intros H. exists p. split; auto.
  destruct (truthy (identifier p)) eqn:T.
  - right. destruct (_normalize_proxy_data names p) as [n|] eqn:N;
      simpl in H; [|discriminate].
    unfold proxies_setitem in H.
    destruct (hashable (identifier p)) eqn:Hh; [|discriminate].
    injection H as <-. eauto 6.
  - left. injection H as <-. auto.
Qed.

Lemma collect_loop_lookup (names : name_map) (items : list value)
      (acc m : proxy_map) :
  collect_loop names acc items = Ok m ->
  forall k,
    match last_with_id items k with
    | Some p => exists n, _normalize_proxy_data names p = Ok n /\
                          proxies_lookup m k = Some n
    | None => proxies_lookup m k = proxies_lookup acc k
    end.
Proof.
  revert acc. induction items as [|item rest IH]; simpl; intros acc H k.
  - injection H as <-. reflexivity.
  - destruct (collect_step names acc item) as [acc'|] eqn:S;
      simpl in H; [|discriminate].
    specialize (IH acc' H k).
    destruct (last_with_id rest k) as [q|]; [exact IH|].
    apply collect_step_inv in S.
    destruct S as (p & -> & [[T ->]|(T & Hh & n & N & ->)]).
    + rewrite T. simpl. exact IH.
    + rewrite T. simpl. rewrite proxies_lookup_put in IH.
      destruct (key_eqb (identifier p) k); eauto.
Qed.

Lemma collect_loop_hashable (names : name_map) (items : list value)
      (acc m : proxy_map) (p : dict) :
  collect_loop names acc items = Ok m ->
  In (VDict p) items -> truthy (identifier p) = true ->
  hashable (identifier p) = true.
Proof.
  revert acc. induction items as [|item rest IH]; simpl; intros acc H Hin T.
  - tauto.
  - destruct (collect_step names acc item) as [acc'|] eqn:S;
      simpl in H; [|discriminate].
    destruct Hin as [->|Hin]; [|eauto].
    apply collect_step_inv in S.
    destruct S as (q & Eq & [[T' _]|(_ & Hh & _)]); injection Eq as <-;
      congruence.
Qed.

Lemma collect_loop_distinct (names : name_map) (items : list value)
      (acc m : proxy_map) :
  collect_loop names acc items = Ok m -> distinct_keys acc -> distinct_keys m.
Proof.
  revert acc. induction items as [|item rest IH]; simpl; intros acc H D.
  - injection H as <-. exact D.
  - destruct (collect_step names acc item) as [acc'|] eqn:S;
      simpl in H; [|discriminate].
    apply (IH acc' H).
    apply collect_step_inv in S.
    destruct S as (p & _ & [[_ ->]|(_ & _ & n & _ & ->)]); auto.
    now apply proxies_put_distinct.
Qed.

Lemma build_snapshot_inv (names : name_map) (balance_data proxies_data : value)
      (s : snapshot) :
  build_snapshot names balance_data proxies_data = Ok s ->
  exists m bd,
    collect_proxies names proxies_data = Ok m /\
    balance_data = VDict bd /\
    s = [ ("balance", FValue (dict_get_or bd "balance" (VInt 0)));
          ("currency", FValue (dict_get_or bd "currency" (VStr "USD")));
          ("proxies", FProxies m);
          ("proxy_count", FValue (VInt (Z.of_nat (List.length m)))) ].
Proof.
  unfold build_snapshot. intros H.
  destruct (collect_proxies names proxies_data) as [m|]; simpl in H;
    [|discriminate].
  destruct balance_data as [ | | | | | | bd]; try discriminate.
  simpl in H. injection H as <-. eauto.
Qed.

Lemma identifier_falsy (p : dict) :
  truthy (identifier p) = false <->
  truthy (dict_get p "id") = false /\ truthy (dict_get p "proxy_id") = false.
Proof.
  unfold identifier, py_or.
  destruct (truthy (dict_get p "id")) eqn:E; split.
  - congruence.
  - intros [? _]; discriminate.
  - auto.
  - tauto.
Qed.

(** C3 (as amended).  In a poll whose list-proxies result is a list,
    the identifier of a record is its `id` when that is truthy and its
    `proxy_id` otherwise.  A record is left out exactly when this
    identifier is falsy (both fields absent, null, 0, empty): every
    key of the published proxies mapping is the truthy identifier of
    some record, and every record with a truthy identifier has an
    entry under it.  The entry under a key is the normalisation of the
    last record of the list whose identifier equals the key. *)
Theorem snapshot_proxies_spec (names : name_map) (balance_data : value)
        (items : list value) (s : snapshot) :
  build_snapshot names balance_data (VList items) = Ok s ->
  exists m,
    field_lookup s "proxies" = Some (FProxies m) /\
    distinct_keys m /\
    (forall p, identifier p
               = if truthy (dict_get p "id") then dict_get p "id"
                 else dict_get p "proxy_id") /\
    (forall p, In (VDict p) items -> truthy (identifier p) = true ->
               exists q n,
                 last_with_id items (identifier p) = Some q /\
                 _normalize_proxy_data names q = Ok n /\
                 proxies_lookup m (identifier p) = Some n) /\
    (forall k n, proxies_lookup m k = Some n ->
                 exists p,
                   last_with_id items k = Some p /\
                   In (VDict p) items /\
                   truthy (identifier p) = true /\
                   key_eqb (identifier p) k = true /\
                   _normalize_proxy_data names p = Ok n).
Proof.
  intros H. apply build_snapshot_inv in H.
  destruct H as (m & bd & Hc & _ & ->).
  unfold collect_proxies in Hc. simpl in Hc.
  exists m. split; [reflexivity|].
  split; [apply (collect_loop_distinct _ _ _ _ Hc); exact I|].
  split; [reflexivity|].
  split.
  - intros p Hin T.
    pose proof (collect_loop_hashable _ _ _ _ p Hc Hin T) as Hh.
    destruct (last_with_id_some items (identifier p) p Hin T
                                (key_eqb_refl _ Hh)) as [q Hq].
    pose proof (collect_loop_lookup _ _ _ _ Hc (identifier p)) as L.
    rewrite Hq in L. destruct L as (n & N & L). eauto.
  - intros k n Hk.
    pose proof (collect_loop_lookup _ _ _ _ Hc k) as L.
    destruct (last_with_id items k) as [p|] eqn:Hp.
    + destruct L as (n' & N & L). rewrite Hk in L. injection L as <-.
      destruct (last_with_id_in _ _ _ Hp) as (? & ? & ?).
      exists p. auto.
    + simpl in L. congruence.
Qed.

Lemma snapshot_proxies_spec_witness :
  build_snapshot [] (VDict []) (VList poll_items) = Ok poll_snapshot /\
  exists m n,
    field_lookup poll_snapshot "proxies" = Some (FProxies m) /\
    proxies_lookup m (VInt 3) = Some n /\
    dict_get n "status" = VStr "expired".
Proof.
  split; [reflexivity|].
  destruct (snapshot_proxies_spec [] (VDict []) poll_items poll_snapshot eq_refl)
    as (m & Hm & _ & _ & Hkept & _).
  destruct (Hkept [("id", VInt 3); ("status", VStr "ACTIVE")]) as (q & n & Hq & Hn & Hl);
    [simpl; auto | reflexivity |].
  exists m, n. split; [exact Hm|]. split; [exact Hl|].
  vm_compute in Hq. injection Hq as <-.
  vm_compute in Hn. injection Hn as <-. reflexivity.
Defined.

(** C3 (the claim as stated fails).  It is not so that a record is
    left out of the mapping exactly when it has neither an `id` nor a
    `proxy_id` field: the record {"id": 0} has an `id` field and is
    left out. *)
Lemma record_with_id_field_is_omitted :
  ~ (forall (names : name_map) (balance_data : value) (p : dict) (s : snapshot),
        build_snapshot names balance_data (VList [VDict p]) = Ok s ->
        (field_lookup s "proxies" = Some (FProxies []) <->
         lookup p "id" = None /\ lookup p "proxy_id" = None)).
Proof.
  intros H.
  destruct (H [] (VDict []) [("id", VInt 0)] _ eq_refl) as [Hom _].
  destruct (Hom eq_refl) as [Hid _]. discriminate Hid.
Qed.

Lemma update_inv (self : ProxyCheapCoordinator) (l l' : log) (s : snapshot) :
  _async_update_data self l = (Ok s, l') ->
  exists balance_data proxies_data l1,
    get_balance (api self) l = (Ok balance_data, l1) /\
    get_proxies (api self) l1 = (Ok proxies_data, l') /\
    build_snapshot (proxy_names self) balance_data proxies_data = Ok s.
Proof.
  unfold _async_update_data, try_except, io_bind, lift, raise.
  destruct (get_balance (api self) l) as [[b|e] l1].
  - destruct (get_proxies (api self) l1) as [[p|e] l2] eqn:P.
    + destruct (build_snapshot (proxy_names self) b p) as [s'|e] eqn:B.
      * intros H. inversion H. subst. exists b, p, l1. auto.
      * destruct (is_ProxyCheapApiError e); discriminate.
    + destruct (is_ProxyCheapApiError e); discriminate.
  - destruct (is_ProxyCheapApiError e); discriminate.
Qed.

(** C9.  A snapshot returned by a poll has exactly the keys balance,
    currency, proxies and proxy_count; proxy_count is the number of
    entries of the proxies mapping; balance and currency are read from
    the balance response, with 0 and "USD" in place of a missing
    field. *)
Theorem snapshot_shape (self : ProxyCheapCoordinator) (l l' : log) (s : snapshot) :
  _async_update_data self l = (Ok s, l') ->
  map fst s = ["balance"; "currency"; "proxies"; "proxy_count"] /\
  (exists m,
      field_lookup s "proxies" = Some (FProxies m) /\
      distinct_keys m /\
      field_lookup s "proxy_count"
      = Some (FValue (VInt (Z.of_nat (List.length m))))) /\
  (exists bd l1,
      get_balance (api self) l = (Ok (VDict bd), l1) /\
      field_lookup s "balance"
      = Some (FValue (dict_get_or bd "balance" (VInt 0))) /\
      field_lookup s "currency"
      = Some (FValue (dict_get_or bd "currency" (VStr "USD"))) /\
      (lookup bd "balance" = None ->
       field_lookup s "balance" = Some (FValue (VInt 0))) /\
      (lookup bd "currency" = None ->
       field_lookup s "currency" = Some (FValue (VStr "USD")))).
Proof.
  intros H. apply update_inv in H.
  destruct H as (b & p & l1 & Hb & Hp & Hs).
  apply build_snapshot_inv in Hs.
  destruct Hs as (m & bd & Hc & -> & ->).
  split; [reflexivity|].
  split.
  - exists m. split; [reflexivity|]. split; [|reflexivity].
    unfold collect_proxies in Hc.
    destruct (py_iter p) as [items|]; simpl in Hc; [|discriminate].
    apply (collect_loop_distinct _ _ _ _ Hc). exact I.
  - exists bd, l1. split; [exact Hb|].
    split; [reflexivity|]. split; [reflexivity|].
    unfold dict_get_or. split; intros ->; reflexivity.
Qed.

Lemma snapshot_shape_witness :
  _async_update_data polling [] = (Ok polled_snapshot, []) /\
  map fst polled_snapshot = ["balance"; "currency"; "proxies"; "proxy_count"] /\
  field_lookup polled_snapshot "currency" = Some (FValue (VStr "USD")) /\
  field_lookup polled_snapshot "proxy_count" = Some (FValue (VInt 2)).
Proof.
  split; [reflexivity|].
  split.
  - apply (snapshot_shape polling [] [] polled_snapshot). reflexivity.
  - split; reflexivity.
Defined.

(** ** More on the redaction filter *)

Lemma dict_set_fresh (acc : dict) (k : string) (v : value) :
  ~ In k (keys acc) -> dict_set acc k v = (acc ++ [(k, v)])%list.
Proof.
  induction acc as [|[k0 v0] t IH]; simpl; intros H; auto.
  destruct (String.eqb k0 k) eqn:E.
  - apply String.eqb_eq in E. tauto.
  - rewrite IH; auto.
Qed.

Lemma lookup_not_in (d : dict) (k : string) :
  ~ In k (keys d) -> lookup d k = None.
Proof.
  induction d as [|[k0 v0] t IH]; simpl; intros H; auto.
  destruct (String.eqb k0 k) eqn:E.
  - apply String.eqb_eq in E. tauto.
  - apply IH. tauto.
Qed.

Lemma NoDup_app_head (acc : dict) (k : string) (w : value) (t : dict) :
  NoDup (keys acc ++ k :: keys t)%list ->
  ~ In k (keys acc) /\ ~ In k (keys t) /\
  NoDup (keys acc ++ keys t)%list /\
  NoDup (keys (acc ++ [(k, w)]) ++ keys t)%list.
Proof.
  intros H. pose proof (NoDup_remove_2 _ _ _ H) as H2.
  repeat split.
  - intros Hin. apply H2, in_or_app. auto.
  - intros Hin. apply H2, in_or_app. auto.
  - now apply NoDup_remove_1 in H.
  - unfold keys in *. rewrite map_app. simpl. now rewrite <- app_assoc.
Qed.

Lemma filter_nested_fold (d acc : dict) :
  NoDup (keys acc ++ keys d)%list ->
  fold_left
    (fun acc kv => if not_sensitive (fst kv) then dict_set acc (fst kv) (snd kv) else acc)
    d acc
  = (acc ++ filter (fun kv => not_sensitive (fst kv)) d)%list.
Proof.
  revert acc. induction d as [|[k v] t IH]; simpl; intros acc H.
  - now rewrite app_nil_r.
  - destruct (NoDup_app_head acc k v t H) as (Hk & _ & Hdrop & Hkeep).
    destruct (not_sensitive k) eqn:E.
    + rewrite dict_set_fresh by exact Hk. rewrite IH by exact Hkeep.
      now rewrite <- app_assoc.
    + apply IH. exact Hdrop.
Qed.

Lemma filter_nested_filter (d : dict) :
  NoDup (keys d) ->
  filter_nested d = filter (fun kv => not_sensitive (fst kv)) d.
Proof.
  intros H. unfold filter_nested. now rewrite filter_nested_fold.
Qed.

Lemma lookup_filter_keys (f : string -> bool) (d : dict) (k : string) :
  lookup (filter (fun kv => f (fst kv)) d) k = if f k then lookup d k else None.
Proof.
  induction d as [|[k0 v0] t IH]; simpl.
  - now destruct (f k).
  - destruct (f k0) eqn:F; simpl; destruct (String.eqb k0 k) eqn:E; auto.
    + apply String.eqb_eq in E. subst. now rewrite F.
    + apply String.eqb_eq in E. subst. now rewrite F in IH |- *.
Qed.

Lemma keys_filter_incl (f : string * value -> bool) (d : dict) (k : string) :
  In k (keys (filter f d)) -> In k (keys d).
Proof.
  unfold keys. rewrite !in_map_iff. intros ((k0 & v0) & E & Hin).
  apply filter_In in Hin. exists (k0, v0). tauto.
Qed.

Lemma NoDup_keys_filter (f : string * value -> bool) (d : dict) :
  NoDup (keys d) -> NoDup (keys (filter f d)).
Proof.
  induction d as [|[k v] t IH]; simpl; intros H; auto.
  inversion H as [|? ? Hk Ht]; subst.
  destruct (f (k, v)); simpl; auto.
  constructor; auto. intros Hin. apply Hk. eapply keys_filter_incl; eauto.
Qed.

(** X1.  In a sub-object with distinct keys the filter drops the
    entries with a sensitive key and keeps every other entry with its
    value untouched, whatever that value holds: deeper levels are not
    inspected. *)
Theorem nested_copy_lookup (d : dict) (k : string) :
  NoDup (keys d) ->
  lookup (filter_nested d) k = if not_sensitive k then lookup d k else None.
Proof.
  intros H. rewrite filter_nested_filter by exact H.
  apply (lookup_filter_keys not_sensitive).
Qed.

Lemma nested_copy_lookup_witness :
  NoDup (keys [("username", VStr "u"); ("Password", VStr "p");
               ("extra", VDict [("secret", VStr "kept")])]) /\
  lookup (filter_nested [("username", VStr "u"); ("Password", VStr "p");
                         ("extra", VDict [("secret", VStr "kept")])]) "extra"
  = Some (VDict [("secret", VStr "kept")]).
Proof.
  assert (H : NoDup (keys [("username", VStr "u"); ("Password", VStr "p");
                           ("extra", VDict [("secret", VStr "kept")])])).
  { repeat constructor; simpl; intuition discriminate. }
  split; [exact H|].
  rewrite (nested_copy_lookup _ "extra" H). reflexivity.
Defined.

Lemma filter_step_fold (data acc : dict) :
  NoDup (keys acc ++ keys data)%list ->
  fold_left filter_step data acc = (acc ++ redact data)%list.
Proof.
  revert acc. induction data as [|[k v] t IH]; simpl; intros acc H.
  - now rewrite app_nil_r.
  - destruct (NoDup_app_head acc k v t H) as (Hk & _ & Hdrop & _).
    assert (Keep : forall w,
               fold_left filter_step t (dict_set acc k w)
               = (acc ++ (k, w) :: redact t)%list).
    { intros w. destruct (NoDup_app_head acc k w t H) as (_ & _ & _ & Hkeep).
      rewrite dict_set_fresh by exact Hk. rewrite IH by exact Hkeep.
      now rewrite <- app_assoc. }
    destruct v; try (destruct (not_sensitive k); [apply Keep | now apply IH]).
    apply Keep.
Qed.

Lemma filter_sensitive_data_redact (data : dict) :
  NoDup (keys data) -> _filter_sensitive_data data = redact data.
Proof.
  intros H. unfold _filter_sensitive_data. now rewrite filter_step_fold.
Qed.

Lemma keys_redact_incl (data : dict) (k : string) :
  In k (keys (redact data)) -> In k (keys data).
Proof.
  induction data as [|[k0 v] t IH]; simpl; auto.
  destruct v; try (destruct (not_sensitive k0)); simpl; intuition.
Qed.

Lemma lookup_redact (data : dict) (k : string) :
  NoDup (keys data) ->
  lookup (redact data) k
  = match lookup data k with
    | Some (VDict d) => Some (VDict (filter_nested d))
    | Some v => if not_sensitive k then Some v else None
    | None => None
    end.
Proof.
  induction data as [|[k0 v] t IH]; simpl; intros H; auto.
  inversion H as [|? ? Hk Ht]; subst. specialize (IH Ht).
  assert (Hnone : String.eqb k0 k = true -> lookup (redact t) k = None).
  { intros E. apply String.eqb_eq in E. subst k0.
    apply lookup_not_in. intros Hin. apply Hk. now apply keys_redact_incl. }
  destruct v; simpl;
    try (destruct (not_sensitive k0) eqn:S; simpl;
         destruct (String.eqb k0 k) eqn:E; auto;
         [ apply String.eqb_eq in E; subst k0; now rewrite S
         | rewrite Hnone by reflexivity;
           apply String.eqb_eq in E; subst k0; now rewrite S ]).
  destruct (String.eqb k0 k); auto.
Qed.

(** X2.  On a record with distinct keys the retained raw copy holds,
    under each key: the filtered sub-object when the raw value is an
    object (also under a sensitive key); the raw value itself when it
    is not an object and the key is not sensitive; nothing otherwise.
    No other entry is lost or changed. *)
Theorem raw_copy_lookup (data : dict) (k : string) :
  NoDup (keys data) ->
  lookup (_filter_sensitive_data data) k
  = match lookup data k with
    | Some (VDict d) => Some (VDict (filter_nested d))
    | Some v => if not_sensitive k then Some v else None
    | None => None
    end.
Proof.
  intros H. rewrite filter_sensitive_data_redact by exact H.
  now apply lookup_redact.
Qed.

Lemma raw_copy_lookup_witness :
  NoDup (keys [("id", VInt 7); ("apiSecret", VStr "k"); ("city", VStr "Oslo")]) /\
  lookup (_filter_sensitive_data
            [("id", VInt 7); ("apiSecret", VStr "k"); ("city", VStr "Oslo")])
         "city" = Some (VStr "Oslo") /\
  lookup (_filter_sensitive_data
            [("id", VInt 7); ("apiSecret", VStr "k"); ("city", VStr "Oslo")])
         "apiSecret" = None.
Proof.
  assert (H : NoDup (keys [("id", VInt 7); ("apiSecret", VStr "k");
                           ("city", VStr "Oslo")])).
  { repeat constructor; simpl; intuition discriminate. }
  split; [exact H|].
  split; rewrite (raw_copy_lookup _ _ H); reflexivity.
Defined.

Lemma NoDup_keys_redact (data : dict) :
  NoDup (keys data) -> NoDup (keys (redact data)).
Proof.
  induction data as [|[k v] t IH]; simpl; intros H; auto.
  inversion H as [|? ? Hk Ht]; subst.
  assert (Hk' : ~ In k (keys (redact t))).
  { intros Hin. apply Hk. now apply keys_redact_incl. }
  destruct v; try (destruct (not_sensitive k)); simpl; auto;
    constructor; auto.
Qed.

Lemma filter_nested_idem (d : dict) :
  NoDup (keys d) -> filter_nested (filter_nested d) = filter_nested d.
Proof.
  intros H. rewrite (filter_nested_filter d H).
  rewrite filter_nested_filter by now apply NoDup_keys_filter.
  induction d as [|[k v] t IH]; simpl; auto.
  inversion H as [|? ? Hk Ht]; subst.
  destruct (not_sensitive k) eqn:E; simpl; auto.
  rewrite E. f_equal. auto.
Qed.

Lemma redact_idem (data : dict) :
  distinct_inner_keys data -> redact (redact data) = redact data.
Proof.
  unfold distinct_inner_keys.
  induction data as [|[k v] t IH]; simpl; intros H; auto.
  assert (Ht : forall k d, In (k, VDict d) t -> NoDup (keys d)) by eauto.
  destruct v as [ | b | z | f | s | l | d];
    [ | | | | | | simpl; rewrite IH by exact Ht;
                  rewrite filter_nested_idem; eauto ];
    (destruct (not_sensitive k) eqn:E; simpl; rewrite ?E, IH; auto).
Qed.

(** X3.  Filtering is idempotent on decoded documents: applying the
    filter to a retained raw copy gives the same copy again. *)
Theorem filter_sensitive_data_idempotent (data : dict) :
  NoDup (keys data) -> distinct_inner_keys data ->
  _filter_sensitive_data (_filter_sensitive_data data)
  = _filter_sensitive_data data.
Proof.
  intros H Hin. rewrite (filter_sensitive_data_redact data H).
  rewrite filter_sensitive_data_redact by now apply NoDup_keys_redact.
  now apply redact_idem.
Qed.

Lemma filter_sensitive_data_idempotent_witness :
  _filter_sensitive_data (_filter_sensitive_data leaky_record)
  = _filter_sensitive_data leaky_record.
Proof.
  apply filter_sensitive_data_idempotent.
  - repeat constructor; simpl; intuition discriminate.
  - intros k d [H|[H|[]]]; inversion H; subst.
    repeat constructor; simpl; intuition.
Defined.

(** ** More on the normaliser *)

Lemma lower_ascii_idem (c : ascii) : lower_ascii (lower_ascii c) = lower_ascii c.
Proof.
  destruct c as [[] [] [] [] [] [] [] []]; reflexivity.
Qed.

Lemma lower_idem (s : string) : lower (lower s) = lower s.
Proof.
  unfold lower. induction s as [|c t IH]; simpl; auto.
  now rewrite lower_ascii_idem, IH.
Qed.

(** The fields of a returned record that the earlier inversion lemma
    leaves out. *)
Lemma normalize_more_fields (names : name_map) (proxy n : dict) :
  _normalize_proxy_data names proxy = Ok n ->
  dict_get n "id" = dict_get proxy "id" /\
  dict_get n "protocol" = dict_get proxy "proxyType" /\
  dict_get n "status"
  = VStr (normalize_status (dict_get_or proxy "status" (VStr "unknown"))) /\
  resolve_name names proxy (sub_object proxy "metadata")
  = Ok (dict_get n "name") /\
  (exists md, sub_object proxy "metadata" = VDict md) /\
  (exists au, sub_object proxy "authentication" = VDict au /\
              dict_get n "whitelisted_ips"
              = dict_get_or au "whitelistedIps" (VList [])) /\
  dict_get n "routes" = dict_get_or proxy "routes" (VList []).
Proof.
  intros H. cbv beta zeta delta [_normalize_proxy_data] in H.
  bind_inv H. injection H as <-.
  cbn. repeat split; auto.
  - match goal with
    | E : obj_get (sub_object proxy "metadata") "ispName" = Ok _ |- _ =>
        destruct (obj_get_inv _ _ _ E) as (md & Hmd & _); eauto
    end.
  - match goal with
    | E : obj_get_or (sub_object proxy "authentication") _ _ = Ok _ |- _ =>
        destruct (sub_object proxy "authentication"); try discriminate E;
          simpl in E; injection E as <-; eauto
    end.
Qed.





(** X5.  The display name of a returned record is the first truthy
    value, in this order, of: the local name configured under the id,
    the local name configured under the text of the id, the vendor
    fields name, label, alias, displayName, and the name and label of
    the metadata sub-object; when none is truthy it is the last of
    them.  In particular a non-empty local name under the id always
    wins over the vendor's fields. *)
Theorem display_name_order (names : name_map) (proxy n : dict) :
  _normalize_proxy_data names proxy = Ok n ->
  exists md,
    sub_object proxy "metadata" = VDict md /\
    hashable (dict_get proxy "id") = true /\
    dict_get n "name"
    = first_truthy
        [ name_of names (dict_get proxy "id");
          name_of names (VStr (py_str (dict_get proxy "id")));
          dict_get proxy "name";
          dict_get proxy "label";
          dict_get proxy "alias";
          dict_get proxy "displayName";
          dict_get md "name";
          dict_get md "label" ] /\
    (forall v, name_lookup names (dict_get proxy "id") = Some v ->
               truthy v = true -> dict_get n "name" = v).
Proof.
  intros H. apply normalize_more_fields in H.
  destruct H as (_ & _ & _ & Hname & (md & Hmd) & _).
  exists md. split; [exact Hmd|].
  rewrite Hmd in Hname. unfold resolve_name in Hname.
  assert (Hh : hashable (dict_get proxy "id") = true).
  { unfold lazy_or, names_get in Hname.
    destruct (hashable (dict_get proxy "id")); [reflexivity|discriminate]. }
  split; [exact Hh|].
  assert (E : dict_get n "name"
              = first_truthy
                  [ name_of names (dict_get proxy "id");
                    name_of names (VStr (py_str (dict_get proxy "id")));
                    dict_get proxy "name";
                    dict_get proxy "label";
                    dict_get proxy "alias";
                    dict_get proxy "displayName";
                    dict_get md "name";
                    dict_get md "label" ]).
  { unfold names_get in Hname. rewrite Hh in Hname. simpl hashable in Hname.
    cbv iota in Hname. fold (name_of names (dict_get proxy "id")) in Hname.
    fold (name_of names (VStr (py_str (dict_get proxy "id")))) in Hname.
    unfold lazy_or, obj_get in Hname. simpl bind in Hname.
    unfold first_truthy.
    repeat match type of Hname with
           | (if truthy ?x then _ else _) = _ => destruct (truthy x)
           end; congruence. }
  split; [exact E|].
  intros v Hv Tv. rewrite E. unfold name_of at 1. rewrite Hv.
  simpl. now rewrite Tv.
Qed.

Lemma display_name_order_witness :
  _normalize_proxy_data [(VInt 7, VStr "Office")] named_record
  = Ok named_normalized /\
  dict_get named_normalized "name" = VStr "Office".
Proof.
  split; [reflexivity|].
  destruct (display_name_order [(VInt 7, VStr "Office")] named_record
              named_normalized eq_refl) as (md & _ & _ & _ & Hwin).
  apply Hwin; reflexivity.
Defined.

Lemma obj_get_err (o : value) (k : string) (e : exn) :
  obj_get o k = Err e -> is_builtin_error e = true.
Proof. destruct o; simpl; intros H; inversion H; reflexivity. Qed.

Lemma obj_get_or_err (o : value) (k : string) (dflt : value) (e : exn) :
  obj_get_or o k dflt = Err e -> is_builtin_error e = true.
Proof. destruct o; simpl; intros H; inversion H; reflexivity. Qed.

Lemma lazy_or_err (a b : result value) (e : exn) :
  (forall e', a = Err e' -> is_builtin_error e' = true) ->
  (forall e', b = Err e' -> is_builtin_error e' = true) ->
  lazy_or a b = Err e -> is_builtin_error e = true.
Proof.
  unfold lazy_or. destruct a as [x|e0]; simpl; intros Ha Hb H.
  - destruct (truthy x); [discriminate | auto].
  - inversion H; subst. auto.
Qed.

Lemma select_port_err (proxy_type : string) (connection : value) (e : exn) :
  select_port proxy_type connection = Err e -> is_builtin_error e = true.
Proof.
  unfold select_port.
  destruct (String.eqb proxy_type "HTTP"); [apply obj_get_err|].
  destruct (String.eqb proxy_type "HTTPS"); [apply obj_get_err|].
  destruct (String.eqb proxy_type "SOCKS5"); [apply obj_get_err|].
  repeat (apply lazy_or_err; intros ?); apply obj_get_err.
Qed.

Lemma names_get_err (names : name_map) (k : value) (e : exn) :
  names_get names k = Err e -> is_builtin_error e = true.
Proof.
  unfold names_get. destruct (hashable k); intros H; inversion H; reflexivity.
Qed.

Lemma resolve_name_err (names : name_map) (proxy : dict) (metadata : value) (e : exn) :
  resolve_name names proxy metadata = Err e -> is_builtin_error e = true.
Proof.
  unfold resolve_name.
  repeat (apply lazy_or_err; intros ?);
    try apply names_get_err; try apply obj_get_err; discriminate.
Qed.

Lemma py_sub_err (a b : value) (e : exn) :
  py_sub a b = Err e -> is_builtin_error e = true.
Proof.
  unfold py_sub.
  destruct (as_number a) as [[x|fx]|], (as_number b) as [[y|fy]|]; simpl;
    repeat match goal with
           | |- context [float_of_Z ?z] => destruct (float_of_Z z); simpl
           end;
    intros H; inversion H; reflexivity.
Qed.

Lemma remaining_bandwidth_err (total used : value) (e : exn) :
  remaining_bandwidth total used = Err e -> is_builtin_error e = true.
Proof.
  unfold remaining_bandwidth.
  destruct total; try discriminate; apply py_sub_err.
Qed.

Lemma obj_upper_err (v : value) (e : exn) :
  obj_upper v = Err e -> is_builtin_error e = true.
Proof. destruct v; simpl; intros H; inversion H; reflexivity. Qed.

(** Whatever the normaliser raises is an AttributeError, a TypeError
    or an OverflowError. *)
Lemma normalize_err_builtin (names : name_map) (proxy : dict) (e : exn) :
  _normalize_proxy_data names proxy = Err e -> is_builtin_error e = true.
Proof.
  intros H. cbv beta zeta delta [_normalize_proxy_data] in H.
  repeat match type of H with
         | bind ?r _ = Err _ =>
             let E := fresh "E" in
             destruct r eqn:E;
             [ cbn beta iota delta [bind] in H
             | cbn beta iota delta [bind] in H; injection H as <-;
               first [ eapply obj_get_err; eassumption
                     | eapply obj_get_or_err; eassumption
                     | eapply select_port_err; eassumption
                     | eapply resolve_name_err; eassumption
                     | eapply remaining_bandwidth_err; eassumption
                     | eapply obj_upper_err; eassumption
                     | eapply lazy_or_err; [| |eassumption];
                       intros ?; apply obj_get_err ] ]
         end.
  discriminate H.
Qed.

Lemma normalize_ok_well_shaped (names : name_map) (proxy n : dict) :
  _normalize_proxy_data names proxy = Ok n -> well_shaped proxy.
Proof.
  intros H.
  pose proof (normalize_fields _ _ _ H)
    as (_ & (pt & Hup & Hport) & Ht & Hu & Hr & _ & Hun & _).
  pose proof (normalize_more_fields _ _ _ H)
    as (_ & _ & _ & Hname & (md & Hmd) & _).
  destruct (obj_upper_inv _ _ Hup) as (s & Hs & _).
  destruct (obj_get_inv _ _ _ Ht) as (bw & Hbw & Etot).
  destruct (obj_get_inv _ _ _ Hu) as (bw' & Hbw' & Eused).
  rewrite Hbw in Hbw'. injection Hbw' as <-.
  destruct (obj_get_inv _ _ _ Hun) as (au & Hau & _).
  assert (Hconn : exists c, sub_object proxy "connection" = VDict c).
  { unfold select_port in Hport.
    destruct (sub_object proxy "connection"); eauto;
      repeat match type of Hport with
             | (if ?c then _ else _) = _ => destruct c
             end; discriminate. }
  repeat split.
  - intros k [<-|[<-|[<-|[<-|[]]]]]; eauto.
  - eauto.
  - intros d Hd Hnz. rewrite Hbw in Hd. injection Hd as <-.
    rewrite <- Etot, <- Eused. rewrite <- Etot in Hnz.
    apply remaining_bandwidth_inv in Hr.
    destruct Hr as [[E _]|[_ Hsub]]; [contradiction|].
    apply py_sub_ok. eauto.
  - unfold resolve_name, lazy_or, names_get in Hname.
    destruct (hashable (dict_get proxy "id")); [reflexivity|discriminate].
Qed.

(** X6.  The normaliser returns a record exactly on the well-shaped
    raw records: the connection, authentication, bandwidth and
    metadata fields are objects (or falsy or absent), proxyType is
    text (or absent), the bandwidth total is null or a number with a
    null or numeric used (where one of the two is a float, an int
    beside it must fit a float), and the id can be hashed.  On every
    other record it raises, and what it raises is an AttributeError,
    a TypeError or an OverflowError. *)
Theorem normalizer_domain (names : name_map) (proxy : dict) :
  ((exists n, _normalize_proxy_data names proxy = Ok n) <-> well_shaped proxy) /\
  (forall e, _normalize_proxy_data names proxy = Err e ->
             is_builtin_error e = true /\ ~ well_shaped proxy).
Proof.
  split.
  - split; [intros [n H]; eapply normalize_ok_well_shaped; eassumption
           | apply normalize_succeeds].
  - intros e H. split; [now apply normalize_err_builtin in H|].
    intros Hw. destruct (normalize_succeeds names proxy Hw) as [n Hn].
    congruence.
Qed.

Lemma normalizer_domain_witness :
  well_shaped fractional_record /\
  ~ well_shaped [("proxyType", VNone)] /\
  _normalize_proxy_data [] oversized_record
  = Err (OverflowError "int too large to convert to float") /\
  ~ well_shaped oversized_record.
Proof.
  split.
  - apply (proj1 (proj1 (normalizer_domain [] fractional_record))).
    exists fractional_normalized. reflexivity.
  - split.
    + apply (proj2 (normalizer_domain [] [("proxyType", VNone)])
               (AttributeError "object has no attribute 'upper'")).
      reflexivity.
    + split; [vm_compute; reflexivity|].
      apply (proj2 (normalizer_domain [] oversized_record)
               (OverflowError "int too large to convert to float")).
      vm_compute. reflexivity.
Defined.

(** ** More on the API client *)

(** X7.  A response with a status below 400 whose body parses is
    returned as parsed and nothing is logged; this includes every
    1xx, 2xx and 3xx status, not only 200. *)
Theorem request_success (self : ProxyCheapApi) (method endpoint : string)
        (data : option dict) (l : log) (r : ClientResponse) (v : value) :
  round_trip self method endpoint data = Responds r ->
  status r < 400 ->
  json r = Ok v ->
  _request self method endpoint data l = (Ok v, l).
Proof.
  intros Hr Hlt Hj. rewrite request_unfold, Hr. unfold _handle_response.
  assert (E1 : (status r =? 401) = false) by (apply Z.eqb_neq; lia).
  assert (E2 : (status r =? 403) = false) by (apply Z.eqb_neq; lia).
  assert (E3 : (status r >=? 400) = false)
    by (rewrite Z.geb_leb; apply Z.leb_gt; lia).
  rewrite E1, E2, E3. unfold try_except, lift. rewrite Hj. reflexivity.
Qed.

Lemma request_success_witness :
  get_balance (api_of (answering 302 "" (Ok (VDict [("balance", VInt 3)])))) []
  = (Ok (VDict [("balance", VInt 3)]), []).
Proof.
  apply (request_success
           (api_of (answering 302 "" (Ok (VDict [("balance", VInt 3)]))))
           "GET" ENDPOINT_BALANCE None []
           {| status := 302; text := Ok "";
              json := Ok (VDict [("balance", VInt 3)]) |}
           (VDict [("balance", VInt 3)])).
  - reflexivity.
  - simpl. lia.
  - reflexivity.
Defined.

(** X8.  No operation lets a failure of the transport layer escape:
    whatever [_request] raises is neither a TimeoutError nor an
    aiohttp ClientError nor the cancellation of an expired timeout.
    A client error on connecting becomes a ProxyCheapApiError with
    the message "Error connecting to API: ...". *)
Theorem request_wraps_transport_errors (self : ProxyCheapApi)
        (method endpoint : string) (data : option dict) (l : log) :
  (forall m, round_trip self method endpoint data = Fails (ClientError m) ->
             _request self method endpoint data l
             = (Err (ProxyCheapApiError ("Error connecting to API: " ++ m)), l)) /\
  (forall e l', _request self method endpoint data l = (Err e, l') ->
                is_transport_error e = false).
Proof.
  rewrite request_unfold. split.
  - intros m ->. reflexivity.
  - intros e l'.
    destruct (round_trip self method endpoint data) as [e0|r].
    + destruct e0; intros H; inversion H; reflexivity.
    + destruct (_handle_response r l) as [[v|e0] l0]; [discriminate|].
      destruct e0; intros H; inversion H; reflexivity.
Qed.

Lemma request_wraps_transport_errors_witness :
  get_balance (api_of unreachable) []
  = (Err (ProxyCheapApiError "Error connecting to API: Cannot connect to host"), []).
Proof.
  apply (proj1 (request_wraps_transport_errors (api_of unreachable) "GET"
                  ENDPOINT_BALANCE None []) "Cannot connect to host").
  reflexivity.
Defined.

Lemma proxies_of_result_ok (res : value) :
  exists v, proxies_of_result res = Ok v.
Proof.
  destruct res as [ | b | z | f | s | items | d]; simpl; eauto.
  unfold dict_mem, subscript.
  destruct (lookup d "proxies"); eauto.
  destruct (lookup d "data"); eauto.
Qed.

(** X9.  The list-proxies operation fails exactly when its request
    fails, with the same exception and the same log: unwrapping the
    response never raises (no KeyError, whatever the shape). *)
Theorem get_proxies_fails_as_request (self : ProxyCheapApi) (l l' : log) (e : exn) :
  get_proxies self l = (Err e, l') <->
  _request self "GET" ENDPOINT_PROXIES None l = (Err e, l').
Proof.
  unfold get_proxies, io_bind, lift.
  destruct (_request self "GET" ENDPOINT_PROXIES None l) as [[res|e0] l0].
  - destruct (proxies_of_result_ok res) as [v ->]. split; discriminate.
  - tauto.
Qed.

(** ** More on the coordinator *)

Lemma builtin_not_api (e : exn) :
  is_builtin_error e = true -> is_ProxyCheapApiError e = false.
Proof. destruct e; simpl; congruence. Qed.

Lemma collect_step_err (names : name_map) (acc : proxy_map) (item : value) (e : exn) :
  collect_step names acc item = Err e -> is_builtin_error e = true.
Proof.
  destruct item as [ | | | | | | p]; simpl; intros H; try (inversion H; reflexivity).
  destruct (truthy (identifier p)); [|discriminate].
  destruct (_normalize_proxy_data names p) as [n|e0] eqn:N; simpl in H.
  - unfold proxies_setitem in H.
    destruct (hashable (identifier p)); inversion H; reflexivity.
  - injection H as <-. eapply normalize_err_builtin; eauto.
Qed.

Lemma collect_loop_err (names : name_map) (items : list value) (acc : proxy_map) (e : exn) :
  collect_loop names acc items = Err e -> is_builtin_error e = true.
Proof.
  revert acc. induction items as [|item rest IH]; simpl; intros acc H.
  - discriminate.
  - destruct (collect_step names acc item) as [acc'|e0] eqn:S; simpl in H.
    + eauto.
    + injection H as <-. eapply collect_step_err; eauto.
Qed.

Lemma build_snapshot_err (names : name_map) (balance_data proxies_data : value) (e : exn) :
  build_snapshot names balance_data proxies_data = Err e ->
  is_builtin_error e = true.
Proof.
  unfold build_snapshot, collect_proxies. intros H.
  destruct (py_iter proxies_data) as [items|e0] eqn:I; simpl in H.
  - destruct (collect_loop names [] items) as [m|e1] eqn:C; simpl in H.
    + destruct balance_data; simpl in H; inversion H; reflexivity.
    + injection H as <-. eapply collect_loop_err; eauto.
  - injection H as <-. destruct proxies_data; simpl in I; inversion I; reflexivity.
Qed.

(** X10.  A poll converts every failure of the client into
    UpdateFailed: when get-balance, or get-proxies after it, raises a
    ProxyCheapApiError (a ProxyCheapAuthError included), the poll
    raises UpdateFailed with the message "Error communicating with
    API: " followed by the text of the error, and a failed get-balance
    leaves the log as that call left it.  Whatever a poll raises is
    never a ProxyCheapApiError. *)
Theorem update_failure (self : ProxyCheapCoordinator) (l : log) :
  (forall e l1,
      get_balance (api self) l = (Err e, l1) ->
      is_ProxyCheapApiError e = true ->
      _async_update_data self l
      = (Err (UpdateFailed ("Error communicating with API: " ++ exn_str e)), l1)) /\
  (forall b l1 e l2,
      get_balance (api self) l = (Ok b, l1) ->
      get_proxies (api self) l1 = (Err e, l2) ->
      is_ProxyCheapApiError e = true ->
      _async_update_data self l
      = (Err (UpdateFailed ("Error communicating with API: " ++ exn_str e)), l2)) /\
  (forall e l',
      _async_update_data self l = (Err e, l') ->
      is_ProxyCheapApiError e = false).
Proof.
  unfold _async_update_data, try_except, io_bind, lift, raise.
  split; [|split].
  - intros e l1 -> He. rewrite He. reflexivity.
  - intros b l1 e l2 -> -> He. rewrite He. reflexivity.
  - intros e l'.
    destruct (get_balance (api self) l) as [[b|e0] l1].
    + destruct (get_proxies (api self) l1) as [[p|e0] l2].
      * destruct (build_snapshot (proxy_names self) b p) as [s|e0] eqn:B;
          [discriminate|].
        rewrite (builtin_not_api _ (build_snapshot_err _ _ _ _ B)).
        intros H. inversion H; subst.
        apply builtin_not_api. eapply build_snapshot_err; eauto.
      * destruct (is_ProxyCheapApiError e0) eqn:A; intros H; inversion H; subst;
          auto.
    + destruct (is_ProxyCheapApiError e0) eqn:A; intros H; inversion H; subst;
        auto.
Qed.

Lemma update_failure_witness :
  get_balance (api polling_revoked) []
  = (Err (ProxyCheapAuthError "Invalid API credentials"), []) /\
  _async_update_data polling_revoked []
  = (Err (UpdateFailed "Error communicating with API: Invalid API credentials"), []).
Proof.
  split; [reflexivity|].
  apply (proj1 (update_failure polling_revoked [])
           (ProxyCheapAuthError "Invalid API credentials") []); reflexivity.
Defined.

Lemma collect_loop_digestible (names : name_map) (items : list value)
      (acc m : proxy_map) :
  collect_loop names acc items = Ok m -> Forall digestible items.
Proof.
  revert acc. induction items as [|item rest IH]; simpl; intros acc H.
  - constructor.
  - destruct (collect_step names acc item) as [acc'|] eqn:S;
      simpl in H; [|discriminate].
    constructor; [|eauto].
    apply collect_step_inv in S.
    destruct S as (p & -> & [[T _]|(T & Hh & n & N & _)]);
      exists p; split; auto.
    + congruence.
    + intros _. split; [eapply normalize_ok_well_shaped; eauto | exact Hh].
Qed.

Lemma collect_loop_succeeds (names : name_map) (items : list value)
      (acc : proxy_map) :
  Forall digestible items -> exists m, collect_loop names acc items = Ok m.
Proof.
  intros H. revert acc. induction H as [|item rest Hd _ IH]; simpl; intros acc.
  - eauto.
  - destruct Hd as (p & -> & Hp). simpl.
    destruct (truthy (identifier p)) eqn:T.
    + destruct (Hp eq_refl) as [Hw Hh].
      destruct (normalize_succeeds names p Hw) as [n ->]. simpl.
      unfold proxies_setitem. rewrite Hh. simpl. apply IH.
    + simpl. apply IH.
Qed.

(** X11.  A poll whose list-proxies result is a list builds a
    snapshot exactly when the balance response is an object and every
    item of the list is digestible: an object which either has no
    truthy identifier or is well shaped with a hashable identifier.
    So a malformed record without identifier is skipped, while one
    malformed record with an identifier (a total too large to take a
    fractional used figure from, say), or one item that is not an
    object, makes the whole poll fail. *)
Theorem poll_domain (names : name_map) (balance_data : value) (items : list value) :
  (exists s, build_snapshot names balance_data (VList items) = Ok s) <->
  (exists bd, balance_data = VDict bd) /\ Forall digestible items.
Proof.
  split.
  - intros [s H]. apply build_snapshot_inv in H.
    destruct H as (m & bd & Hc & -> & _).
    split; [eauto|].
    unfold collect_proxies in Hc. simpl in Hc.
    eapply collect_loop_digestible; eauto.
  - intros [[bd ->] Hd].
    destruct (collect_loop_succeeds names items [] Hd) as [m Hm].
    unfold build_snapshot, collect_proxies. simpl. rewrite Hm. simpl. eauto.
Qed.

Lemma poll_domain_witness :
  Forall digestible poll_items /\
  ~ Forall digestible [VDict [("id", VInt 1); ("proxyType", VNone)]] /\
  ~ Forall digestible [VDict fractional_record; VDict oversized_record].
Proof.
  split.
  - apply (proj1 (poll_domain [] (VDict []) poll_items)).
    exists poll_snapshot. reflexivity.
  - split.
    + intros H.
      destruct (proj2 (poll_domain [] (VDict [])
                         [VDict [("id", VInt 1); ("proxyType", VNone)]]))
        as [s Hs]; [split; [eauto | exact H]|].
      discriminate Hs.
    + intros H.
      destruct (proj2 (poll_domain [] (VDict [])
                         [VDict fractional_record; VDict oversized_record]))
        as [s Hs]; [split; [eauto | exact H]|].
      vm_compute in Hs. discriminate Hs.
Defined.

Lemma proxies_put_length (m : proxy_map) (k : value) (v : dict) :
  (List.length (proxies_put m k v) <= S (List.length m))%nat.
Proof.
  induction m as [|[k0 v0] t IH]; simpl; auto.
  destruct (key_eqb k0 k); simpl; lia.
Qed.

Lemma collect_loop_length (names : name_map) (items : list value)
      (acc m : proxy_map) :
  collect_loop names acc items = Ok m ->
  (List.length m <= List.length acc + List.length items)%nat.
Proof.
  revert acc. induction items as [|item rest IH]; simpl; intros acc H.
  - injection H as <-. lia.
  - destruct (collect_step names acc item) as [acc'|] eqn:S;
      simpl in H; [|discriminate].
    specialize (IH _ H). apply collect_step_inv in S.
    destruct S as (p & _ & [[_ ->]|(_ & _ & n & _ & ->)]); [lia|].
    pose proof (proxies_put_length acc (identifier p) n). lia.
Qed.

(** X12.  The proxy_count of a snapshot never exceeds the number of
    records returned by the vendor; it is smaller when records are
    skipped or share an identifier. *)
Theorem proxy_count_bound (names : name_map) (balance_data : value)
        (items : list value) (s : snapshot) :
  build_snapshot names balance_data (VList items) = Ok s ->
  exists c,
    field_lookup s "proxy_count" = Some (FValue (VInt c)) /\
    0 <= c <= Z.of_nat (List.length items).
Proof.
  intros H. apply build_snapshot_inv in H.
  destruct H as (m & bd & Hc & _ & ->).
  unfold collect_proxies in Hc. simpl in Hc.
  apply collect_loop_length in Hc. simpl in Hc.
  eexists. split; [reflexivity|]. lia.
Qed.

Lemma proxy_count_bound_witness :
  exists c,
    field_lookup poll_snapshot "proxy_count" = Some (FValue (VInt c)) /\
    0 <= c <= 4.
Proof.
  apply (proxy_count_bound [] (VDict []) poll_items poll_snapshot).
  reflexivity.
Defined.

(** ** The entities that read the snapshot *)

Lemma not_sensitive_raw_prefix (key : string) :
  not_sensitive ("raw_" ++ key) = not_sensitive key.
Proof. reflexivity. Qed.

Lemma presentable_set (attrs : dict) (k : string) (v : value) :
  presentable attrs ->
  not_sensitive k = true ->
  (String.prefix "raw_" k = true ->
   forall d, v = VDict d -> forall k', In k' (keys d) -> not_sensitive k' = true) ->
  presentable (dict_set attrs k v).
Proof.
  intros P Hk Hv k0 v0 Hin. apply in_dict_set in Hin.
  destruct Hin as [[-> ->]|Hin]; auto.
Qed.

Lemma copy_if_truthy_presentable (p : dict) (k : string) (attrs attrs' : dict) :
  presentable attrs ->
  not_sensitive k = true -> String.prefix "raw_" k = false ->
  sensor.copy_if_truthy p k attrs = Ok attrs' ->
  presentable attrs'.
Proof.
  unfold sensor.copy_if_truthy. intros P Hk Hp H.
  destruct (truthy (dict_get p k)).
  - destruct (subscript p k) as [v|]; simpl in H; [|discriminate].
    injection H as <-. apply presentable_set; auto. congruence.
  - injection H as <-. exact P.
Qed.

Lemma raw_attr_fold_presentable (raw attrs : dict) :
  presentable attrs -> presentable (fold_left sensor.raw_attr_step raw attrs).
Proof.
  revert attrs. induction raw as [|[key v] t IH]; simpl; intros attrs P; auto.
  apply IH. destruct (not_sensitive key) eqn:S; auto.
  destruct v as [ | b | z | f | s | l | d];
    apply presentable_set; auto;
    try (rewrite not_sensitive_raw_prefix; exact S);
    try (intros _ d0 E; discriminate E).
  intros _ d0 E. injection E as <-. apply filter_nested_clean.
Qed.

(** X13.  The attributes of a proxy sensor never expose a credential
    field: whatever the snapshot holds, no attribute key contains
    "password" or "secret", and no object stored under a "raw_..."
    attribute has such a key inside.  (The names of the raw fields are
    listed under raw_api_fields; their values are not.) *)
Theorem attributes_hide_sensitive_fields (data : option snapshot)
        (proxy_id : value) (key : string) (attrs : dict) :
  sensor.extra_state_attributes data proxy_id key = Ok attrs ->
  (forall k, In k (keys attrs) -> not_sensitive k = true) /\
  (forall k d, In (k, VDict d) attrs -> String.prefix "raw_" k = true ->
               forall k', In k' (keys d) -> not_sensitive k' = true).
Proof.
  intros H.
  assert (P : presentable attrs).
  { assert (P0 : presentable [("proxy_id", proxy_id)]).
    { intros k v [E|[]]. inversion E; subst. split; [reflexivity|discriminate]. }
    unfold sensor.extra_state_attributes in H.
    destruct data as [s|]; [|injection H as <-; intros k v []].
    destruct (lookup_proxy s proxy_id) as [proxy|]; simpl in H; [|discriminate].
    destruct proxy as [ | b | z | f | t | l | p];
      try (injection H as <-; intros k v []);
      (destruct (negb (String.eqb key "status")); [injection H as <-; exact P0|]);
      try discriminate H.
    repeat match type of H with
           | bind (sensor.copy_if_truthy ?p ?k ?a) _ = Ok _ =>
               let a' := fresh "a" in
               let E := fresh "E" in
               destruct (sensor.copy_if_truthy p k a) as [a'|] eqn:E;
               [ cbn beta iota delta [bind] in H;
                 apply copy_if_truthy_presentable in E;
                 [ | first [exact P0 | assumption] | reflexivity | reflexivity ]
               | discriminate H ]
           end.
    unfold sensor.add_raw_attrs in H.
    destruct (truthy (dict_get_or p "_raw" (VDict []))); [|injection H as <-; assumption].
    destruct (dict_get_or p "_raw" (VDict [])) as [ | | | | | | raw];
      try discriminate H.
    injection H as <-. apply raw_attr_fold_presentable.
    apply presentable_set; [assumption | reflexivity | discriminate]. }
  split.
  - intros k Hin. unfold keys in Hin. apply in_map_iff in Hin.
    destruct Hin as ((k0 & v0) & E & Hin). simpl in E. subst k0.
    apply (P k v0 Hin).
  - intros k d Hin Hp. apply (proj2 (P k (VDict d) Hin) Hp d eq_refl).
Qed.

Lemma attributes_hide_sensitive_fields_witness :
  sensor.extra_state_attributes (Some secret_snapshot) (VInt 7) "status"
  = Ok secret_attributes /\
  lookup secret_attributes "raw_authentication"
  = Some (VDict [("username", VStr "u")]) /\
  forall k, In k (keys secret_attributes) -> not_sensitive k = true.
Proof.
  split; [reflexivity|]. split; [reflexivity|].
  apply (attributes_hide_sensitive_fields (Some secret_snapshot) (VInt 7)
           "status" secret_attributes).
  reflexivity.
Defined.

Lemma dict_get_some (d : dict) (k : string) (v dflt : value) :
  dict_get d k = v -> v <> VNone -> dict_get_or d k dflt = v.
Proof.
  unfold dict_get, dict_get_or. destruct (lookup d k); congruence.
Qed.

(** X14.  The "active" binary sensor of a proxy, read from the
    snapshot of a poll, is on exactly when the status of the last
    vendor record with that identifier is text that equals "active"
    without regard to case; it is off when that status is missing or
    not text, and undefined (None) when the poll kept no record under
    the identifier. *)
Theorem active_sensor_follows_raw_status (names : name_map)
        (balance_data : value) (items : list value) (s : snapshot) (k : value) :
  build_snapshot names balance_data (VList items) = Ok s ->
  hashable k = true ->
  binary_sensor.is_on binary_sensor.is_on_fn_active (Some s) k
  = Ok (match last_with_id items k with
        | Some p =>
            Some (match lookup p "status" with
                  | Some (VStr raw) => String.eqb (lower raw) "active"
                  | _ => false
                  end)
        | None => None
        end).
Proof.
  intros H Hk. apply build_snapshot_inv in H.
  destruct H as (m & bd & Hc & _ & ->).
  unfold collect_proxies in Hc. simpl in Hc.
  pose proof (collect_loop_lookup _ _ _ _ Hc k) as L.
  unfold binary_sensor.is_on, lookup_proxy. simpl field_lookup. rewrite Hk.
  destruct (last_with_id items k) as [p|].
  - destruct L as (n & N & ->). simpl.
    apply normalize_more_fields in N. destruct N as (_ & _ & Hs & _).
    unfold binary_sensor.is_on_fn_active. simpl.
    rewrite (dict_get_some n "status" _ (VStr "") Hs) by discriminate.
    simpl. unfold dict_get_or, normalize_status.
    destruct (lookup p "status") as [[ | | | | raw | | ]|]; try reflexivity.
    now rewrite lower_idem.
  - simpl in L. rewrite L. reflexivity.
Qed.

Lemma active_sensor_follows_raw_status_witness :
  binary_sensor.is_on binary_sensor.is_on_fn_active (Some secret_snapshot) (VInt 7)
  = Ok (Some true).
Proof.
  apply (active_sensor_follows_raw_status [] (VDict []) secret_items
           secret_snapshot (VInt 7)); reflexivity.
Defined.

Lemma format_2f_number (x : value) (n : number) :
  as_number x = Some n ->
  format_2f x = (f <- to_float n ;; Ok (float_format_2f f)).
Proof. unfold format_2f. now intros ->. Qed.

Lemma to_float_overflow (n : number) (e : exn) :
  to_float n = Err e ->
  exists z, n = NInt z /\ float_of_Z z = None /\
            e = OverflowError "int too large to convert to float".
Proof.
  destruct n as [z|f]; simpl; [|discriminate].
  destruct (float_of_Z z) eqn:E; [discriminate|].
  intros H. injection H as <-. eauto.
Qed.

(** X15.  On every record that the normaliser returns, the bandwidth
    total and bandwidth remaining sensors both read "Unlimited" when
    the raw total is null.  Otherwise the total and the remaining
    amount are numbers, and each sensor reads its number, as the
    float it converts to, with two decimals and the unit GB; a sensor
    fails only when its number is an int too large for a float, and
    then with OverflowError. *)
Theorem bandwidth_sensors_defined (names : name_map) (proxy n : dict) :
  _normalize_proxy_data names proxy = Ok n ->
  (dict_get n "bandwidth_total" = VNone ->
   sensor.value_fn_bandwidth_total (VDict n) = Ok (VStr "Unlimited") /\
   sensor.value_fn_bandwidth_remaining (VDict n) = Ok (VStr "Unlimited")) /\
  (dict_get n "bandwidth_total" <> VNone ->
   exists t r,
     as_number (dict_get n "bandwidth_total") = Some t /\
     as_number (dict_get n "bandwidth_remaining") = Some r /\
     sensor.value_fn_bandwidth_total (VDict n)
     = (f <- to_float t ;; Ok (VStr (float_format_2f f ++ " GB"))) /\
     sensor.value_fn_bandwidth_remaining (VDict n)
     = (f <- to_float r ;; Ok (VStr (float_format_2f f ++ " GB"))) /\
     (forall e, sensor.value_fn_bandwidth_total (VDict n) = Err e ->
                exists z, t = NInt z /\ float_of_Z z = None /\
                          e = OverflowError "int too large to convert to float") /\
     (forall e, sensor.value_fn_bandwidth_remaining (VDict n) = Err e ->
                exists z, r = NInt z /\ float_of_Z z = None /\
                          e = OverflowError "int too large to convert to float")).
Proof.
  intros H. apply normalize_fields in H.
  destruct H as (_ & _ & _ & _ & Hr & Hunl & _).
  unfold sensor.value_fn_bandwidth_total, sensor.value_fn_bandwidth_remaining.
  simpl obj_get. cbn [bind]. rewrite Hunl.
  split.
  - intros ->. split; reflexivity.
  - intros Hnz. apply remaining_bandwidth_inv in Hr.
    destruct Hr as [[E _]|[_ Hsub]]; [contradiction|].
    apply py_sub_inv in Hsub. destruct Hsub as (t & u & Et & _ & Hrem).
    assert (Er : exists r, as_number (dict_get n "bandwidth_remaining") = Some r).
    { destruct t, u; try (rewrite Hrem; simpl; eauto);
        destruct Hrem as (fx & fy & _ & _ & ->); simpl; eauto. }
    destruct Er as [r Er]. exists t, r.
    split; [exact Et|]. split; [exact Er|].
    assert (Ft : match dict_get n "bandwidth_total" with
                 | VNone => Ok VNone
                 | _ => s <- format_2f (dict_get n "bandwidth_total") ;;
                        Ok (VStr (s ++ " GB"))
                 end
                 = (f <- to_float t ;; Ok (VStr (float_format_2f f ++ " GB")))).
    { rewrite (format_2f_number _ _ Et).
      destruct (dict_get n "bandwidth_total"); try contradiction;
        destruct (to_float t); reflexivity. }
    assert (Fr : match dict_get n "bandwidth_remaining" with
                 | VNone => Ok VNone
                 | _ => s <- format_2f (dict_get n "bandwidth_remaining") ;;
                        Ok (VStr (s ++ " GB"))
                 end
                 = (f <- to_float r ;; Ok (VStr (float_format_2f f ++ " GB")))).
    { rewrite (format_2f_number _ _ Er).
      destruct (dict_get n "bandwidth_remaining"); try discriminate Er;
        destruct (to_float r); reflexivity. }
    assert (Ht : is_none (dict_get n "bandwidth_total") = false)
      by (destruct (dict_get n "bandwidth_total"); [contradiction | reflexivity ..]).
    rewrite Ht. cbn [truthy]. rewrite Ft, Fr.
    split; [reflexivity|]. split; [reflexivity|].
    split; intros e He;
      match type of He with
      | bind (to_float ?x) _ = _ =>
          destruct (to_float x) eqn:Ex; [discriminate He|];
          cbn [bind] in He; injection He as <-;
          now apply to_float_overflow
      end.
Qed.

Lemma bandwidth_sensors_defined_witness :
  sensor.value_fn_bandwidth_total (VDict fractional_normalized)
  = Ok (VStr "100.50 GB") /\
  sensor.value_fn_bandwidth_remaining (VDict fractional_normalized)
  = Ok (VStr "70.25 GB").
Proof.
  destruct (bandwidth_sensors_defined [] fractional_record fractional_normalized
              eq_refl) as [_ Hm].
  destruct Hm as (t & r & Ht & Hrem & Htot & Hr & _); [discriminate|].
  injection Ht as <-. injection Hrem as <-.
  split; [exact Htot | exact Hr].
Defined.

(** ** The set-up form *)

(** X16.  The set-up form creates the entry exactly when get-balance
    returns.  When get-balance fails with any error of the client,
    bad credentials and timeouts alike, the form is shown again with
    the error "invalid_auth"; the error "cannot_connect" is never
    shown, because [validate_credentials] has already turned every
    client error into False. *)
Theorem setup_form_outcomes (session : ClientSession) (configured : string -> bool)
        (ui : config_flow.UserInput) (l : log) :
  configured (config_flow.api_key ui) = false ->
  let api := {| _api_key := config_flow.api_key ui;
                _api_secret := config_flow.api_secret ui;
                _session := session |} in
  let outcome := config_flow.async_step_user session configured (Some ui) l in
  (forall v l1, get_balance api l = (Ok v, l1) ->
                outcome = (Ok (config_flow.CreateEntry "Proxy-Cheap" ui), l1)) /\
  (forall e l1, get_balance api l = (Err e, l1) ->
                is_ProxyCheapApiError e = true ->
                exists l2,
                  outcome = (Ok (config_flow.ShowForm "user" [("base", "invalid_auth")]), l2)) /\
  (forall step errors l', outcome = (Ok (config_flow.ShowForm step errors), l') ->
                          ~ In ("base", "cannot_connect") errors) /\
  (forall title data l', outcome = (Ok (config_flow.CreateEntry title data), l') ->
                         exists v, get_balance api l = (Ok v, l')).
Proof.
  intros Hc. cbv zeta.
  unfold config_flow.async_step_user. rewrite Hc.
  set (api := {| _api_key := config_flow.api_key ui;
                 _api_secret := config_flow.api_secret ui;
                 _session := session |}).
  unfold config_flow.credential_errors, validate_credentials,
    try_except, io_bind, ret, raise, emit.
  destruct (get_balance api l) as [[v|e] l1].
  - repeat split.
    + intros v0 l0 H. inversion H. reflexivity.
    + intros e l0 H. discriminate H.
    + intros step errors l' H. discriminate H.
    + intros title data l' H. inversion H. eauto.
  - repeat split.
    + intros v0 l0 H. discriminate H.
    + intros e0 l0 H He. inversion H; subst.
      destruct e0; simpl in He |- *; try discriminate He; eauto.
    + intros step errors l' H.
      destruct e; simpl in H; inversion H; subst; simpl; intuition discriminate.
    + intros title data l' H.
      destruct e; simpl in H; discriminate H.
Qed.

Lemma setup_form_outcomes_witness :
  config_flow.async_step_user (session_of timing_out) (fun _ => false)
    (Some first_input) []
  = (Ok (config_flow.ShowForm "user" [("base", "invalid_auth")]),
     [(WARNING, "API error during validation: Timeout connecting to API: ")]).
Proof.
  destruct (proj1 (proj2 (setup_form_outcomes (session_of timing_out)
                            (fun _ => false) first_input [] eq_refl))
              (ProxyCheapApiError "Timeout connecting to API: ") []
              eq_refl eq_refl) as [l2 H].
  rewrite H. f_equal. vm_compute in H. now inversion H.
Defined.

(** ** The whitelist text *)
























Lemma parse_ips_blank (s : string) :
  (forall p, In p (split_comma s) -> strip p = "") -> parse_ips s = [].
Proof.
  unfold parse_ips. intros H.
  induction (split_comma s) as [|p rest IH]; simpl; auto.
  rewrite (H p) by (simpl; auto). simpl. apply IH.
  intros q Hq. apply H. simpl. auto.
Qed.

(** X19.  An empty whitelist is never sent: when the text holds no
    address (it is empty, or all its comma-separated pieces are
    blank), the request that [update_whitelist] issues for the
    handler's list carries no `ips` parameter and is the request it
    issues for None. *)
Theorem blank_whitelist_sends_no_parameter (self : ProxyCheapApi) (proxy_id : Z)
        (ips_input : string) :
  (forall p, In p (split_comma ips_input) -> strip p = "") ->
  update_whitelist self proxy_id (Some (parse_ips ips_input))
  = update_whitelist self proxy_id None.
Proof.
  intros H. rewrite (parse_ips_blank _ H). reflexivity.
Qed.

Lemma blank_whitelist_sends_no_parameter_witness :
  update_whitelist (api_of unreachable) 7 (Some (parse_ips " , ,"))
  = update_whitelist (api_of unreachable) 7 None.
Proof.
  apply blank_whitelist_sends_no_parameter.
  intros p [<-|[<-|[<-|[]]]]; reflexivity.
Defined.

(** X20.  A proxy that the last poll did not keep reads as absent and
    never as an error: for every identifier that can be hashed and
    under which the poll kept no record, every sensor value is None,
    every binary sensor state is None and the attributes are empty,
    whatever the description; the same holds before the first poll. *)
Theorem absent_proxy_reads_none (names : name_map) (balance_data : value)
        (items : list value) (s : snapshot) (k : value) :
  build_snapshot names balance_data (VList items) = Ok s ->
  hashable k = true ->
  last_with_id items k = None ->
  (forall value_fn, sensor.native_value value_fn (Some s) k = Ok VNone) /\
  (forall is_on_fn, binary_sensor.is_on is_on_fn (Some s) k = Ok None) /\
  (forall key, sensor.extra_state_attributes (Some s) k key = Ok []) /\
  (forall value_fn, sensor.native_value value_fn None k = Ok VNone) /\
  (forall is_on_fn, binary_sensor.is_on is_on_fn None k = Ok None).
Proof.
  intros H Hk Hl. apply build_snapshot_inv in H.
  destruct H as (m & bd & Hc & _ & ->).
  unfold collect_proxies in Hc. simpl in Hc.
  pose proof (collect_loop_lookup _ _ _ _ Hc k) as L.
  rewrite Hl in L. simpl in L.
  assert (E : lookup_proxy
                [ ("balance", FValue (dict_get_or bd "balance" (VInt 0)));
                  ("currency", FValue (dict_get_or bd "currency" (VStr "USD")));
                  ("proxies", FProxies m);
                  ("proxy_count", FValue (VInt (Z.of_nat (List.length m)))) ] k
              = Ok VNone).
  { unfold lookup_proxy. simpl field_lookup. now rewrite Hk, L. }
  unfold sensor.native_value, binary_sensor.is_on, sensor.extra_state_attributes.
  rewrite E. repeat split.
Qed.

Lemma absent_proxy_reads_none_witness :
  sensor.native_value sensor.value_fn_status (Some poll_snapshot) (VInt 0)
  = Ok VNone.
Proof.
  apply (proj1 (absent_proxy_reads_none [] (VDict []) poll_items poll_snapshot
                  (VInt 0) eq_refl eq_refl eq_refl)).
Defined.

(** ** The client session *)

Lemma lifecycle_supplied_step (s : nat) (calls : list lifecycle.call) :
  lifecycle.run calls (lifecycle.init (Some s))
  = (lifecycle.init (Some s), map (fun _ => s) (filter (fun c => match c with lifecycle.Request _ => true | lifecycle.Close => false end) calls), []).
Proof.
  induction calls as [|[fresh|] rest IH]; simpl; auto.
  - unfold lifecycle._get_session. simpl.
    change {| lifecycle._session := Some s; lifecycle._close_session := false |}
      with (lifecycle.init (Some s)).
    now rewrite IH.
  - unfold lifecycle.close. simpl.
    change {| lifecycle._session := Some s; lifecycle._close_session := false |}
      with (lifecycle.init (Some s)).
    now rewrite IH.
Qed.

(** X21.  A session supplied by the caller is never closed and never
    replaced: after any sequence of requests and calls of [close],
    every request has used the supplied session, no session has been
    closed and the client still holds the supplied session. *)
Theorem supplied_session_is_never_closed (s : nat) (calls : list lifecycle.call) :
  forall final used closed,
    lifecycle.run calls (lifecycle.init (Some s)) = (final, used, closed) ->
    closed = [] /\
    final = lifecycle.init (Some s) /\
    (forall u, In u used -> u = s).
Proof.
  intros final used closed H. rewrite lifecycle_supplied_step in H.
  inversion H; subst. repeat split.
  intros u Hu. apply in_map_iff in Hu. destruct Hu as (c & E & _). now subst.
Qed.

Lemma supplied_session_is_never_closed_witness :
  snd (lifecycle.run
         [lifecycle.Request 1%nat; lifecycle.Close; lifecycle.Request 2%nat]
         (lifecycle.init (Some 0%nat)))
  = [].
Proof.
  destruct (lifecycle.run
              [lifecycle.Request 1%nat; lifecycle.Close; lifecycle.Request 2%nat]
              (lifecycle.init (Some 0%nat))) as [[final used] closed] eqn:E.
  destruct (supplied_session_is_never_closed 0%nat
              [lifecycle.Request 1%nat; lifecycle.Close; lifecycle.Request 2%nat]
              final used closed E) as (-> & _).
  reflexivity.
Defined.

Lemma lifecycle_owned_run (calls : list lifecycle.call) (self : lifecycle.t) :
  owns_its_session self ->
  forall final used closed,
    lifecycle.run calls self = (final, used, closed) ->
    owns_its_session final /\
    (forall c, In c closed ->
               lifecycle._session self = Some c \/
               In (lifecycle.Request c) calls).
Proof.
  revert self.
  induction calls as [|[fresh|] rest IH]; simpl;
    intros self Ho final used closed H.
  - inversion H; subst. split; [exact Ho | intros c []].
  - destruct (lifecycle._get_session fresh self) as [self' s] eqn:G.
    destruct (lifecycle.run rest self') as [[f u] c] eqn:R.
    inversion H; subst.
    assert (Ho' : owns_its_session self' /\
                  (forall x, lifecycle._session self' = Some x ->
                             lifecycle._session self = Some x \/ x = fresh)).
    { unfold lifecycle._get_session in G.
      destruct (lifecycle._session self) as [s0|] eqn:S; inversion G; subst.
      - split; [exact Ho | intros x E; left; congruence].
      - split; [right; reflexivity|]. simpl. intros x E. inversion E. auto. }
    destruct Ho' as [Ho' Hs].
    destruct (IH _ Ho' _ _ _ R) as [Hf Hc]. split; [exact Hf|].
    intros c0 Hin. destruct (Hc c0 Hin) as [E|E]; [|auto].
    destruct (Hs _ E) as [E'| ->]; auto.
  - destruct (lifecycle.close self) as [self' c0] eqn:C.
    destruct (lifecycle.run rest self') as [[f u] c] eqn:R.
    inversion H; subst.
    assert (Ho' : owns_its_session self' /\
                  (forall x, In x c0 -> lifecycle._session self = Some x) /\
                  (forall x, lifecycle._session self' = Some x ->
                             lifecycle._session self = Some x)).
    { unfold lifecycle.close in C.
      destruct (lifecycle._close_session self) eqn:B;
        destruct (lifecycle._session self) as [s0|] eqn:S; inversion C; subst;
        simpl.
      - split; [left; reflexivity|]. split.
        + intros x [<-|[]]. reflexivity.
        + discriminate.
      - split; [exact Ho|]. split; [intros x []|]. intros x E; congruence.
      - split; [exact Ho|]. split; [intros x []|]. intros x E; congruence.
      - split; [exact Ho|]. split; [intros x []|]. intros x E; congruence. }
    destruct Ho' as (Ho' & Hc0 & Hs).
    destruct (IH _ Ho' _ _ _ R) as [Hf Hc]. split; [exact Hf|].
    intros c1 Hin. apply in_app_or in Hin. destruct Hin as [Hin|Hin].
    + left. auto.
    + destruct (Hc c1 Hin) as [E|E]; auto.
Qed.

(** X22.  A client built without a session creates one at its first
    request and owns it: [close] closes that session and forgets it,
    so that the next request creates a new one.  Over any sequence of
    calls, every session closed is one that a request of the sequence
    created. *)
Theorem own_session_is_closed_and_renewed (calls : list lifecycle.call) :
  (forall fresh fresh',
      lifecycle.run [lifecycle.Request fresh; lifecycle.Close; lifecycle.Request fresh']
                    (lifecycle.init None)
      = ({| lifecycle._session := Some fresh'; lifecycle._close_session := true |},
         [fresh; fresh'], [fresh])) /\
  (forall final used closed,
      lifecycle.run calls (lifecycle.init None) = (final, used, closed) ->
      forall c, In c closed -> In (lifecycle.Request c) calls).
Proof.
  split; [reflexivity|].
  intros final used closed H c Hin.
  destruct (lifecycle_owned_run calls (lifecycle.init None) (or_introl eq_refl)
              final used closed H) as [_ Hc].
  destruct (Hc c Hin) as [E|E]; [discriminate E | exact E].
Qed.

Lemma own_session_is_closed_and_renewed_witness :
  In 4%nat (snd (lifecycle.run [lifecycle.Request 4%nat; lifecycle.Close]
                               (lifecycle.init None))) /\
  In (lifecycle.Request 4%nat) [lifecycle.Request 4%nat; lifecycle.Close].
Proof.
  assert (Hin : In 4%nat (snd (lifecycle.run
                                 [lifecycle.Request 4%nat; lifecycle.Close]
                                 (lifecycle.init None)))).
  { simpl. auto. }
  split; [exact Hin|].
  apply (proj2 (own_session_is_closed_and_renewed
                  [lifecycle.Request 4%nat; lifecycle.Close])
           _ _ _ eq_refl 4%nat Hin).
Defined.

(** ** Unique ids *)

Lemma str_in_after (sep e rest : string) :
  String.prefix sep (sep ++ rest) = true ->
  str_in sep (e ++ sep ++ rest) = true.
Proof.
  intros Hp. induction e as [|c t IH]; simpl.
  - destruct (sep ++ rest); simpl in *; now rewrite Hp.
  - rewrite IH. apply orb_true_r.
Qed.

Lemma prefix_proxy_self (rest : string) :
  String.prefix "_proxy_" ("_proxy_" ++ rest) = true.
Proof. destruct rest; reflexivity. Qed.

Lemma prefix_mismatch (a c : ascii) (s1 s2 : string) :
  Ascii.eqb c a = false -> String.prefix (String a s1) (String c s2) = false.
Proof.
  intros H.
  change (String.prefix (String a s1) (String c s2))
    with (match ascii_dec a c with
          | left _ => String.prefix s1 s2
          | right _ => false
          end).
  destruct (ascii_dec a c) as [E|E]; [|reflexivity].
  subst c. now rewrite Ascii.eqb_refl in H.
Qed.

Lemma after_first_proxy (e rest : string) :
  has_char "_" e = false ->
  after_first "_proxy_" (e ++ "_proxy_" ++ rest) = Some rest.
Proof.
  induction e as [|c t IH]; intros H.
  - destruct rest; reflexivity.
  - simpl in H. apply orb_false_iff in H. destruct H as [Hc Ht].
    change (after_first "_proxy_" (String c t ++ "_proxy_" ++ rest))
      with (if String.prefix "_proxy_" (String c (t ++ "_proxy_" ++ rest))
            then Some (drop (String.length "_proxy_")
                            (String c (t ++ "_proxy_" ++ rest)))
            else after_first "_proxy_" (t ++ "_proxy_" ++ rest)).
    rewrite (prefix_mismatch _ _ _ _ Hc). apply IH. exact Ht.
Qed.

Lemma split_on_cons (sep : ascii) (s : string) :
  exists h r, split_on sep s = h :: r.
Proof.
  induction s as [|c t IH]; simpl; eauto.
  destruct (Ascii.eqb c sep); eauto.
  destruct IH as (h & r & ->). eauto.
Qed.

Lemma split_on_app (sep : ascii) (a rest : string) :
  split_on sep (a ++ String sep rest)
  = (split_on sep a ++ split_on sep rest)%list.
Proof.
  induction a as [|c t IH]; simpl.
  - now rewrite Ascii.eqb_refl.
  - destruct (Ascii.eqb c sep); [now rewrite IH|].
    rewrite IH. destruct (split_on_cons sep t) as (h & r & ->). reflexivity.
Qed.

Lemma split_on_whole (sep : ascii) (a : string) :
  has_char sep a = false -> split_on sep a = [a].
Proof.
  induction a as [|c t IH]; simpl; auto.
  intros H. apply orb_false_iff in H. destruct H as [Hc Ht].
  now rewrite Hc, IH.
Qed.

Lemma join_split_on (sep : ascii) (s : string) :
  join_with (String sep EmptyString) (split_on sep s) = s.
Proof.
  induction s as [|c t IH]; simpl; auto.
  destruct (split_on_cons sep t) as (h & r & E). rewrite E in *.
  destruct (Ascii.eqb c sep) eqn:C.
  - apply Ascii.eqb_eq in C. subst c.
    change (join_with (String sep "") ("" :: h :: r))
      with ("" ++ String sep "" ++ join_with (String sep "") (h :: r)).
    now rewrite IH.
  - destruct r as [|h' r'].
    + simpl in *. now rewrite IH.
    + change (join_with (String sep "") (String c h :: h' :: r'))
        with (String c (h ++ String sep "" ++ join_with (String sep "") (h' :: r'))).
      f_equal. exact IH.
Qed.

(** X23.  The options listener recovers the sensor key from the
    unique id that the entity classes build, for an entry id and a
    proxy id that contain no underscore (entry ids are generated
    without one; proxy ids are numbers): always for a binary sensor,
    whose id ends in "_binary", and for a sensor whenever the last
    underscore-separated part of its key is not "binary" itself.
    Keys may contain underscores. *)
Theorem listener_recovers_sensor_key (entry_id : string) (proxy_id : value)
        (key : string) :
  has_char "_" entry_id = false ->
  has_char "_" (py_str proxy_id) = false ->
  listener_sensor_key (proxy_binary_sensor_unique_id entry_id proxy_id key)
  = Some key /\
  (List.last (split_on "_" key) "" <> "binary" ->
   listener_sensor_key (proxy_sensor_unique_id entry_id proxy_id key)
   = Some key).
Proof.
  intros He Hp.
  unfold listener_sensor_key, proxy_binary_sensor_unique_id,
    proxy_sensor_unique_id.
  rewrite !str_in_after by apply prefix_proxy_self. cbn [negb].
  rewrite !after_first_proxy by exact He.
  split.
  - change (py_str proxy_id ++ "_" ++ key ++ "_binary")
      with (py_str proxy_id ++ String "_" (key ++ String "_" "binary")).
    rewrite split_on_app, (split_on_whole _ _ Hp), split_on_app.
    cbn [app List.tl].
    change (split_on "_" "binary") with ["binary"].
    rewrite app_comm_cons, last_last, String.eqb_refl, removelast_last.
    f_equal. apply join_split_on.
  - intros Hlast.
    change (py_str proxy_id ++ "_" ++ key)
      with (py_str proxy_id ++ String "_" key).
    rewrite split_on_app, (split_on_whole _ _ Hp).
    cbn [app List.tl].
    destruct (split_on_cons "_" key) as (h & r & E).
    assert (Hl : List.last (py_str proxy_id :: split_on "_" key) ""
                 = List.last (split_on "_" key) "").
    { rewrite E. reflexivity. }
    rewrite Hl. apply String.eqb_neq in Hlast. rewrite Hlast.
    f_equal. apply join_split_on.
Qed.

Lemma listener_recovers_sensor_key_witness :
  listener_sensor_key
    (proxy_binary_sensor_unique_id "01J8ZQ4" (VInt 7) "auto_extend_enabled")
  = Some "auto_extend_enabled" /\
  listener_sensor_key
    (proxy_sensor_unique_id "01J8ZQ4" (VInt 7) "bandwidth_remaining")
  = Some "bandwidth_remaining".
Proof.
  destruct (listener_recovers_sensor_key "01J8ZQ4" (VInt 7) "auto_extend_enabled"
              eq_refl eq_refl) as [Hb _].
  destruct (listener_recovers_sensor_key "01J8ZQ4" (VInt 7) "bandwidth_remaining"
              eq_refl eq_refl) as [_ Hs].
  split; [exact Hb | apply Hs; discriminate].
Defined.

(** ** The write operations *)

Lemma str_of_Z_inj (a b : Z) : str_of_Z a = str_of_Z b -> a = b.
Proof.
  unfold str_of_Z. intros H. apply DecimalZ.to_int_inj.
  assert (Hnn : forall z, Z.to_int z <> Decimal.Pos Decimal.Nil /\
                          Z.to_int z <> Decimal.Neg Decimal.Nil).
  { intros [|p|p]; simpl; split; try discriminate;
      intros E; injection E as E;
      now apply DecimalPos.Unsigned.to_uint_nonnil in E. }
  pose proof (NilZero.isi (Z.to_int a) (proj1 (Hnn a)) (proj2 (Hnn a))) as Ha.
  pose proof (NilZero.isi (Z.to_int b) (proj1 (Hnn b)) (proj2 (Hnn b))) as Hb.
  rewrite H in Ha. congruence.
Qed.

Lemma string_length_app (a b : string) :
  String.length (a ++ b) = (String.length a + String.length b)%nat.
Proof. induction a as [|x a IH]; simpl; auto. Qed.

Lemma string_app_inv_tail (a b s : string) : a ++ s = b ++ s -> a = b.
Proof.
  intros H.
  assert (L : String.length a = String.length b).
  { apply (f_equal String.length) in H.
    rewrite !string_length_app in H. lia. }
  revert b H L. induction a as [|x a IH]; intros [|y b] H L; simpl in *;
    try discriminate; auto.
  injection H as -> H. f_equal. apply IH; auto.
Qed.

(** X24.  An operation on one proxy never addresses another: each
    endpoint built for a proxy id determines that id, because the
    decimal text of an integer can be read back. *)
Theorem endpoints_determine_the_proxy (a b : Z) :
  (ENDPOINT_PROXY a = ENDPOINT_PROXY b -> a = b) /\
  (ENDPOINT_WHITELIST a = ENDPOINT_WHITELIST b -> a = b) /\
  (ENDPOINT_EXTEND a = ENDPOINT_EXTEND b -> a = b) /\
  (ENDPOINT_AUTO_EXTEND_ENABLE a = ENDPOINT_AUTO_EXTEND_ENABLE b -> a = b) /\
  (ENDPOINT_AUTO_EXTEND_DISABLE a = ENDPOINT_AUTO_EXTEND_DISABLE b -> a = b).
Proof.
  unfold ENDPOINT_PROXY, ENDPOINT_WHITELIST, ENDPOINT_EXTEND,
    ENDPOINT_AUTO_EXTEND_ENABLE, ENDPOINT_AUTO_EXTEND_DISABLE.
  repeat split; intros H; simpl in H; injection H as H;
    apply str_of_Z_inj; try exact H;
    eapply string_app_inv_tail; exact H.
Qed.

Lemma endpoints_determine_the_proxy_witness :
  ENDPOINT_EXTEND 12 = "proxies/12/extend-period" /\
  (ENDPOINT_EXTEND 12 = ENDPOINT_EXTEND 12 -> 12 = 12).
Proof.
  split; [reflexivity|].
  apply (proj1 (proj2 (proj2 (endpoints_determine_the_proxy 12 12)))).
Defined.

(** X25.  The three write handlers treat the client alike: the
    refresh of the coordinator is requested exactly when the call of
    the client returned; a failure of the client (any
    ProxyCheapApiError) is logged once at ERROR level and reaches the
    caller as a HomeAssistantError that carries the text of the
    failure; any other exception passes through unchanged and
    unlogged. *)
Theorem write_handlers_refresh_only_on_success (api : ProxyCheapApi)
        (proxy_id months : Z) (ips_input : string) (enabled : bool) (l : log) :
  let spec (call : io value) (handler : log -> services.service_outcome * log)
           (what : string) (whom : string) :=
    (forall v l1, call l = (Ok v, l1) ->
                  handler l = ({| services.error := None;
                                  services.refreshed := true |}, l1)) /\
    (forall e l1, call l = (Err e, l1) -> is_ProxyCheapApiError e = true ->
                  handler l
                  = ({| services.error :=
                          Some (services.HomeAssistantError
                                  (what ++ ": " ++ exn_str e));
                        services.refreshed := false |},
                     (l1 ++ [(ERROR, (whom ++ str_of_Z proxy_id ++ ": "
                                      ++ exn_str e)%string)])%list)) /\
    (forall e l1, call l = (Err e, l1) -> is_ProxyCheapApiError e = false ->
                  handler l
                  = ({| services.error := Some (services.Raised e);
                        services.refreshed := false |}, l1)) /\
    (services.refreshed (fst (handler l)) = true <->
     exists v l1, call l = (Ok v, l1)) in
  spec (extend_proxy api proxy_id months)
       (services.handle_extend_proxy api proxy_id months)
       "Failed to extend proxy" "Failed to extend proxy " /\
  spec (update_whitelist api proxy_id (Some (parse_ips ips_input)))
       (services.handle_update_whitelist api proxy_id ips_input)
       "Failed to update whitelist" "Failed to update whitelist for proxy " /\
  spec (set_auto_extend api proxy_id enabled)
       (services.handle_set_auto_extend api proxy_id enabled)
       "Failed to set auto extend" "Failed to set auto extend for proxy ".
Proof.
  cbv zeta.
  unfold services.handle_extend_proxy, services.handle_update_whitelist,
    services.handle_set_auto_extend.
  split; [|split].
  - handler_spec (extend_proxy api proxy_id months l).
  - handler_spec (update_whitelist api proxy_id (Some (parse_ips ips_input)) l).
  - handler_spec (set_auto_extend api proxy_id enabled l).
Qed.

Lemma write_handlers_refresh_only_on_success_witness :
  services.handle_extend_proxy (api_of timing_out) 7 1 []
  = ({| services.error :=
          Some (services.HomeAssistantError
                  "Failed to extend proxy: Timeout connecting to API: ");
        services.refreshed := false |},
     [(ERROR, "Failed to extend proxy 7: Timeout connecting to API: ")]).
Proof.
  apply (proj1 (proj2 (proj1 (write_handlers_refresh_only_on_success
                                (api_of timing_out) 7 1 "" true [])))
           (ProxyCheapApiError "Timeout connecting to API: ") []);
    reflexivity.
Defined.

Lemma get_proxies_fails_as_request_witness :
  get_proxies (api_of unreachable) []
  = (Err (ProxyCheapApiError "Error connecting to API: Cannot connect to host"), []).
Proof.
  apply (proj2 (get_proxies_fails_as_request (api_of unreachable) [] []
                  (ProxyCheapApiError
                     "Error connecting to API: Cannot connect to host"))).
  reflexivity.
Defined.
